(** * SRTM gateway: validation, SOAP clients, API and webhook

    A shallow embedding of the request validators (models.py), the two SOAP
    clients (soap_client.py, consulta_client.py), the transaction log
    (database.py), the endpoints of the API (main.py) and the inbound
    webhook (webhook.py), followed by the properties proved about them.

    Conventions.
    - A Python [str] is a [string] whose characters are code points below
      256 (text with other code points is outside the model); a Python
      [bytes] value is a [string] whose characters are bytes. [encode_utf8]
      goes from the first reading to the second.
    - [None] is [None]; an [Optional[str]] is an [option string].
    - A raised exception is a value of type [exception]; code that may raise
      returns [exception + A].
    - Clock readings ([timestamp], [response_time_ms]) and log records are
      not part of the model; an expression that is evaluated only to be
      logged is kept when it can raise.
    - A reading of the clock or a random value that goes into a message is
      an argument of the function that reads it. *)

From stdpp Require Import gmap strings list pretty.
From Stdlib Require Import ZArith Ascii String Lia.

Open Scope string_scope.
Set Warnings "-register-all,-abstract-large-number".

(** ** Exceptions *)

Inductive exception : Type :=
| ValueError (msg : string)
| XMLSyntaxError (msg : string)
| HTTPError (msg : string)
| RequestException (msg : string)
| UnicodeDecodeError
| Fault (message detail : string).

(** [str(e)] *)
Definition str_exception (e : exception) : string :=
  match e with
  | ValueError m | XMLSyntaxError m | HTTPError m | RequestException m => m
  | UnicodeDecodeError => "'utf-8' codec can't decode byte"
  | Fault m _ => m
  end.

Definition is_Fault (e : exception) : bool :=
  match e with Fault _ _ => true | _ => false end.

Definition raises {A} (r : exception + A) : Prop := ∃ e, r = inl e.

(** ** Python string helpers *)

(** Truth value of a [str]. *)
Definition truthy (s : string) : bool :=
  match s with "" => false | String _ _ => true end.

(** [str.isspace] on one code point below 256. *)
Definition isspace (c : ascii) : bool :=
  let n := N_of_ascii c in
  ((9 <=? n) && (n <=? 13) || (28 <=? n) && (n <=? 32)
   || (n =? 133) || (n =? 160))%N.

Fixpoint lstrip (s : string) : string :=
  match s with
  | "" => ""
  | String c r => if isspace c then lstrip r else s
  end.

Fixpoint rstrip (s : string) : string :=
  match s with
  | "" => ""
  | String c r =>
      match rstrip r with
      | "" => if isspace c then "" else String c ""
      | r' => String c r'
      end
  end.

(** [s.strip()] *)
Definition strip (s : string) : string := lstrip (rstrip s).

(** The double quote character, and the string made of it. *)
Definition dquote : ascii := ascii_of_nat 34.
Definition quot : string := String dquote "".

(** The line feed and the carriage return followed by a line feed. *)
Definition nl : string := String (ascii_of_nat 10) "".
Definition crlf : string := String (ascii_of_nat 13) nl.

(** Whether the character [c] occurs in [s]. *)
Fixpoint occurs (c : ascii) (s : string) : bool :=
  match s with
  | "" => false
  | String a r => Ascii.eqb a c || occurs c r
  end.

(** Whether [needle] is a substring of [s]. *)
Fixpoint contains (needle s : string) : bool :=
  String.prefix needle s
  || match s with
     | "" => false
     | String _ r => contains needle r
     end.

(** [s.replace(old, new)] for a one-character [old]. *)
Fixpoint replace_char (old : ascii) (new : string) (s : string) : string :=
  match s with
  | "" => ""
  | String c r =>
      if Ascii.eqb c old then new +:+ replace_char old new r
      else String c (replace_char old new r)
  end.

(** [html.escape(s, quote)] *)
Definition html_escape (s : string) (quote : bool) : string :=
  let s := replace_char "&" "&amp;" s in
  let s := replace_char "<" "&lt;" s in
  let s := replace_char ">" "&gt;" s in
  if quote then
    let s := replace_char dquote "&quot;" s in
    replace_char "'" "&#x27;" s
  else s.

(** [sep.join(parts)] *)
Fixpoint join (sep : string) (parts : list string) : string :=
  match parts with
  | [] => ""
  | [x] => x
  | x :: rest => x +:+ sep +:+ join sep rest
  end.

(** [s.encode('utf-8')] for code points below 256. *)
Fixpoint encode_utf8 (s : string) : string :=
  match s with
  | "" => ""
  | String c r =>
      let n := N_of_ascii c in
      if (n <? 128)%N then String c (encode_utf8 r)
      else String (ascii_of_N (192 + n / 64)) 
             (String (ascii_of_N (128 + n mod 64)) (encode_utf8 r))
  end.

Definition continuation (c : ascii) : bool :=
  let n := N_of_ascii c in ((128 <=? n) && (n <=? 191))%N.

Definition between (lo hi : N) (c : ascii) : bool :=
  let n := N_of_ascii c in ((lo <=? n) && (n <=? hi))%N.

(** Whether [b.decode('utf-8')] returns: the bytes are well-formed UTF-8
    (no overlong forms, no surrogates, nothing above U+10FFFF). *)
Fixpoint utf8_decodes (b : string) : bool :=
  match b with
  | "" => true
  | String c0 r =>
      if between 0 127 c0 then utf8_decodes r
      else if between 194 223 c0 then
        match r with
        | String c1 r1 => continuation c1 && utf8_decodes r1
        | _ => false
        end
      else if between 224 239 c0 then
        match r with
        | String c1 (String c2 r2) =>
            (if between 224 224 c0 then between 160 191 c1
             else if between 237 237 c0 then between 128 159 c1
             else continuation c1)
            && continuation c2 && utf8_decodes r2
        | _ => false
        end
      else if between 240 244 c0 then
        match r with
        | String c1 (String c2 (String c3 r3)) =>
            (if between 240 240 c0 then between 144 191 c1
             else if between 244 244 c0 then between 128 143 c1
             else continuation c1)
            && continuation c2 && continuation c3 && utf8_decodes r3
        | _ => false
        end
      else false
  end.

(** [b.decode('utf-8')]; only whether it raises is modelled. *)
Definition decode_utf8 (b : string) : exception + unit :=
  if utf8_decodes b then inr tt else inl UnicodeDecodeError.

(** ** lxml element trees *)

(** An element: its namespace URI (if any) and local name, which lxml shows
    as the tag [{uri}local]; its [text] (the character data before the first
    child, [None] when there is none); its child elements in document
    order. *)
Inductive element : Type :=
| Element (namespace : option string) (localname : string)
          (text : option string) (children : list element).

Definition namespace (e : element) : option string :=
  match e with Element ns _ _ _ => ns end.
Definition localname (e : element) : string :=
  match e with Element _ n _ _ => n end.
Definition text (e : element) : option string :=
  match e with Element _ _ t _ => t end.
Definition children (e : element) : list element :=
  match e with Element _ _ _ cs => cs end.

(** The proper descendants of [e] in document order. *)
Fixpoint descendants (e : element) : list element :=
  match e with
  | Element _ _ _ cs => flat_map (λ c, c :: descendants c) cs
  end.

(** The two ElementPath shapes the clients use, both with the namespace
    wildcard: ['{*}name'] (a child) and ['.//{*}name'] (a descendant). *)
Inductive path : Type :=
| Child (name : string)
| Descendant (name : string).

Definition has_localname (name : string) (e : element) : bool :=
  String.eqb (localname e) name.

(** [e.find(path)]: the first match in document order. *)
Definition find (p : path) (e : element) : option element :=
  match p with
  | Child name => head (filter (λ c, has_localname name c = true) (children e))
  | Descendant name =>
      head (filter (λ d, has_localname name d = true) (descendants e))
  end.

(** [e.findtext(path, default)]: [default] when nothing matches, the empty
    string when the match has no text. *)
Definition findtext (p : path) (default : string) (e : element) : string :=
  match find p e with
  | None => default
  | Some el => match text el with Some t => t | None => "" end
  end.

(** XPath name test for an unprefixed name: an element in no namespace. *)
Definition unqualified (name : string) (e : element) : bool :=
  match namespace e with
  | None => String.eqb (localname e) name
  | Some _ => false
  end.

(** [root.xpath('.//name')] *)
Definition xpath_descendant (name : string) (root : element) : list element :=
  filter (λ d, unqualified name d = true) (descendants root).

(** Every (parent, child) pair below [e], ordered by the child's position
    in the document. *)
Fixpoint child_steps (e : element) : list (element * element) :=
  match e with
  | Element _ _ _ cs => flat_map (λ c, (e, c) :: child_steps c) cs
  end.

(** [root.xpath('.//outer/inner')]: the [inner] children of the [outer]
    elements that are proper descendants of [root]. *)
Definition xpath_descendant_child (outer inner : string) (root : element)
    : list element :=
  snd <$> filter (λ pc, unqualified outer pc.1 = true ∧ unqualified inner pc.2 = true)
            (flat_map child_steps (children root)).

(** ** datetime *)

Record datetime : Type := Datetime {
  year : nat; month : nat; day : nat;
  hour : nat; minute : nat; second : nat
}.

(** The value of a decimal digit. *)
Definition digit (c : ascii) : option nat :=
  let n := nat_of_ascii c in
  if (48 <=? n)%nat && (n <=? 57)%nat then Some (n - 48)%nat else None.

(** The character of a decimal digit. *)
Definition digit_char (d : nat) : ascii := ascii_of_nat (48 + d mod 10).

(** A backtracking matcher for one directive of a [strptime] format: the
    ways the directive can match a prefix of the input, each with the number
    read and the input that is left, in the order the regular expression of
    the directive tries its alternatives. *)
Definition matcher : Type := string → list (nat * string).

(** Two digits [d1 d2] with [p d1 d2]. *)
Definition two (p : nat → nat → bool) : matcher := λ s,
  match s with
  | String c1 (String c2 r) =>
      match digit c1, digit c2 with
      | Some d1, Some d2 => if p d1 d2 then [((10 * d1 + d2)%nat, r)] else []
      | _, _ => []
      end
  | _ => []
  end.

(** One digit [d] with [p d]. *)
Definition one (p : nat → bool) : matcher := λ s,
  match s with
  | String c r =>
      match digit c with
      | Some d => if p d then [(d, r)] else []
      | None => []
      end
  | _ => []
  end.

(** A space followed by one digit [d] with [p d]. *)
Definition space_one (p : nat → bool) : matcher := λ s,
  match s with
  | String " " r => one p r
  | _ => []
  end.

Definition alt (m1 m2 : matcher) : matcher := λ s, (m1 s ++ m2 s)%list.

Definition nonzero (d : nat) : bool := (1 <=? d)%nat.
Definition any (d : nat) : bool := true.

(** [%Y]: [\d\d\d\d] *)
Definition re_Y : matcher := λ s,
  match s with
  | String c1 (String c2 (String c3 (String c4 r))) =>
      match digit c1, digit c2, digit c3, digit c4 with
      | Some d1, Some d2, Some d3, Some d4 =>
          [((1000 * d1 + 100 * d2 + 10 * d3 + d4)%nat, r)]
      | _, _, _, _ => []
      end
  | _ => []
  end.

(** [%m]: [1[0-2]|0[1-9]|[1-9]] *)
Definition re_m : matcher :=
  alt (two (λ a b, (a =? 1)%nat && (b <=? 2)%nat))
 (alt (two (λ a b, (a =? 0)%nat && nonzero b))
      (one nonzero)).

(** [%d]: [3[0-1]|[1-2]\d|0[1-9]|[1-9]| [1-9]] *)
Definition re_d : matcher :=
  alt (two (λ a b, (a =? 3)%nat && (b <=? 1)%nat))
 (alt (two (λ a b, nonzero a && (a <=? 2)%nat))
 (alt (two (λ a b, (a =? 0)%nat && nonzero b))
 (alt (one nonzero)
      (space_one nonzero)))).

(** [%H]: [2[0-3]|[0-1]\d|\d] *)
Definition re_H : matcher :=
  alt (two (λ a b, (a =? 2)%nat && (b <=? 3)%nat))
 (alt (two (λ a b, (a <=? 1)%nat))
      (one any)).

(** [%M]: [[0-5]\d|\d] *)
Definition re_M : matcher :=
  alt (two (λ a b, (a <=? 5)%nat)) (one any).

(** [%S]: [6[0-1]|[0-5]\d|\d] *)
Definition re_S : matcher :=
  alt (two (λ a b, (a =? 6)%nat && (b <=? 1)%nat))
 (alt (two (λ a b, (a <=? 5)%nat))
      (one any)).

(** The matches of the format ['%Y%m%d%H%M%S'] against a prefix of the
    input, in the order a backtracking engine finds them. *)
Definition re_YmdHMS (s : string) : list (datetime * string) :=
  '(y, s) ← re_Y s;
  '(m, s) ← re_m s;
  '(d, s) ← re_d s;
  '(hh, s) ← re_H s;
  '(mm, s) ← re_M s;
  '(ss, s) ← re_S s;
  [(Datetime y m d hh mm ss, s)].

Definition isleap (y : nat) : bool :=
  ((y mod 4 =? 0) && (negb (y mod 100 =? 0) || (y mod 400 =? 0)))%nat.

Definition days_in_month (y m : nat) : nat :=
  match m with
  | 2 => if isleap y then 29 else 28
  | 4 | 6 | 9 | 11 => 30
  | _ => 31
  end.

(** The range checks of the [datetime] constructor. *)
Definition valid_datetime (dt : datetime) : bool :=
  ((1 <=? year dt) && (year dt <=? 9999)
   && (1 <=? month dt) && (month dt <=? 12)
   && (1 <=? day dt) && (day dt <=? days_in_month (year dt) (month dt))
   && (hour dt <=? 23) && (minute dt <=? 59) && (second dt <=? 59))%nat.

(** [datetime.strptime(s, '%Y%m%d%H%M%S')]: the first match of the format
    must use the whole input and give a date that exists. The text of the
    [ValueError] is abridged. *)
Definition strptime (s : string) : exception + datetime :=
  match re_YmdHMS s with
  | [] => inl (ValueError "time data does not match format '%Y%m%d%H%M%S'")
  | (dt, rest) :: _ =>
      if truthy rest then inl (ValueError "unconverted data remains")
      else if valid_datetime dt then inr dt
      else inl (ValueError "value out of range")
  end.

Definition dec2 (n : nat) : string :=
  String (digit_char (n / 10)) (String (digit_char n) "").

Definition dec4 (n : nat) : string :=
  String (digit_char (n / 1000)) (String (digit_char (n / 100))
    (String (digit_char (n / 10)) (String (digit_char n) ""))).

(** [%Y] of [strftime]. Python hands the directive to the [strftime] of the
    C library; the model follows glibc, which writes the year as a plain
    decimal number: a year before 1000 has fewer than four digits. *)
Definition strftime_Y (y : nat) : string :=
  if (y <? 10)%nat then String (digit_char y) ""
  else if (y <? 100)%nat then dec2 y
  else if (y <? 1000)%nat then String (digit_char (y / 100)) (dec2 y)
  else dec4 y.

(** [dt.strftime('%Y-%d-%m %H:%M:%S')]: the day is written before the
    month. *)
Definition strftime (dt : datetime) : string :=
  strftime_Y (year dt) +:+ "-" +:+ dec2 (day dt) +:+ "-" +:+ dec2 (month dt) +:+ " "
  +:+ dec2 (hour dt) +:+ ":" +:+ dec2 (minute dt) +:+ ":" +:+ dec2 (second dt).

(** ** models.py *)

Module Models.

(** The [data] dictionary a [mode='before'] validator receives: keys are
    field names, a value is a string or [None]. (Given anything but a
    dictionary a validator returns it as it is; the model takes
    dictionaries.) Every field of the action models is declared
    [Optional[str]] with no constraint, so the field stage that follows a
    validator accepts the dictionaries of strings the validator accepts. *)
Abbreviation payload := (gmap string (option string)).

(** [data.get(field)]: [None] for a missing key and for a key bound to
    [None]. *)
Definition get (data : payload) (field : string) : option string :=
  match data !! field with
  | Some v => v
  | None => None
  end.

(** [for field in fields: if data.get(field) is None: raise ValueError(msg field)] *)
Fixpoint require_each (msg : string → string) (fields : list string)
    (data : payload) : exception + unit :=
  match fields with
  | [] => inr tt
  | field :: rest =>
      match get data field with
      | None => inl (ValueError (msg field))
      | Some _ => require_each msg rest data
      end
  end.

Definition obligatorio (field : string) : string :=
  "El campo '" +:+ field +:+ "' es obligatorio.".

Module RegistroPositivoRequest.

(** The fields of a validated model instance. *)
Record t : Type := {
  imei : option string;
  tipo_usuario_propietario : option string;
  tipo_identificacion_propietario : option string;
  identificacion_propietario : option string;
  nombre_razon_social_propietario : option string;
  direccion_propietario : option string;
  telefono_contacto_propietario : option string;
  observaciones : option string;
  imsi : option string;
  msisdn : option string
}.

Definition required_fields : list string :=
  [ "imei"; "tipo_usuario_propietario"; "tipo_identificacion_propietario";
    "identificacion_propietario"; "nombre_razon_social_propietario";
    "direccion_propietario"; "telefono_contacto_propietario"; "observaciones" ].

Definition check_required_fields (data : payload) : exception + payload :=
  match require_each obligatorio required_fields data with
  | inl e => inl e
  | inr _ => inr data
  end.

(** Validation of a payload: the [before] validator, then the fields read
    from the dictionary. *)
Definition model_validate (data : payload) : exception + t :=
  match check_required_fields data with
  | inl e => inl e
  | inr data =>
      inr {| imei := get data "imei";
             tipo_usuario_propietario := get data "tipo_usuario_propietario";
             tipo_identificacion_propietario := get data "tipo_identificacion_propietario";
             identificacion_propietario := get data "identificacion_propietario";
             nombre_razon_social_propietario := get data "nombre_razon_social_propietario";
             direccion_propietario := get data "direccion_propietario";
             telefono_contacto_propietario := get data "telefono_contacto_propietario";
             observaciones := get data "observaciones";
             imsi := get data "imsi";
             msisdn := get data "msisdn" |}
  end.

End RegistroPositivoRequest.

Module RegistroNegativoRequest.

Definition always_required : list string :=
  [ "imei"; "tipo_reporte"; "nombre_reporte"; "tipo_identificacion_reporte";
    "identificacion_reporte"; "telefono_reporte"; "direccion_reporte";
    "ciudad_reporte"; "departamento_reporte"; "correo_electronico";
    "observaciones" ].

Definition check_required_and_robo_fields (data : payload)
    : exception + payload :=
  match require_each obligatorio always_required data with
  | inl e => inl e
  | inr _ =>
      if bool_decide (get data "tipo_reporte" = Some "1") then
        match get data "empleo_violencia" with
        | None =>
            inl (ValueError "El campo 'empleo_violencia' es obligatorio cuando 'tipo_reporte' es '1' (Robo).")
        | Some _ =>
            if bool_decide (get data "empleo_violencia" = Some "1") then
              match get data "utilizacion_armas" with
              | None =>
                  inl (ValueError "El campo 'utilizacion_armas' es obligatorio cuando 'empleo_violencia' es '1'.")
              | Some _ =>
                  match get data "victima_menor_edad" with
                  | None =>
                      inl (ValueError "El campo 'victima_menor_edad' es obligatorio cuando 'empleo_violencia' es '1'.")
                  | Some _ => inr data
                  end
              end
            else inr data
        end
      else inr data
  end.

(** The fields of a validated model instance. *)
Record t : Type := {
  imei : option string;
  tipo_reporte : option string;
  nombre_reporte : option string;
  tipo_identificacion_reporte : option string;
  identificacion_reporte : option string;
  telefono_reporte : option string;
  direccion_reporte : option string;
  ciudad_reporte : option string;
  departamento_reporte : option string;
  correo_electronico : option string;
  observaciones : option string;
  empleo_violencia : option string;
  utilizacion_armas : option string;
  victima_menor_edad : option string
}.

Definition model_validate (data : payload) : exception + t :=
  match check_required_and_robo_fields data with
  | inl e => inl e
  | inr data =>
      inr {| imei := get data "imei";
             tipo_reporte := get data "tipo_reporte";
             nombre_reporte := get data "nombre_reporte";
             tipo_identificacion_reporte := get data "tipo_identificacion_reporte";
             identificacion_reporte := get data "identificacion_reporte";
             telefono_reporte := get data "telefono_reporte";
             direccion_reporte := get data "direccion_reporte";
             ciudad_reporte := get data "ciudad_reporte";
             departamento_reporte := get data "departamento_reporte";
             correo_electronico := get data "correo_electronico";
             observaciones := get data "observaciones";
             empleo_violencia := get data "empleo_violencia";
             utilizacion_armas := get data "utilizacion_armas";
             victima_menor_edad := get data "victima_menor_edad" |}
  end.

End RegistroNegativoRequest.

Module CancelacionNegativoRequest.

(** The fields of a validated model instance. *)
Record t : Type := {
  imei : option string;
  fecha_reporte : option string;
  observaciones : option string
}.

(** The input left after [n] decimal digits, if the input starts with that
    many. Among the code points below 256 the class [\d] holds the ten
    ASCII digits. *)
Fixpoint match_digits (n : nat) (s : string) : option string :=
  match n with
  | 0 => Some s
  | S n =>
      match s with
      | String c r => match digit c with Some _ => match_digits n r | None => None end
      | "" => None
      end
  end.

(** [re.match(r'^\d{14}$', s)]: fourteen digits, and then the end of the
    string or one line feed that ends the string. *)
Definition re_match_14_digits (s : string) : bool :=
  match match_digits 14 s with
  | Some rest => bool_decide (rest = "" ∨ rest = nl)
  | None => false
  end.

Definition i_acute : string := String (ascii_of_nat 237) "".
Definition a_acute : string := String (ascii_of_nat 225) "".

Definition formato_msg : string :=
  "El campo 'fecha_reporte' debe tener el formato YYYYMMDDHHMMSS (14 d"
  +:+ i_acute +:+ "gitos).".

Definition invalida_msg : string :=
  "El campo 'fecha_reporte' contiene una fecha/hora inv" +:+ a_acute
  +:+ "lida. Use el formato YYYYMMDDHHMMSS.".

Definition check_required_fields (data : payload) : exception + payload :=
  match get data "imei" with
  | None => inl (ValueError "El campo 'imei' es obligatorio.")
  | Some _ =>
  match get data "fecha_reporte" with
  | None => inl (ValueError "El campo 'fecha_reporte' es obligatorio.")
  | Some _ =>
  match get data "observaciones" with
  | None => inl (ValueError "El campo 'observaciones' es obligatorio.")
  | Some _ =>
      let fecha_reporte := get data "fecha_reporte" in
      match fecha_reporte with
      | Some fecha_reporte =>
          if truthy fecha_reporte then
            if negb (re_match_14_digits fecha_reporte) then
              inl (ValueError formato_msg)
            else
              match strptime fecha_reporte with
              | inl (ValueError _) => inl (ValueError invalida_msg)
              | inl e => inl e
              | inr _ => inr data
              end
          else inr data
      | None => inr data
      end
  end end end.

Definition model_validate (data : payload) : exception + t :=
  match check_required_fields data with
  | inl e => inl e
  | inr data =>
      inr {| imei := get data "imei";
             fecha_reporte := get data "fecha_reporte";
             observaciones := get data "observaciones" |}
  end.

End CancelacionNegativoRequest.

Module ModificacionPositivoRequest.

Definition always_required : list string :=
  [ "imei"; "tipo_modificacion"; "tipo_usuario_propietario";
    "tipo_identificacion_propietario"; "identificacion_propietario";
    "nombre_razon_social_propietario"; "direccion_propietario";
    "telefono_contacto_propietario"; "tipo_usuario_autorizado" ].

Definition autorizado_fields : list string :=
  [ "tipo_identificacion_autorizado"; "identificacion_autorizado";
    "nombre_razon_social_autorizado"; "direccion_autorizado";
    "telefono_contacto_autorizado" ].

Definition obligatorio_autorizado (field : string) : string :=
  "El campo '" +:+ field +:+
  "' es obligatorio cuando 'tipo_usuario_autorizado' no es '0'.".

Definition check_all_fields (data : payload) : exception + payload :=
  match require_each obligatorio always_required data with
  | inl e => inl e
  | inr _ =>
      let anterior :=
        if bool_decide (get data "tipo_modificacion" ∈ [Some "2"; Some "3"]) then
          match get data "tipo_identificacion_propietario_anterior" with
          | None =>
              inl (ValueError "El campo 'tipo_identificacion_propietario_anterior' es obligatorio cuando 'tipo_modificacion' es '2' o '3'.")
          | Some _ =>
              match get data "identificacion_propietario_anterior" with
              | None =>
                  inl (ValueError "El campo 'identificacion_propietario_anterior' es obligatorio cuando 'tipo_modificacion' es '2' o '3'.")
              | Some _ => inr tt
              end
          end
        else inr tt in
      match anterior with
      | inl e => inl e
      | inr _ =>
          if bool_decide (get data "tipo_usuario_autorizado" ≠ Some "") then
            match require_each obligatorio_autorizado autorizado_fields data with
            | inl e => inl e
            | inr _ => inr data
            end
          else inr data
      end
  end.

(** The fields of a validated model instance. *)
Record t : Type := {
  imei : option string;
  tipo_modificacion : option string;
  tipo_usuario_propietario : option string;
  tipo_identificacion_propietario : option string;
  identificacion_propietario : option string;
  nombre_razon_social_propietario : option string;
  direccion_propietario : option string;
  telefono_contacto_propietario : option string;
  tipo_usuario_autorizado : option string;
  imsi : option string;
  msisdn : option string;
  observaciones : option string;
  tipo_identificacion_propietario_anterior : option string;
  identificacion_propietario_anterior : option string;
  tipo_identificacion_autorizado : option string;
  identificacion_autorizado : option string;
  nombre_razon_social_autorizado : option string;
  direccion_autorizado : option string;
  telefono_contacto_autorizado : option string
}.

Definition model_validate (data : payload) : exception + t :=
  match check_all_fields data with
  | inl e => inl e
  | inr data =>
      inr {| imei := get data "imei";
             tipo_modificacion := get data "tipo_modificacion";
             tipo_usuario_propietario := get data "tipo_usuario_propietario";
             tipo_identificacion_propietario := get data "tipo_identificacion_propietario";
             identificacion_propietario := get data "identificacion_propietario";
             nombre_razon_social_propietario := get data "nombre_razon_social_propietario";
             direccion_propietario := get data "direccion_propietario";
             telefono_contacto_propietario := get data "telefono_contacto_propietario";
             tipo_usuario_autorizado := get data "tipo_usuario_autorizado";
             imsi := get data "imsi";
             msisdn := get data "msisdn";
             observaciones := get data "observaciones";
             tipo_identificacion_propietario_anterior := get data "tipo_identificacion_propietario_anterior";
             identificacion_propietario_anterior := get data "identificacion_propietario_anterior";
             tipo_identificacion_autorizado := get data "tipo_identificacion_autorizado";
             identificacion_autorizado := get data "identificacion_autorizado";
             nombre_razon_social_autorizado := get data "nombre_razon_social_autorizado";
             direccion_autorizado := get data "direccion_autorizado";
             telefono_contacto_autorizado := get data "telefono_contacto_autorizado" |}
  end.

End ModificacionPositivoRequest.

Module CancelacionPositivoRequest.

(** The fields of a validated model instance. *)
Record t : Type := {
  imei : option string;
  tipo_usuario_propietario : option string;
  tipo_identificacion_propietario : option string;
  identificacion_propietario : option string;
  observaciones : option string
}.

Definition required_fields : list string :=
  [ "imei"; "tipo_usuario_propietario"; "tipo_identificacion_propietario";
    "identificacion_propietario"; "observaciones" ].

Definition check_required_fields (data : payload) : exception + payload :=
  match require_each obligatorio required_fields data with
  | inl e => inl e
  | inr _ => inr data
  end.

(** Validation of a payload: the [before] validator, then the fields read
    from the dictionary. *)
Definition model_validate (data : payload) : exception + t :=
  match check_required_fields data with
  | inl e => inl e
  | inr data =>
      inr {| imei := get data "imei";
             tipo_usuario_propietario := get data "tipo_usuario_propietario";
             tipo_identificacion_propietario := get data "tipo_identificacion_propietario";
             identificacion_propietario := get data "identificacion_propietario";
             observaciones := get data "observaciones" |}
  end.

End CancelacionPositivoRequest.

Module ConsultaPositivaRequest.

Record t : Type := {
  imei : string;
  tipo_identificacion_propietario : string;
  identificacion_propietario : string
}.

(** The field constraints: [imei] has [min_length=15] and [max_length=15];
  the other two fields are any strings. *)
Definition accepts (r : t) : bool := (String.length (imei r) =? 15)%nat.

End ConsultaPositivaRequest.

(** Sample payloads. *)
Definition of_fields (l : list (string * string)) : payload :=
  list_to_map (prod_map id Some <$> l).

Definition robo_base : list (string * string) :=
  [ ("imei", "852055059447491"); ("tipo_reporte", "1");
    ("nombre_reporte", "Fulano de Tal"); ("tipo_identificacion_reporte", "1");
    ("identificacion_reporte", "22222222222"); ("telefono_reporte", "3585555555");
    ("direccion_reporte", "Calle 123 #45-67"); ("ciudad_reporte", "Bogota");
    ("departamento_reporte", "BOGOTA"); ("correo_electronico", "f@example.com");
    ("observaciones", "Reporte de robo.") ].

Definition robo_sin_violencia : payload := of_fields robo_base.
Definition robo_sin_armas : payload :=
  of_fields (("empleo_violencia", "1") :: ("victima_menor_edad", "0") :: robo_base).
Definition robo_sin_victima : payload :=
  of_fields (("empleo_violencia", "1") :: ("utilizacion_armas", "1") :: robo_base).
Definition robo_completo : payload :=
  of_fields (("empleo_violencia", "1") :: ("utilizacion_armas", "1")
             :: ("victima_menor_edad", "0") :: robo_base).

Definition modificacion_sin_autorizado : payload :=
  of_fields
    [ ("imei", "852055059447491"); ("tipo_modificacion", "1");
      ("tipo_usuario_propietario", "1"); ("tipo_identificacion_propietario", "1");
      ("identificacion_propietario", "222222222222");
      ("nombre_razon_social_propietario", "Fulano de Tal");
      ("direccion_propietario", "Calle 123 #45-67");
      ("telefono_contacto_propietario", "3580666666");
      ("tipo_usuario_autorizado", "0") ].

(** A change of ownership ([tipo_modificacion = '2']) with no authorised
    user fields, without and with the type of the previous owner's
    identification. *)
Definition titularidad_base : list (string * string) :=
  [ ("imei", "852055059447491"); ("tipo_modificacion", "2");
    ("tipo_usuario_propietario", "1"); ("tipo_identificacion_propietario", "1");
    ("identificacion_propietario", "222222222222");
    ("nombre_razon_social_propietario", "Fulano de Tal");
    ("direccion_propietario", "Calle 123 #45-67");
    ("telefono_contacto_propietario", "3580666666");
    ("tipo_usuario_autorizado", "1") ].

Definition titularidad_sin_anterior : payload := of_fields titularidad_base.
Definition titularidad_sin_identificacion_anterior : payload :=
  of_fields (("tipo_identificacion_propietario_anterior", "1") :: titularidad_base).

(** A cancel-negative payload with the report date [fecha]. *)
Definition cancelacion_negativa (fecha : string) : payload :=
  of_fields
    [ ("imei", "852055059447491"); ("fecha_reporte", fecha);
      ("observaciones", "Equipo recuperado.") ].

End Models.

(** ** Effects of a client call

    The body of a [try] statement in a client mutates the response object,
    may raise, and hands documents to the XML parser. A computation takes
    the response object and returns its result or the exception raised, the
    response object as it then stands, and the documents parsed, in order. *)

Record run (S A : Type) : Type := Run {
  result : exception + A;
  state : S;
  parsed : list string
}.
Arguments Run {S A}.
Arguments result {S A}.
Arguments state {S A}.
Arguments parsed {S A}.

Definition M (S A : Type) : Type := S → run S A.

#[export] Instance M_ret S : MRet (M S) := λ A a s, Run (inr a) s [].

(** The same end of a computation, after the documents [docs]. *)
Definition prepend {S A} (docs : list string) (r : run S A) : run S A :=
  Run (result r) (state r) (docs ++ parsed r)%list.

#[export] Instance M_bind S : MBind (M S) := λ A B f m s,
  match m s with
  | Run (inl e) s' docs => Run (inl e) s' docs
  | Run (inr a) s' docs => prepend docs (f a s')
  end.

(** A call that returns or raises and touches nothing else. *)
Definition lift {S A} (r : exception + A) : M S A := λ s, Run r s [].

(** An assignment to the response object. *)
Definition update {S} (f : S → S) : M S unit := λ s, Run (inr tt) (f s) [].

(** [try: body except Exception as e: handler e] *)
Definition try_except {S} (body : M S unit) (handler : exception → M S unit)
    : M S unit := λ s,
  match body s with
  | Run (inl e) s' docs => prepend docs (handler e s')
  | Run (inr tt) s' docs => Run (inr tt) s' docs
  end.

(** The XML parser [lxml.etree.fromstring], from bytes to the root element
    or the message of the [XMLSyntaxError]. *)
Abbreviation parser := (string → string + element).

(** [etree.fromstring(b)] *)
Definition etree_fromstring {S} (fromstring : parser) (b : string) : M S element :=
  λ s, Run (match fromstring b with
            | inl msg => inl (XMLSyntaxError msg)
            | inr root => inr root
            end) s [b].

(** ** requests *)

Record Response : Type := {
  status_code : Z;
  reason : string;
  url : string;
  content : string
}.

(** [session.post(url, data=..., headers=..., timeout=30)]: the response, or
    the exception raised when none arrives. *)
Abbreviation Session :=
  (string → string → list (string * string) → exception + Response).

(** [http_res.raise_for_status()] *)
Definition raise_for_status (r : Response) : exception + unit :=
  if bool_decide (400 ≤ status_code r < 500)%Z then
    inl (HTTPError (pretty (status_code r) +:+ " Client Error: " +:+ reason r
                    +:+ " for url: " +:+ url r))
  else if bool_decide (500 ≤ status_code r < 600)%Z then
    inl (HTTPError (pretty (status_code r) +:+ " Server Error: " +:+ reason r
                    +:+ " for url: " +:+ url r))
  else inr tt.

(** ** soap_client.py *)

Module SoapClient.

Record SRTMResponse : Type := {
  success : bool;
  http_status : Z;
  message : option string;
  error_code : option string;
  raw_response : option string
}.

(** [SRTMResponse(timestamp=...)] *)
Definition new_response : SRTMResponse :=
  {| success := false; http_status := 500;
     message := Some "An internal error occurred.";
     error_code := None; raw_response := None |}.

Definition set_success (v : bool) (r : SRTMResponse) : SRTMResponse :=
  {| success := v; http_status := http_status r; message := message r;
     error_code := error_code r; raw_response := raw_response r |}.
Definition set_http_status (v : Z) (r : SRTMResponse) : SRTMResponse :=
  {| success := success r; http_status := v; message := message r;
     error_code := error_code r; raw_response := raw_response r |}.
Definition set_message (v : option string) (r : SRTMResponse) : SRTMResponse :=
  {| success := success r; http_status := http_status r; message := v;
     error_code := error_code r; raw_response := raw_response r |}.
Definition set_error_code (v : option string) (r : SRTMResponse) : SRTMResponse :=
  {| success := success r; http_status := http_status r; message := message r;
     error_code := v; raw_response := raw_response r |}.
Definition set_raw_response (v : option string) (r : SRTMResponse) : SRTMResponse :=
  {| success := success r; http_status := http_status r; message := message r;
     error_code := error_code r; raw_response := v |}.

Record SRTMAxisClient : Type := {
  endpoint : string;
  user_id : string;
  password : string;
  session : Session
}.

Definition SERVICE_NAMESPACE : string := "http://service.client.xcewsmulti.iecisa.es".
Definition OPERADOR_ID : string := "00020".

(** [_escape_xml(text)] *)
Definition _escape_xml (text : option string) : string :=
  match text with
  | Some t => if truthy t then html_escape t true else ""
  | None => ""
  end.

Definition o_acute : string := String (ascii_of_nat 243) "".

(** An [Optional[str]] inside an f-string. *)
Definition fmt (o : option string) : string :=
  match o with Some s => s | None => "None" end.

(** The [body] string of [cancelar_positivo]. *)
Definition cancelar_positivo_body (req : Models.CancelacionPositivoRequest.t) : string :=
  "<SolicitudCancelacionRegistroPositivo>"
  +:+ "<Imei>" +:+ fmt (Models.CancelacionPositivoRequest.imei req) +:+ "</Imei>"
  +:+ "<TipoUsuarioPropietario>"
  +:+ fmt (Models.CancelacionPositivoRequest.tipo_usuario_propietario req)
  +:+ "</TipoUsuarioPropietario>"
  +:+ "<TipoIdentificacionPropietario>"
  +:+ fmt (Models.CancelacionPositivoRequest.tipo_identificacion_propietario req)
  +:+ "</TipoIdentificacionPropietario>"
  +:+ "<IdentificacionPropietario>"
  +:+ _escape_xml (Models.CancelacionPositivoRequest.identificacion_propietario req)
  +:+ "</IdentificacionPropietario>"
  +:+ "</SolicitudCancelacionRegistroPositivo>".

(** The [soap_envelope] of [_send_request]. *)
Definition soap_envelope (self : SRTMAxisClient) (xml_payload : string) : string :=
  let escaped_xml := _escape_xml (Some xml_payload) in
  "<?xml version=" +:+ quot +:+ "1.0" +:+ quot +:+ " encoding=" +:+ quot +:+ "UTF-8"
  +:+ quot +:+ "?><soap:Envelope xmlns:soap=" +:+ quot
  +:+ "http://schemas.xmlsoap.org/soap/envelope/" +:+ quot +:+ "><soap:Body>"
  +:+ "<ns1:receiveMessage xmlns:ns1=" +:+ quot +:+ SERVICE_NAMESPACE +:+ quot +:+ ">"
  +:+ "<userId>" +:+ user_id self +:+ "</userId><password>" +:+ password self
  +:+ "</password><xmlMsg>" +:+ escaped_xml +:+ "</xmlMsg>"
  +:+ "</ns1:receiveMessage></soap:Body></soap:Envelope>".

(** The [payload] and the [headers] of [_send_request]; [boundary_hex] and
    [cid_hex] are the two values of [uuid.uuid4().hex]. *)
Definition payload (self : SRTMAxisClient) (boundary_hex cid_hex : string)
    (msg_type xml_payload : string) : string :=
  let boundary := "----=" +:+ boundary_hex in
  let start_cid := "<" +:+ cid_hex +:+ ">" in
  join crlf
    [ "--" +:+ boundary; "Content-Type: text/xml; charset=utf-8";
      "Content-ID: " +:+ start_cid; ""; soap_envelope self xml_payload;
      "--" +:+ boundary; "Content-Type: text/plain"; "Content-ID: <sender>"; "";
      OPERADOR_ID;
      "--" +:+ boundary; "Content-Type: text/plain"; "Content-ID: <receiver>"; "";
      "00000";
      "--" +:+ boundary; "Content-Type: text/plain"; "Content-ID: <typeMsg>"; "";
      msg_type; "--" +:+ boundary +:+ "--" ].

Definition headers (boundary_hex cid_hex : string) : list (string * string) :=
  let boundary := "----=" +:+ boundary_hex in
  let start_cid := "<" +:+ cid_hex +:+ ">" in
  [ ("Content-Type",
     "multipart/related; type=" +:+ quot +:+ "text/xml" +:+ quot +:+ "; start="
     +:+ quot +:+ start_cid +:+ quot +:+ "; boundary=" +:+ quot +:+ boundary +:+ quot);
    ("SOAPAction", quot +:+ quot) ].

(** The one call of [session.post] in [_send_request]. *)
Definition post (self : SRTMAxisClient) (boundary_hex cid_hex : string)
    (msg_type xml_payload : string) : exception + Response :=
  session self (endpoint self)
    (encode_utf8 (payload self boundary_hex cid_hex msg_type xml_payload))
    (headers boundary_hex cid_hex).

Section send.
Variable fromstring : parser.

(** The body of the [try] statement of [_send_request]. *)
Definition _send_request_try (self : SRTMAxisClient) (boundary_hex cid_hex : string)
    (msg_type xml_payload : string) : M SRTMResponse unit :=
  http_res ← lift (post self boundary_hex cid_hex msg_type xml_payload);
  update (set_http_status (status_code http_res));;
  lift (raise_for_status http_res);;
  res_env ← etree_fromstring fromstring (content http_res);
  let result_text := strip (findtext (Descendant "receiveMessageReturn") "" res_env) in
  update (set_raw_response (Some result_text));;
  if String.eqb result_text "ack" then
    update (set_success true);;
    update (set_message (Some ("Solicitud " +:+ msg_type +:+ " aceptada.")))
  else
    update (set_success false);;
    update (set_message (Some ("Solicitud " +:+ msg_type +:+ " rechazada por el servidor.")));;
    update (set_error_code (Some result_text)).

(** The two [except] clauses of [_send_request]. *)
Definition _send_request_except (e : exception) : M SRTMResponse unit :=
  match e with
  | Fault fault_message fault_detail =>
      update (set_message (Some ("Error SOAP: " +:+ fault_message)));;
      update (set_raw_response (Some fault_detail))
  | _ =>
      update (set_message (Some ("Error inesperado en la comunicaci" +:+ o_acute
                                 +:+ "n: " +:+ str_exception e)))
  end.

Definition _send_request_run (self : SRTMAxisClient) (boundary_hex cid_hex : string)
    (msg_type xml_payload : string) : run SRTMResponse unit :=
  try_except (_send_request_try self boundary_hex cid_hex msg_type xml_payload)
             _send_request_except new_response.

(** [_send_request(msg_type, xml_payload)]: the response object returned. *)
Definition _send_request (self : SRTMAxisClient) (boundary_hex cid_hex : string)
    (msg_type xml_payload : string) : SRTMResponse :=
  state (_send_request_run self boundary_hex cid_hex msg_type xml_payload).

End send.

(** *** The client object, identifiers and messages *)

(** The counters of a client, its two mutable attributes. *)
Record counters : Type := {
  message_counter : N;
  proc_counter : N
}.

Definition truthy_opt (o : option string) : bool :=
  match o with Some s => truthy s | None => false end.

(** [SRTMAxisClient(endpoint, user_id, password)]. The three arguments come
    from [os.getenv]; [time_message] and [time_proc] are the two values of
    [int(time.time())]; [client] is what building the zeep client gives: the
    session of its transport, or the exception raised, which [__init__]
    raises again. *)
Definition __init__ (endpoint user_id password : option string)
    (time_message time_proc : N) (client : exception + Session)
    : exception + SRTMAxisClient * counters :=
  if negb (truthy_opt endpoint && truthy_opt user_id && truthy_opt password) then
    inl (ValueError "Endpoint, User ID, and Password must be provided.")
  else
    match client with
    | inl e => inl e
    | inr session =>
        inr ({| endpoint := default "" endpoint; user_id := default "" user_id;
                password := default "" password; session := session |},
             {| message_counter := (time_message mod 100000)%N;
                proc_counter := (time_proc mod 100000)%N |})
    end.

Fixpoint zeros (n : nat) : string :=
  match n with
  | 0 => ""
  | S n => String "0" (zeros n)
  end.

(** [f"{n:0{width}d}"] *)
Definition format_0d (width : nat) (n : N) : string :=
  zeros (width - String.length (pretty n)) +:+ pretty n.

(** [now.strftime("%Y%m%d")] and [now.strftime("%Y%m%d%H%M%S")]. [now] is a
    reading of the clock, of the year 1000 or a later one, where [%Y] has
    four digits. *)
Definition strftime_Ymd (now : datetime) : string :=
  dec4 (year now) +:+ dec2 (month now) +:+ dec2 (day now).

Definition strftime_YmdHMS (now : datetime) : string :=
  strftime_Ymd now +:+ dec2 (hour now) +:+ dec2 (minute now) +:+ dec2 (second now).

(** [_generate_id(prefix, length)]; [now] is the reading of the clock. The
    identifier and the counters as the call leaves them. *)
Definition _generate_id (now : datetime) (prefix : string) (length : nat)
    (self : counters) : string * counters :=
  let timestamp := strftime_Ymd now in
  if String.eqb prefix "msg" then
    let self := {| message_counter := (message_counter self + 1)%N;
                   proc_counter := proc_counter self |} in
    let sequence := format_0d 7 (message_counter self) in
    (OPERADOR_ID +:+ timestamp +:+ sequence, self)
  else
    let self := {| message_counter := message_counter self;
                   proc_counter := (proc_counter self + 1)%N |} in
    let sequence := format_0d 5 (proc_counter self) in
    (OPERADOR_ID +:+ timestamp +:+ prefix +:+ sequence, self).

(** [_get_current_datetime()] *)
Definition _get_current_datetime (now : datetime) : string :=
  strftime_YmdHMS now.

(** The values [os.getenv] gives for the five message types. (For a
    variable that is not set [os.getenv] gives [None]; the model takes the
    five as set.) *)
Record environment : Type := {
  MSG_TYPE_REGISTRO_POSITIVO : string;
  MSG_TYPE_REGISTRO_NEGATIVO : string;
  MSG_TYPE_CANCELACION_NEGATIVO : string;
  MSG_TYPE_MODIFICACION_POSITIVO : string;
  MSG_TYPE_CANCELACION_POSITIVO : string
}.

(** The dictionary display of [_build_xml]: a key written twice keeps the
    value written last. *)
Definition process_type_map (env : environment) : gmap string string :=
  <[MSG_TYPE_CANCELACION_POSITIVO env := "05"]>
    (<[MSG_TYPE_MODIFICACION_POSITIVO env := "04"]>
       (<[MSG_TYPE_CANCELACION_NEGATIVO env := "03"]>
          (<[MSG_TYPE_REGISTRO_NEGATIVO env := "02"]>
             (<[MSG_TYPE_REGISTRO_POSITIVO env := "01"]> ∅)))).

Definition tab : string := String (ascii_of_nat 9) "".

(** What one call of a public method reads of the clock, in order, and the
    two values of [uuid.uuid4().hex]. *)
Record readings : Type := {
  t_body : datetime;
  t_process : datetime;
  t_message : datetime;
  t_creation : datetime;
  boundary_hex : string;
  cid_hex : string
}.

(** [_build_xml(msg_type, body_content, observaciones)]: the document and
    the counters as the call leaves them. *)
Definition _build_xml (env : environment) (rd : readings)
    (msg_type body_content : string) (observaciones : option string)
    (self : counters) : string * counters :=
  let '(process_id, self) :=
    _generate_id (t_process rd) (default "00" (process_type_map env !! msg_type)) 5 self in
  let '(message_id, self) := _generate_id (t_message rd) "msg" 7 self in
  let xml_parts :=
    [ "<?xml version=" +:+ quot +:+ "1.0" +:+ quot +:+ " encoding=" +:+ quot
      +:+ "UTF-8" +:+ quot +:+ "?>";
      "<MensajeBDA xmlns:xsi=" +:+ quot +:+ "http://www.w3.org/2001/XMLSchema-instance"
      +:+ quot +:+ ">";
      tab +:+ "<CabeceraMensaje>";
      tab +:+ tab +:+ "<IdentificadorProceso>" +:+ process_id +:+ "</IdentificadorProceso>";
      tab +:+ tab +:+ "<IdentificadorMensaje>" +:+ message_id +:+ "</IdentificadorMensaje>";
      tab +:+ tab +:+ "<FechaCreacionMsg>" +:+ _get_current_datetime (t_creation rd)
      +:+ "</FechaCreacionMsg>";
      tab +:+ tab +:+ "<TipoMsg>" +:+ msg_type +:+ "</TipoMsg>";
      tab +:+ tab +:+ "<Emisor>" +:+ OPERADOR_ID +:+ "</Emisor>";
      tab +:+ tab +:+ "<Destinatario>00000</Destinatario>";
      if truthy_opt observaciones
      then tab +:+ tab +:+ "<Observaciones>" +:+ _escape_xml observaciones
           +:+ "</Observaciones>"
      else "";
      tab +:+ "</CabeceraMensaje>";
      tab +:+ "<CuerpoMensaje>";
      body_content;
      tab +:+ "</CuerpoMensaje>";
      "</MensajeBDA>" ] in
  (join nl (filter (λ part, truthy part = true) xml_parts), self).

(** The elements of a body: [f"<tag>{v}</tag>"], the same with the value
    escaped, and each of the two under its condition. *)
Definition raw (tag : string) (v : option string) : string :=
  "<" +:+ tag +:+ ">" +:+ fmt v +:+ "</" +:+ tag +:+ ">".

Definition escaped (tag : string) (v : option string) : string :=
  "<" +:+ tag +:+ ">" +:+ _escape_xml v +:+ "</" +:+ tag +:+ ">".

(** [... if v else ""] *)
Definition raw_if (tag : string) (v : option string) : string :=
  if truthy_opt v then raw tag v else "".

Definition escaped_if (tag : string) (v : option string) : string :=
  if truthy_opt v then escaped tag v else "".

(** [... if v is not None else ""] *)
Definition raw_if_not_None (tag : string) (v : option string) : string :=
  match v with Some _ => raw tag v | None => "" end.

(** The [body] string of [registrar_positivo]. *)
Definition registrar_positivo_body (req : Models.RegistroPositivoRequest.t) : string :=
  "<SolicitudRegistroPositivo>"
  +:+ raw "Imei" (Models.RegistroPositivoRequest.imei req)
  +:+ escaped_if "Imsi" (Models.RegistroPositivoRequest.imsi req)
  +:+ escaped_if "Msisdn" (Models.RegistroPositivoRequest.msisdn req)
  +:+ escaped_if "NombreRazonSocialPropietario"
        (Models.RegistroPositivoRequest.nombre_razon_social_propietario req)
  +:+ escaped_if "DireccionPropietario"
        (Models.RegistroPositivoRequest.direccion_propietario req)
  +:+ raw "TipoUsuarioPropietario"
        (Models.RegistroPositivoRequest.tipo_usuario_propietario req)
  +:+ raw "TipoIdentificacionPropietario"
        (Models.RegistroPositivoRequest.tipo_identificacion_propietario req)
  +:+ escaped "IdentificacionPropietario"
        (Models.RegistroPositivoRequest.identificacion_propietario req)
  +:+ escaped_if "TelefonoContactoPropietario"
        (Models.RegistroPositivoRequest.telefono_contacto_propietario req)
  +:+ "</SolicitudRegistroPositivo>".

(** The [body] string of [registrar_negativo]; [now] is the reading of the
    clock for the report date. *)
Definition registrar_negativo_body (now : datetime)
    (req : Models.RegistroNegativoRequest.t) : string :=
  "<SolicitudRegistroNegativo>"
  +:+ raw "Imei" (Models.RegistroNegativoRequest.imei req)
  +:+ "<Tecnologia>01</Tecnologia>"
  +:+ "<FechaReporte>" +:+ _get_current_datetime now +:+ "</FechaReporte>"
  +:+ escaped_if "NombreRazonSocialReporte"
        (Models.RegistroNegativoRequest.nombre_reporte req)
  +:+ escaped_if "TipoIdentificacionReporte"
        (Models.RegistroNegativoRequest.tipo_identificacion_reporte req)
  +:+ escaped_if "IdentificacionReporte"
        (Models.RegistroNegativoRequest.identificacion_reporte req)
  +:+ escaped_if "DireccionReporte" (Models.RegistroNegativoRequest.direccion_reporte req)
  +:+ escaped_if "TelefonoContactoReporte"
        (Models.RegistroNegativoRequest.telefono_reporte req)
  +:+ escaped_if "DepartamentoReporte"
        (Models.RegistroNegativoRequest.departamento_reporte req)
  +:+ escaped_if "CiudadReporte" (Models.RegistroNegativoRequest.ciudad_reporte req)
  +:+ raw "TipoReporte" (Models.RegistroNegativoRequest.tipo_reporte req)
  +:+ raw_if_not_None "EmpleoViolencia"
        (Models.RegistroNegativoRequest.empleo_violencia req)
  +:+ raw_if_not_None "UtilizacionArmas"
        (Models.RegistroNegativoRequest.utilizacion_armas req)
  +:+ raw_if_not_None "VictimaMenorEdad"
        (Models.RegistroNegativoRequest.victima_menor_edad req)
  +:+ escaped_if "CorreoElectronico"
        (Models.RegistroNegativoRequest.correo_electronico req)
  +:+ "</SolicitudRegistroNegativo>".

(** The [body] string of [cancelar_negativo]. *)
Definition cancelar_negativo_body (req : Models.CancelacionNegativoRequest.t) : string :=
  "<SolicitudCancelacionRegistroNegativo>"
  +:+ raw "Imei" (Models.CancelacionNegativoRequest.imei req)
  +:+ raw "FechaReporte" (Models.CancelacionNegativoRequest.fecha_reporte req)
  +:+ "</SolicitudCancelacionRegistroNegativo>".

(** The [body] string of [modificar_positivo]. *)
Definition modificar_positivo_body (req : Models.ModificacionPositivoRequest.t) : string :=
  "<SolicitudModificacionRegistroPositivo>"
  +:+ raw "Imei" (Models.ModificacionPositivoRequest.imei req)
  +:+ escaped_if "Imsi" (Models.ModificacionPositivoRequest.imsi req)
  +:+ escaped_if "Msisdn" (Models.ModificacionPositivoRequest.msisdn req)
  +:+ escaped "NombreRazonSocialPropietario"
        (Models.ModificacionPositivoRequest.nombre_razon_social_propietario req)
  +:+ escaped "DireccionPropietario"
        (Models.ModificacionPositivoRequest.direccion_propietario req)
  +:+ raw "TipoUsuarioPropietario"
        (Models.ModificacionPositivoRequest.tipo_usuario_propietario req)
  +:+ raw "TipoIdentificacionPropietario"
        (Models.ModificacionPositivoRequest.tipo_identificacion_propietario req)
  +:+ escaped "IdentificacionPropietario"
        (Models.ModificacionPositivoRequest.identificacion_propietario req)
  +:+ escaped "TelefonoContactoPropietario"
        (Models.ModificacionPositivoRequest.telefono_contacto_propietario req)
  +:+ escaped_if "NombreRazonSocialAutorizado"
        (Models.ModificacionPositivoRequest.nombre_razon_social_autorizado req)
  +:+ raw_if "TipoUsuarioAutorizado"
        (Models.ModificacionPositivoRequest.tipo_usuario_autorizado req)
  +:+ raw_if "TipoIdentificacionAutorizado"
        (Models.ModificacionPositivoRequest.tipo_identificacion_autorizado req)
  +:+ escaped_if "IdentificacionAutorizado"
        (Models.ModificacionPositivoRequest.identificacion_autorizado req)
  +:+ escaped_if "TelefonoContactoAutorizado"
        (Models.ModificacionPositivoRequest.telefono_contacto_autorizado req)
  +:+ escaped_if "TipoIdentificacionPropietarioAnterior"
        (Models.ModificacionPositivoRequest.tipo_identificacion_propietario_anterior req)
  +:+ escaped_if "IdentificacionPropietarioAnterior"
        (Models.ModificacionPositivoRequest.identificacion_propietario_anterior req)
  +:+ raw "TipoModificacion" (Models.ModificacionPositivoRequest.tipo_modificacion req)
  +:+ "</SolicitudModificacionRegistroPositivo>".

Section methods.
Variable fromstring : parser.
Variable env : environment.

(** The five public methods: the response and the counters as the call
    leaves them. *)
Definition registrar_positivo (self : SRTMAxisClient) (rd : readings)
    (req : Models.RegistroPositivoRequest.t) (c : counters) : SRTMResponse * counters :=
  let body := registrar_positivo_body req in
  let '(xml_payload, c) :=
    _build_xml env rd (MSG_TYPE_REGISTRO_POSITIVO env) body
      (Models.RegistroPositivoRequest.observaciones req) c in
  (_send_request fromstring self (boundary_hex rd) (cid_hex rd)
     (MSG_TYPE_REGISTRO_POSITIVO env) xml_payload, c).

Definition registrar_negativo (self : SRTMAxisClient) (rd : readings)
    (req : Models.RegistroNegativoRequest.t) (c : counters) : SRTMResponse * counters :=
  let body := registrar_negativo_body (t_body rd) req in
  let '(xml_payload, c) :=
    _build_xml env rd (MSG_TYPE_REGISTRO_NEGATIVO env) body
      (Models.RegistroNegativoRequest.observaciones req) c in
  (_send_request fromstring self (boundary_hex rd) (cid_hex rd)
     (MSG_TYPE_REGISTRO_NEGATIVO env) xml_payload, c).

Definition cancelar_negativo (self : SRTMAxisClient) (rd : readings)
    (req : Models.CancelacionNegativoRequest.t) (c : counters) : SRTMResponse * counters :=
  let body := cancelar_negativo_body req in
  let '(xml_payload, c) :=
    _build_xml env rd (MSG_TYPE_CANCELACION_NEGATIVO env) body
      (Models.CancelacionNegativoRequest.observaciones req) c in
  (_send_request fromstring self (boundary_hex rd) (cid_hex rd)
     (MSG_TYPE_CANCELACION_NEGATIVO env) xml_payload, c).

Definition modificar_positivo (self : SRTMAxisClient) (rd : readings)
    (req : Models.ModificacionPositivoRequest.t) (c : counters) : SRTMResponse * counters :=
  let body := modificar_positivo_body req in
  let '(xml_payload, c) :=
    _build_xml env rd (MSG_TYPE_MODIFICACION_POSITIVO env) body
      (Models.ModificacionPositivoRequest.observaciones req) c in
  (_send_request fromstring self (boundary_hex rd) (cid_hex rd)
     (MSG_TYPE_MODIFICACION_POSITIVO env) xml_payload, c).

Definition cancelar_positivo (self : SRTMAxisClient) (rd : readings)
    (req : Models.CancelacionPositivoRequest.t) (c : counters) : SRTMResponse * counters :=
  let body := cancelar_positivo_body req in
  let '(xml_payload, c) :=
    _build_xml env rd (MSG_TYPE_CANCELACION_POSITIVO env) body
      (Models.CancelacionPositivoRequest.observaciones req) c in
  (_send_request fromstring self (boundary_hex rd) (cid_hex rd)
     (MSG_TYPE_CANCELACION_POSITIVO env) xml_payload, c).

End methods.

End SoapClient.

(** ** consulta_client.py *)

Module ConsultaClient.

(** A [raw_response] is [None] or a list of dictionaries; a dictionary is
    kept as its items in insertion order. *)
Abbreviation records := (list (list (string * string))).

Record ConsultaDBAResponse : Type := {
  success : bool;
  http_status : Z;
  message : option string;
  error_code : option string;
  raw_response : option records
}.

(** [ConsultaDBAResponse(timestamp=...)] *)
Definition new_response : ConsultaDBAResponse :=
  {| success := false; http_status := 500;
     message := Some "An internal error occurred.";
     error_code := None; raw_response := None |}.

Definition set_success (v : bool) (r : ConsultaDBAResponse) : ConsultaDBAResponse :=
  {| success := v; http_status := http_status r; message := message r;
     error_code := error_code r; raw_response := raw_response r |}.
Definition set_http_status (v : Z) (r : ConsultaDBAResponse) : ConsultaDBAResponse :=
  {| success := success r; http_status := v; message := message r;
     error_code := error_code r; raw_response := raw_response r |}.
Definition set_message (v : option string) (r : ConsultaDBAResponse) : ConsultaDBAResponse :=
  {| success := success r; http_status := http_status r; message := v;
     error_code := error_code r; raw_response := raw_response r |}.
Definition set_error_code (v : option string) (r : ConsultaDBAResponse) : ConsultaDBAResponse :=
  {| success := success r; http_status := http_status r; message := message r;
     error_code := v; raw_response := raw_response r |}.
Definition set_raw_response (v : option records) (r : ConsultaDBAResponse)
    : ConsultaDBAResponse :=
  {| success := success r; http_status := http_status r; message := message r;
     error_code := error_code r; raw_response := v |}.

Record ConsultaDBAClient : Type := {
  endpoint : string;
  user_id : string;
  password : string;
  session : Session
}.

Definition truthy_opt (o : option string) : bool :=
  match o with Some s => truthy s | None => false end.

(** [ConsultaDBAClient(endpoint, user_id, password)]; the three arguments
    come from [os.getenv], [session] is the [requests.Session()] made. *)
Definition __init__ (endpoint user_id password : option string) (session : Session)
    : exception + ConsultaDBAClient :=
  if negb (truthy_opt endpoint && truthy_opt user_id && truthy_opt password) then
    inl (ValueError "Endpoint, User ID, and Password must be provided.")
  else
    inr {| endpoint := default "" endpoint; user_id := default "" user_id;
           password := default "" password; session := session |}.

Definition xml_declaration : string :=
  "<?xml version=" +:+ quot +:+ "1.0" +:+ quot +:+ " encoding=" +:+ quot +:+ "UTF-8"
  +:+ quot +:+ "?>".

Definition ConsultaBDA_open : string :=
  "<ConsultaBDA xmlns:xsi=" +:+ quot +:+ "http://www.w3.org/2001/XMLSchema-instance"
  +:+ quot +:+ ">".

Definition _build_negativa_query_xml (imei : string) : string :=
  "<![CDATA[" +:+ xml_declaration
  +:+ ConsultaBDA_open
  +:+ "<CuerpoConsulta><Consulta>"
  +:+ "<TipoConsulta>1</TipoConsulta>"
  +:+ "<DatoConsulta>" +:+ imei +:+ "</DatoConsulta>"
  +:+ "</Consulta></CuerpoConsulta></ConsultaBDA>]]>".

Definition _build_positiva_query_xml (imei tipo_id id_prop : string) : string :=
  "<![CDATA[" +:+ xml_declaration
  +:+ ConsultaBDA_open
  +:+ "<CuerpoConsulta><ConsultaPositiva>"
  +:+ "<Imei>" +:+ imei +:+ "</Imei>"
  +:+ "<TipoIdentificacionPropietario>" +:+ tipo_id +:+ "</TipoIdentificacionPropietario>"
  +:+ "<IdentificacionPropietario>" +:+ id_prop +:+ "</IdentificacionPropietario>"
  +:+ "</ConsultaPositiva></CuerpoConsulta></ConsultaBDA>]]>".

Definition o_acute : string := String (ascii_of_nat 243) "".
Definition i_acute : string := String (ascii_of_nat 237) "".

Definition no_results_message : string :=
  "La consulta no retorn" +:+ o_acute +:+ " resultados.".
Definition no_results_payload : records :=
  [[("error", "Tag de retorno vac" +:+ i_acute +:+ "o o no encontrado.")]].
Definition unknown_shape_message : string :=
  "La estructura de la respuesta no coincide con los patrones conocidos.".

(** The [soap_envelope] of [_send_request]. *)
Definition soap_envelope (self : ConsultaDBAClient)
    (query_operation_name xml_payload : string) : string :=
  "<soapenv:Envelope xmlns:soapenv=" +:+ quot
  +:+ "http://schemas.xmlsoap.org/soap/envelope/" +:+ quot +:+ " xmlns:ser=" +:+ quot
  +:+ "http://service.consultabda.srtm.iecisa.co" +:+ quot +:+ ">" +:+ nl
  +:+ "   <soapenv:Header/>" +:+ nl
  +:+ "   <soapenv:Body>" +:+ nl
  +:+ "      <ser:" +:+ query_operation_name +:+ ">" +:+ nl
  +:+ "         <ser:usuario>" +:+ user_id self +:+ "</ser:usuario>" +:+ nl
  +:+ "         <ser:password>" +:+ password self +:+ "</ser:password>" +:+ nl
  +:+ "         <ser:xml>" +:+ xml_payload +:+ "</ser:xml>" +:+ nl
  +:+ "      </ser:" +:+ query_operation_name +:+ ">" +:+ nl
  +:+ "   </soapenv:Body>" +:+ nl
  +:+ "</soapenv:Envelope>".

Definition headers : list (string * string) :=
  [("Content-Type", "text/xml;charset=UTF-8"); ("SOAPAction", quot +:+ quot)].

(** The one call of [session.post] in [_send_request]. *)
Definition post (self : ConsultaDBAClient)
    (query_operation_name xml_payload : string) : exception + Response :=
  session self (endpoint self)
    (encode_utf8 (soap_envelope self query_operation_name xml_payload)) headers.

Section send.
Variable fromstring : parser.

(** The body of the [try] statement of [_send_request]. *)
Definition _send_request_try (self : ConsultaDBAClient)
    (query_operation_name xml_payload : string) : M ConsultaDBAResponse unit :=
  http_res ← lift (post self query_operation_name xml_payload);
  update (set_http_status (status_code http_res));;
  lift (raise_for_status http_res);;
  root ← etree_fromstring fromstring (content http_res);
  let result_element := find (Descendant (query_operation_name +:+ "Return")) root in
  let no_results : M ConsultaDBAResponse unit :=
    update (set_success false);;
    update (set_message (Some no_results_message));;
    update (set_raw_response (Some no_results_payload)) in
  match result_element ≫= text with
  | Some result_text =>
      if truthy result_text then
        inner_xml_root ← etree_fromstring fromstring (encode_utf8 result_text);
        let error_node := find (Descendant "RespuestaConsultaBDAError") inner_xml_root in
        let registro_neg_node := find (Descendant "RegistroBDANegativa") inner_xml_root in
        let registro_pos_node := find (Descendant "RegistroBDAPositiva") inner_xml_root in
        match error_node, registro_neg_node, registro_pos_node with
        | Some error_node, _, _ =>
            update (set_success false);;
            let codigo_error := findtext (Child "CodigoError") "N/A" error_node in
            let desc_error :=
              findtext (Child "DescripcionError") "Error desconocido" error_node in
            update (set_message (Some ("Error de la BDA: " +:+ desc_error)));;
            update (set_error_code (Some codigo_error));;
            update (set_raw_response
                      (Some [[("CodigoError", codigo_error);
                              ("DescripcionError", desc_error)]]))
        | None, Some registro_neg_node, _ =>
            let fecha_reporte_raw := findtext (Child "FechaReporte") "" registro_neg_node in
            dt_obj ← (if truthy fecha_reporte_raw
                      then dt ← lift (strptime fecha_reporte_raw); mret (Some dt)
                      else mret (None : option datetime));
            update (set_success true);;
            update (set_message (Some "Consulta negativa procesada exitosamente."));;
            update (set_raw_response
                      (Some [[("TipoRespuesta",
                               findtext (Descendant "TipoRespuesta") "N/A" inner_xml_root);
                              ("RespuestaConsultaBDANegativa", "Registro Encontrado");
                              ("Imei", findtext (Child "Imei") "N/A" registro_neg_node);
                              ("Tecnologia",
                               findtext (Child "Tecnologia") "N/A" registro_neg_node);
                              ("FechaReporte",
                               match dt_obj with
                               | Some dt => strftime dt
                               | None => "N/A"
                               end)]]))
        | None, None, Some _ =>
            update (set_success true);;
            update (set_message (Some "Consulta positiva procesada exitosamente (Estructura de datos pendiente)."));;
            update (set_raw_response
                      (Some [[("status", "Registro Positivo Encontrado"); ("data", "...")]]))
        | None, None, None =>
            update (set_success false);;
            update (set_message (Some unknown_shape_message));;
            update (set_raw_response
                      (Some [[("error", "Estructura de respuesta desconocida");
                              ("response_body", result_text)]]))
        end
      else no_results
  | None => no_results
  end.

(** The [except Exception] clause of [_send_request]. *)
Definition _send_request_except (e : exception) : M ConsultaDBAResponse unit :=
  update (set_message (Some "Error inesperado en el procesamiento."));;
  update (set_http_status 500).

Definition _send_request_run (self : ConsultaDBAClient)
    (query_operation_name xml_payload : string) : run ConsultaDBAResponse unit :=
  try_except (_send_request_try self query_operation_name xml_payload)
             _send_request_except new_response.

(** [_send_request(query_operation_name, xml_payload)]: the response object
    returned. *)
Definition _send_request (self : ConsultaDBAClient)
    (query_operation_name xml_payload : string) : ConsultaDBAResponse :=
  state (_send_request_run self query_operation_name xml_payload).

Definition consulta_positiva (self : ConsultaDBAClient)
    (imei tipo_id_propietario id_propietario : string) : ConsultaDBAResponse :=
  let xml_payload := _build_positiva_query_xml imei tipo_id_propietario id_propietario in
  _send_request self "consultaBDAPositiva" xml_payload.

Definition consulta_negativa (self : ConsultaDBAClient) (imei : string)
    : ConsultaDBAResponse :=
  let xml_payload := _build_negativa_query_xml imei in
  _send_request self "consultaBDANegativa" xml_payload.

Definition consulta_negativa_tipo_reporte (self : ConsultaDBAClient) (imei : string)
    : ConsultaDBAResponse :=
  let xml_payload := _build_negativa_query_xml imei in
  _send_request self "consultaBDANegativaTipoReporte" xml_payload.

End send.

(** The three operation names the public methods pass to [_send_request]. *)
Definition operations : list string :=
  ["consultaBDAPositiva"; "consultaBDANegativa"; "consultaBDANegativaTipoReporte"].

End ConsultaClient.

(** ** webhook.py *)

Module Webhook.

Definition MESSAGE_MAP : gmap string string :=
  list_to_map
    [ ("1002", "RespuestaRegistroPositivo");
      ("2002", "RespuestaRegistroNegativo");
      ("3002", "RespuestaCancelacionRegistroNegativo");
      ("4002", "RespuestaModificacionRegistroPositivo");
      ("5002", "RespuestaCancelacionRegistroPositivo") ].

(** What the view reads of [flask.request]: the [Content-Type] header as
    sent ([None] when there is none) and the body. *)
Record Request : Type := {
  content_type : option string;
  data : string
}.

(** The body of a reply: a byte string given as such, or the bytes
    [etree.tostring(e, pretty_print=True, xml_declaration=True,
    encoding='UTF-8')] of an element [e]. *)
Inductive content : Type :=
| Literal (b : string)
| Serialized (e : element).

(** What the view returns: body, status and mimetype. [return body, status]
    leaves Flask's default mimetype. *)
Record Reply : Type := {
  body : content;
  status : Z;
  mimetype : string
}.

Definition empty_reply (status : Z) : Reply :=
  {| body := Literal ""; status := status; mimetype := "text/html" |}.

(** The end of a call of the view: a reply, or an exception that leaves the
    view and is left to Flask. *)
Inductive outcome : Type :=
| Returns (r : Reply)
| Propagates (e : exception).

Definition soapenv : string := "http://schemas.xmlsoap.org/soap/envelope/".
Definition service : string := "http://service.client.xcewsmulti.iecisa.es".

(** The envelope built for the acknowledgement. *)
Definition soap_envelope : element :=
  Element (Some soapenv) "Envelope" None
    [ Element (Some soapenv) "Body" None
        [ Element (Some service) "receiveMessageResponse" None
            [ Element (Some service) "receiveMessageReturn" (Some "ack") [] ] ] ].

Section view.
Variable fromstring : parser.

(** The body of the [try] statement of [handle_srtm_response]. *)
Definition handle_srtm_response_try (xml_data : string) : exception + Reply :=
  match fromstring xml_data with
  | inl msg => inl (XMLSyntaxError msg)
  | inr root =>
      let tipo_msg_element := xpath_descendant "TipoMsg" root in
      match tipo_msg_element with
      | [] => inr (empty_reply 200)
      | first :: _ =>
          match text first ≫= (MESSAGE_MAP !!.) with
          | None => inr (empty_reply 200)
          | Some response_element_name =>
              let tipo_respuesta_element :=
                xpath_descendant_child response_element_name "TipoRespuesta" root in
              match tipo_respuesta_element with
              | _ :: _ =>
                  let ack_response := Serialized soap_envelope in
                  inr {| body := ack_response; status := 200; mimetype := "text/xml" |}
              | [] => inr (empty_reply 404)
              end
          end
      end
  end.

Definition handle_srtm_response (request : Request) : outcome :=
  if bool_decide (content_type request ∉ [Some "text/xml"; Some "application/xml"])
  then Returns (empty_reply 404)
  else
    let xml_data := data request in
    (* the body is decoded for the log record, ahead of the [try] *)
    match decode_utf8 xml_data with
    | inl e => Propagates e
    | inr _ =>
        match handle_srtm_response_try xml_data with
        | inr reply => Returns reply
        | inl (XMLSyntaxError _) => Returns (empty_reply 404)
        | inl _ => Returns (empty_reply 500)
        end
    end.

End view.

End Webhook.

(** ** database.py *)

Module Database.

(** The values handed to [json.dumps]: [None], strings, lists, and
    dictionaries as their items in insertion order. *)
Inductive json : Type :=
| JNull
| JStr (s : string)
| JList (l : list json)
| JDict (items : list (string * json)).

(** A row of the table [transactions], without its [id] and the two columns
    that hold clock readings. *)
Record Transaction : Type := {
  transaction_type : string;
  msg_type : string;
  imei : option string;
  request_payload : string;
  success : bool;
  http_status : Z;
  response_message : option string;
  error_code : option string;
  raw_response : option string
}.

(** [asdict(soap_response)], without the clock readings. *)
Record response_data : Type := {
  rd_success : bool;
  rd_http_status : Z;
  rd_message : option string;
  rd_error_code : option string;
  rd_raw_response : json
}.

(** [request.model_dump()]: the fields in the order of their declaration. *)
Abbreviation request_data := (list (string * option string)).

(** [d.get(key, default)] *)
Definition dict_get (d : request_data) (key : string) (default : option string)
    : option string :=
  match list_find (λ item, item.1 = key) d with
  | Some (_, (_, v)) => v
  | None => default
  end.

Definition to_json (d : request_data) : json :=
  JDict ((λ item, (item.1, match item.2 with Some v => JStr v | None => JNull end)) <$> d).

(** An exception raised by the database layer, with its message. *)
Inductive error : Type :=
| SQLAlchemyError (msg : string).

(** What the code uses of a SQLAlchemy session. Each operation may raise,
    and leaves the session in some state. *)
Class DbSession (D : Type) : Type := {
  add : Transaction → D → (error + unit) * D;
  commit : D → (error + unit) * D;
  refresh : Transaction → D → (error + unit) * D;
  rollback : D → (error + unit) * D
}.

Section log.
Context {D : Type} `{DbSession D}.
Variable dumps : json → string.

(** The body of the [try] statement of [log_transaction]. *)
Definition log_transaction_try (db_session : D) (transaction_type msg_type : string)
    (request_data : request_data) (response_data : response_data)
    : (error + Transaction) * D :=
  let imei := dict_get request_data "imei" (Some "N/A") in
  let raw_res_data := rd_raw_response response_data in
  let raw_response_for_db :=
    match raw_res_data with
    | JList _ | JDict _ => Some (dumps raw_res_data)
    | JStr s => Some s
    | JNull => None
    end in
  let transaction_record :=
    {| transaction_type := transaction_type;
       msg_type := msg_type;
       imei := imei;
       request_payload := dumps (to_json request_data);
       success := rd_success response_data;
       http_status := rd_http_status response_data;
       response_message := rd_message response_data;
       error_code := rd_error_code response_data;
       raw_response := raw_response_for_db |} in
  match add transaction_record db_session with
  | (inl e, db_session) => (inl e, db_session)
  | (inr _, db_session) =>
      match commit db_session with
      | (inl e, db_session) => (inl e, db_session)
      | (inr _, db_session) =>
          match refresh transaction_record db_session with
          | (inl e, db_session) => (inl e, db_session)
          | (inr _, db_session) => (inr transaction_record, db_session)
          end
      end
  end.

(** [log_transaction(db_session, transaction_type, msg_type, request_data,
    response_data, timestamp)]: the record stored or [None], or the
    exception that [rollback] raises in the handler. *)
Definition log_transaction (db_session : D) (transaction_type msg_type : string)
    (request_data : request_data) (response_data : response_data)
    : (error + option Transaction) * D :=
  match log_transaction_try db_session transaction_type msg_type request_data
          response_data with
  | (inr transaction_record, db_session) => (inr (Some transaction_record), db_session)
  | (inl _, db_session) =>
      match rollback db_session with
      | (inl e, db_session) => (inl e, db_session)
      | (inr _, db_session) => (inr None, db_session)
      end
  end.

End log.

End Database.

(** ** main.py *)

Module Main.

(** The attributes [create_api_response] and [asdict] read of a response
    object of either client. *)
Class SoapResponse (R : Type) : Type := {
  success : R → bool;
  http_status : R → Z;
  message : R → option string;
  error_code : R → option string;
  raw_response : R → Database.json
}.

#[export] Instance SRTMResponse_SoapResponse : SoapResponse SoapClient.SRTMResponse := {|
  success := SoapClient.success;
  http_status := SoapClient.http_status;
  message := SoapClient.message;
  error_code := SoapClient.error_code;
  raw_response r :=
    match SoapClient.raw_response r with
    | Some s => Database.JStr s
    | None => Database.JNull
    end
|}.

#[export] Instance ConsultaDBAResponse_SoapResponse
    : SoapResponse ConsultaClient.ConsultaDBAResponse := {|
  success := ConsultaClient.success;
  http_status := ConsultaClient.http_status;
  message := ConsultaClient.message;
  error_code := ConsultaClient.error_code;
  raw_response r :=
    match ConsultaClient.raw_response r with
    | Some l =>
        Database.JList
          ((λ d, Database.JDict ((λ item, (item.1, Database.JStr item.2)) <$> d)) <$> l)
    | None => Database.JNull
    end
|}.

(** [APIResponse], without [transaction_timestamp]. *)
Record APIResponse : Type := {
  api_success : bool;
  api_http_status : Z;
  api_message : option string;
  api_error_code : option string;
  api_raw_response : Database.json
}.

Record HTTPException : Type := {
  status_code : Z;
  detail : option string
}.

(** What leaves an endpoint when it raises: an [HTTPException], or the
    exception of the database layer that [log_transaction] lets through. *)
Inductive raised : Type :=
| Http (e : HTTPException)
| Other (e : Database.error).

(** [create_api_response(soap_response)] *)
Definition create_api_response {R} `{SoapResponse R} (soap_response : R)
    : HTTPException + APIResponse :=
  if negb (success soap_response) && bool_decide (500 ≤ http_status soap_response)%Z then
    inl {| status_code := http_status soap_response; detail := message soap_response |}
  else
    inr {| api_success := success soap_response;
           api_http_status := http_status soap_response;
           api_message := message soap_response;
           api_error_code := error_code soap_response;
           api_raw_response := raw_response soap_response |}.

(** [asdict(soap_response)] *)
Definition asdict {R} `{SoapResponse R} (soap_response : R) : Database.response_data :=
  {| Database.rd_success := success soap_response;
     Database.rd_http_status := http_status soap_response;
     Database.rd_message := message soap_response;
     Database.rd_error_code := error_code soap_response;
     Database.rd_raw_response := raw_response soap_response |}.

(** [request.model_dump()] for each request model. *)
Definition dump_registro_positivo (r : Models.RegistroPositivoRequest.t)
    : Database.request_data :=
  [ ("imei", Models.RegistroPositivoRequest.imei r);
    ("tipo_usuario_propietario", Models.RegistroPositivoRequest.tipo_usuario_propietario r);
    ("tipo_identificacion_propietario",
     Models.RegistroPositivoRequest.tipo_identificacion_propietario r);
    ("identificacion_propietario",
     Models.RegistroPositivoRequest.identificacion_propietario r);
    ("nombre_razon_social_propietario",
     Models.RegistroPositivoRequest.nombre_razon_social_propietario r);
    ("direccion_propietario", Models.RegistroPositivoRequest.direccion_propietario r);
    ("telefono_contacto_propietario",
     Models.RegistroPositivoRequest.telefono_contacto_propietario r);
    ("observaciones", Models.RegistroPositivoRequest.observaciones r);
    ("imsi", Models.RegistroPositivoRequest.imsi r);
    ("msisdn", Models.RegistroPositivoRequest.msisdn r) ].

Definition dump_registro_negativo (r : Models.RegistroNegativoRequest.t)
    : Database.request_data :=
  [ ("imei", Models.RegistroNegativoRequest.imei r);
    ("tipo_reporte", Models.RegistroNegativoRequest.tipo_reporte r);
    ("nombre_reporte", Models.RegistroNegativoRequest.nombre_reporte r);
    ("tipo_identificacion_reporte",
     Models.RegistroNegativoRequest.tipo_identificacion_reporte r);
    ("identificacion_reporte", Models.RegistroNegativoRequest.identificacion_reporte r);
    ("telefono_reporte", Models.RegistroNegativoRequest.telefono_reporte r);
    ("direccion_reporte", Models.RegistroNegativoRequest.direccion_reporte r);
    ("ciudad_reporte", Models.RegistroNegativoRequest.ciudad_reporte r);
    ("departamento_reporte", Models.RegistroNegativoRequest.departamento_reporte r);
    ("correo_electronico", Models.RegistroNegativoRequest.correo_electronico r);
    ("observaciones", Models.RegistroNegativoRequest.observaciones r);
    ("empleo_violencia", Models.RegistroNegativoRequest.empleo_violencia r);
    ("utilizacion_armas", Models.RegistroNegativoRequest.utilizacion_armas r);
    ("victima_menor_edad", Models.RegistroNegativoRequest.victima_menor_edad r) ].

Definition dump_cancelacion_negativo (r : Models.CancelacionNegativoRequest.t)
    : Database.request_data :=
  [ ("imei", Models.CancelacionNegativoRequest.imei r);
    ("fecha_reporte", Models.CancelacionNegativoRequest.fecha_reporte r);
    ("observaciones", Models.CancelacionNegativoRequest.observaciones r) ].

Definition dump_modificacion_positivo (r : Models.ModificacionPositivoRequest.t)
    : Database.request_data :=
  [ ("imei", Models.ModificacionPositivoRequest.imei r);
    ("tipo_modificacion", Models.ModificacionPositivoRequest.tipo_modificacion r);
    ("tipo_usuario_propietario",
     Models.ModificacionPositivoRequest.tipo_usuario_propietario r);
    ("tipo_identificacion_propietario",
     Models.ModificacionPositivoRequest.tipo_identificacion_propietario r);
    ("identificacion_propietario",
     Models.ModificacionPositivoRequest.identificacion_propietario r);
    ("nombre_razon_social_propietario",
     Models.ModificacionPositivoRequest.nombre_razon_social_propietario r);
    ("direccion_propietario", Models.ModificacionPositivoRequest.direccion_propietario r);
    ("telefono_contacto_propietario",
     Models.ModificacionPositivoRequest.telefono_contacto_propietario r);
    ("tipo_usuario_autorizado", Models.ModificacionPositivoRequest.tipo_usuario_autorizado r);
    ("imsi", Models.ModificacionPositivoRequest.imsi r);
    ("msisdn", Models.ModificacionPositivoRequest.msisdn r);
    ("observaciones", Models.ModificacionPositivoRequest.observaciones r);
    ("tipo_identificacion_propietario_anterior",
     Models.ModificacionPositivoRequest.tipo_identificacion_propietario_anterior r);
    ("identificacion_propietario_anterior",
     Models.ModificacionPositivoRequest.identificacion_propietario_anterior r);
    ("tipo_identificacion_autorizado",
     Models.ModificacionPositivoRequest.tipo_identificacion_autorizado r);
    ("identificacion_autorizado",
     Models.ModificacionPositivoRequest.identificacion_autorizado r);
    ("nombre_razon_social_autorizado",
     Models.ModificacionPositivoRequest.nombre_razon_social_autorizado r);
    ("direccion_autorizado", Models.ModificacionPositivoRequest.direccion_autorizado r);
    ("telefono_contacto_autorizado",
     Models.ModificacionPositivoRequest.telefono_contacto_autorizado r) ].

Definition dump_cancelacion_positivo (r : Models.CancelacionPositivoRequest.t)
    : Database.request_data :=
  [ ("imei", Models.CancelacionPositivoRequest.imei r);
    ("tipo_usuario_propietario",
     Models.CancelacionPositivoRequest.tipo_usuario_propietario r);
    ("tipo_identificacion_propietario",
     Models.CancelacionPositivoRequest.tipo_identificacion_propietario r);
    ("identificacion_propietario",
     Models.CancelacionPositivoRequest.identificacion_propietario r);
    ("observaciones", Models.CancelacionPositivoRequest.observaciones r) ].

Definition dump_consulta_positiva (r : Models.ConsultaPositivaRequest.t)
    : Database.request_data :=
  [ ("imei", Some (Models.ConsultaPositivaRequest.imei r));
    ("tipo_identificacion_propietario",
     Some (Models.ConsultaPositivaRequest.tipo_identificacion_propietario r));
    ("identificacion_propietario",
     Some (Models.ConsultaPositivaRequest.identificacion_propietario r)) ].

(** [ConsultaNegativaRequest(imei=imei).model_dump()] *)
Definition dump_consulta_negativa (imei : string) : Database.request_data :=
  [ ("imei", Some imei) ].

Definition acciones_no_disponible : HTTPException :=
  {| status_code := 503;
     detail := Some "Servicio no disponible: Cliente SOAP de acciones no inicializado." |}.

Definition consultas_no_disponible : HTTPException :=
  {| status_code := 503;
     detail := Some "Servicio no disponible: Cliente SOAP de consultas no inicializado." |}.

Section endpoints.
Context {D : Type} `{Database.DbSession D}.
Variable fromstring : parser.
Variable dumps : Database.json → string.
Variable env : SoapClient.environment.

(** The global [soap_client]: [None], or the client and its counters. *)
Abbreviation soap_client_state :=
  (option (SoapClient.SRTMAxisClient * SoapClient.counters)).

(** The end of an endpoint after the client call: the transaction is logged,
    then the response is made. *)
Definition log_and_respond {R} `{SoapResponse R} (db : D)
    (transaction_type msg_type : string) (request_data : Database.request_data)
    (soap_response : R) : (raised + APIResponse) * D :=
  match Database.log_transaction dumps db transaction_type msg_type request_data
          (asdict soap_response) with
  | (inl e, db) => (inl (Other e), db)
  | (inr _, db) =>
      (match create_api_response soap_response with
       | inl e => inl (Http e)
       | inr r => inr r
       end, db)
  end.

(** The five action endpoints. Each gives what it returns or raises, the
    global client as it leaves it, and the database session. *)
Definition registro_positivo (soap_client : soap_client_state)
    (rd : SoapClient.readings) (request : Models.RegistroPositivoRequest.t) (db : D)
    : (raised + APIResponse) * soap_client_state * D :=
  match soap_client with
  | None => (inl (Http acciones_no_disponible), None, db)
  | Some (self, c) =>
      let '(soap_response, c) :=
        SoapClient.registrar_positivo fromstring env self rd request c in
      let '(r, db) :=
        log_and_respond db "action" (SoapClient.MSG_TYPE_REGISTRO_POSITIVO env)
          (dump_registro_positivo request) soap_response in
      (r, Some (self, c), db)
  end.

Definition registro_negativo (soap_client : soap_client_state)
    (rd : SoapClient.readings) (request : Models.RegistroNegativoRequest.t) (db : D)
    : (raised + APIResponse) * soap_client_state * D :=
  match soap_client with
  | None => (inl (Http acciones_no_disponible), None, db)
  | Some (self, c) =>
      let '(soap_response, c) :=
        SoapClient.registrar_negativo fromstring env self rd request c in
      let '(r, db) :=
        log_and_respond db "action" (SoapClient.MSG_TYPE_REGISTRO_NEGATIVO env)
          (dump_registro_negativo request) soap_response in
      (r, Some (self, c), db)
  end.

Definition cancelacion_negativo (soap_client : soap_client_state)
    (rd : SoapClient.readings) (request : Models.CancelacionNegativoRequest.t) (db : D)
    : (raised + APIResponse) * soap_client_state * D :=
  match soap_client with
  | None => (inl (Http acciones_no_disponible), None, db)
  | Some (self, c) =>
      let '(soap_response, c) :=
        SoapClient.cancelar_negativo fromstring env self rd request c in
      let '(r, db) :=
        log_and_respond db "action" (SoapClient.MSG_TYPE_CANCELACION_NEGATIVO env)
          (dump_cancelacion_negativo request) soap_response in
      (r, Some (self, c), db)
  end.

Definition modificacion_positivo (soap_client : soap_client_state)
    (rd : SoapClient.readings) (request : Models.ModificacionPositivoRequest.t) (db : D)
    : (raised + APIResponse) * soap_client_state * D :=
  match soap_client with
  | None => (inl (Http acciones_no_disponible), None, db)
  | Some (self, c) =>
      let '(soap_response, c) :=
        SoapClient.modificar_positivo fromstring env self rd request c in
      let '(r, db) :=
        log_and_respond db "action" (SoapClient.MSG_TYPE_MODIFICACION_POSITIVO env)
          (dump_modificacion_positivo request) soap_response in
      (r, Some (self, c), db)
  end.

Definition cancelacion_positivo (soap_client : soap_client_state)
    (rd : SoapClient.readings) (request : Models.CancelacionPositivoRequest.t) (db : D)
    : (raised + APIResponse) * soap_client_state * D :=
  match soap_client with
  | None => (inl (Http acciones_no_disponible), None, db)
  | Some (self, c) =>
      let '(soap_response, c) :=
        SoapClient.cancelar_positivo fromstring env self rd request c in
      let '(r, db) :=
        log_and_respond db "action" (SoapClient.MSG_TYPE_CANCELACION_POSITIVO env)
          (dump_cancelacion_positivo request) soap_response in
      (r, Some (self, c), db)
  end.

(** The three query endpoints; the query client has no state of its own. *)
Definition consulta_positiva (consulta_client : option ConsultaClient.ConsultaDBAClient)
    (request : Models.ConsultaPositivaRequest.t) (db : D)
    : (raised + APIResponse) * D :=
  match consulta_client with
  | None => (inl (Http consultas_no_disponible), db)
  | Some self =>
      let soap_response :=
        ConsultaClient.consulta_positiva fromstring self
          (Models.ConsultaPositivaRequest.imei request)
          (Models.ConsultaPositivaRequest.tipo_identificacion_propietario request)
          (Models.ConsultaPositivaRequest.identificacion_propietario request) in
      log_and_respond db "query" "consultaBDAPositiva" (dump_consulta_positiva request)
        soap_response
  end.

Definition consulta_negativa (consulta_client : option ConsultaClient.ConsultaDBAClient)
    (imei : string) (db : D) : (raised + APIResponse) * D :=
  match consulta_client with
  | None => (inl (Http consultas_no_disponible), db)
  | Some self =>
      let request_model := dump_consulta_negativa imei in
      let soap_response := ConsultaClient.consulta_negativa fromstring self imei in
      log_and_respond db "query" "consultaBDANegativa" request_model soap_response
  end.

Definition consulta_negativa_tipo_reporte
    (consulta_client : option ConsultaClient.ConsultaDBAClient)
    (imei : string) (db : D) : (raised + APIResponse) * D :=
  match consulta_client with
  | None => (inl (Http consultas_no_disponible), db)
  | Some self =>
      let request_model := dump_consulta_negativa imei in
      let soap_response :=
        ConsultaClient.consulta_negativa_tipo_reporte fromstring self imei in
      log_and_respond db "query" "consultaBDANegativaTipoReporte" request_model
        soap_response
  end.

End endpoints.

End Main.

(** ** A reader for plain XML documents

    [MiniXml.fromstring] reads the documents made of elements with
    unprefixed names and no attributes and of character data (no carriage
    return) with the five predefined entities. Without an XML declaration
    the bytes must be ASCII;
    after the declaration [<?xml version='1.0' encoding='ISO-8859-1'?>]
    the bytes from 160 up are read as the code points of the same number. It
    rejects every other input. On what it accepts it builds the tree an XML
    parser builds, so it can stand for the parser when a property is
    evaluated on such a document. *)

Module MiniXml.

Inductive token : Type :=
| TOpen (name : string)
| TClose (name : string)
| TEmpty (name : string)
| TText (s : string).

Definition is_letter (c : ascii) : bool :=
  let n := nat_of_ascii c in
  ((65 <=? n) && (n <=? 90) || (97 <=? n) && (n <=? 122) || (n =? 95))%nat.

Definition is_name_char (c : ascii) : bool :=
  let n := nat_of_ascii c in
  (is_letter c || (48 <=? n) && (n <=? 57) || (n =? 45) || (n =? 46))%nat.

Fixpoint all_chars (p : ascii → bool) (s : string) : bool :=
  match s with
  | "" => true
  | String c r => p c && all_chars p r
  end.

Definition is_name (s : string) : bool :=
  match s with
  | "" => false
  | String c r => is_letter c && all_chars is_name_char r
  end.

(** Character data: printable ASCII, tab and line feed; with [latin1], the
    bytes from 160 up as well. *)
Definition is_text_char (latin1 : bool) (c : ascii) : bool :=
  let n := nat_of_ascii c in
  ((32 <=? n) && (n <=? 126) || (n =? 9) || (n =? 10)
   || latin1 && (160 <=? n))%nat.

Definition is_blank (c : ascii) : bool :=
  let n := nat_of_ascii c in
  ((n =? 32) || (n =? 9) || (n =? 10))%nat.

(** Replaces the predefined entities of character data. *)
Fixpoint unescape (latin1 : bool) (s : string) : option string :=
  match s with
  | "" => Some ""
  | String "&" (String "l" (String "t" (String ";" r))) => String "<" <$> unescape latin1 r
  | String "&" (String "g" (String "t" (String ";" r))) => String ">" <$> unescape latin1 r
  | String "&" (String "a" (String "m" (String "p" (String ";" r)))) =>
      String "&" <$> unescape latin1 r
  | String "&" (String "q" (String "u" (String "o" (String "t" (String ";" r))))) =>
      String dquote <$> unescape latin1 r
  | String "&" (String "a" (String "p" (String "o" (String "s" (String ";" r))))) =>
      String "'" <$> unescape latin1 r
  | String "&" _ => None
  | String c r =>
      if is_text_char latin1 c then String c <$> unescape latin1 r else None
  end.

(** The token of a piece of character data; the sequence that closes a
    CDATA section may not stand in it. *)
Definition text_tokens (latin1 : bool) (acc : string) : option (list token) :=
  match acc with
  | "" => Some []
  | _ => if contains "]]>" acc then None else t ← unescape latin1 acc; Some [TText t]
  end.

Fixpoint last_char (s : string) : option ascii :=
  match s with
  | "" => None
  | String c "" => Some c
  | String _ r => last_char r
  end.

Fixpoint but_last (s : string) : string :=
  match s with
  | "" => ""
  | String c "" => ""
  | String c r => String c (but_last r)
  end.

Definition tag_token (acc : string) : option token :=
  match acc with
  | String "/" name => if is_name name then Some (TClose name) else None
  | _ =>
      if bool_decide (last_char acc = Some "/"%char) then
        if is_name (but_last acc) then Some (TEmpty (but_last acc)) else None
      else if is_name acc then Some (TOpen acc) else None
  end.

(** The lexer reads character data ([in_tag = false]) or the inside of a
    tag; [acc] is what it has read of the current piece. *)
Fixpoint lex (latin1 : bool) (s : string) (in_tag : bool) (acc : string)
    : option (list token) :=
  match s with
  | "" => if in_tag then None else text_tokens latin1 acc
  | String c r =>
      if in_tag then
        if Ascii.eqb c ">" then
          t ← tag_token acc; ts ← lex latin1 r false ""; Some (t :: ts)
        else if Ascii.eqb c "<" then None
        else lex latin1 r true (acc +:+ String c "")
      else
        if Ascii.eqb c "<" then
          ts1 ← text_tokens latin1 acc; ts2 ← lex latin1 r true "";
          Some (ts1 ++ ts2)%list
        else lex latin1 r false (acc +:+ String c "")
  end.

(** An element being read: its name, its text so far, and the children
    already closed, last first. *)
Record frame : Type := {
  f_name : string;
  f_text : string;
  f_children : list element
}.

Definition close (f : frame) : element :=
  Element None (f_name f)
    (if truthy (f_text f) then Some (f_text f) else None)
    (rev (f_children f)).

Definition add_child (e : element) (f : frame) : frame :=
  {| f_name := f_name f; f_text := f_text f; f_children := e :: f_children f |}.

Definition add_text (t : string) (f : frame) : frame :=
  match f_children f with
  | [] => {| f_name := f_name f; f_text := f_text f +:+ t; f_children := [] |}
  | _ => f
  end.

(** Closes the frame on top of the stack into its parent, or into the root. *)
Definition pop (name : string) (stack : list frame) (root : option element)
    : option (list frame * option element) :=
  match stack with
  | [] => None
  | f :: rest =>
      if String.eqb (f_name f) name then
        match rest, root with
        | parent :: rest', _ => Some (add_child (close f) parent :: rest', root)
        | [], None => Some ([], Some (close f))
        | [], Some _ => None
        end
      else None
  end.

Fixpoint build (ts : list token) (stack : list frame) (root : option element)
    : option element :=
  match ts with
  | [] => match stack with [] => root | _ => None end
  | TText t :: ts =>
      match stack with
      | [] => if all_chars is_blank t then build ts [] root else None
      | f :: rest => build ts (add_text t f :: rest) root
      end
  | TOpen name :: ts =>
      match stack, root with
      | [], Some _ => None
      | _, _ => build ts ({| f_name := name; f_text := ""; f_children := [] |} :: stack) root
      end
  | TEmpty name :: ts =>
      match stack, root with
      | [], Some _ => None
      | _, _ =>
          '(stack, root) ← pop name ({| f_name := name; f_text := ""; f_children := [] |} :: stack) root;
          build ts stack root
      end
  | TClose name :: ts =>
      '(stack, root) ← pop name stack root;
      build ts stack root
  end.

Definition latin1_declaration : string :=
  "<?xml version='1.0' encoding='ISO-8859-1'?>".

(** [Some rest] when [s] is [prefix] followed by [rest]. *)
Fixpoint strip_prefix (prefix s : string) : option string :=
  match prefix, s with
  | "", _ => Some s
  | String a p, String b r => if Ascii.eqb a b then strip_prefix p r else None
  | String _ _, "" => None
  end.

Definition fromstring : parser := λ b,
  let tokens :=
    match strip_prefix latin1_declaration b with
    | Some rest => lex true rest false ""
    | None => lex false b false ""
    end in
  match tokens ≫= (λ ts, build ts [] None) with
  | Some root => inr root
  | None => inl "not a well-formed document of the plain fragment"
  end.

End MiniXml.

(** ** Vocabulary of the statements *)

(** The hypotheses under which a call of the query client reaches the
    markers of the nested document: its post returns a response that is no
    HTTP error, its body parses, the return element of the operation has
    non-empty text [result_text], and that text parses to [inner]. *)
Definition reaches_markers (fromstring : parser)
    (self : ConsultaClient.ConsultaDBAClient) (op xml_payload : string)
    (result_text : string) (inner : element) : Prop :=
  ∃ http_res root,
    ConsultaClient.post self op xml_payload = inr http_res
    ∧ raise_for_status http_res = inr tt
    ∧ fromstring (content http_res) = inr root
    ∧ find (Descendant (op +:+ "Return")) root ≫= text = Some result_text
    ∧ truthy result_text = true
    ∧ fromstring (encode_utf8 result_text) = inr inner.

(** The hypotheses under which a call of the query client reaches the
    parse of the nested document: as for [reaches_markers], without the
    last one. *)
Definition reaches_return_text (fromstring : parser)
    (self : ConsultaClient.ConsultaDBAClient) (op xml_payload : string)
    (result_text : string) : Prop :=
  ∃ http_res root,
    ConsultaClient.post self op xml_payload = inr http_res
    ∧ raise_for_status http_res = inr tt
    ∧ fromstring (content http_res) = inr root
    ∧ find (Descendant (op +:+ "Return")) root ≫= text = Some result_text
    ∧ truthy result_text = true.

(** The response of a call whose [try] body raised after the status of the
    HTTP response was stored. *)
Definition reports_fault (r : ConsultaClient.ConsultaDBAResponse) : Prop :=
  ConsultaClient.success r = false
  ∧ ConsultaClient.http_status r = 500%Z
  ∧ ConsultaClient.message r = Some "Error inesperado en el procesamiento."
  ∧ ConsultaClient.error_code r = None
  ∧ ConsultaClient.raw_response r = None.

Definition is_digit (c : ascii) : bool :=
  match digit c with Some _ => true | None => false end.

Fixpoint all_digits (s : string) : bool :=
  match s with
  | "" => true
  | String c r => is_digit c && all_digits r
  end.

(** A [YYYYMMDDHHMMSS] timestamp: fourteen decimal digits that [strptime]
    reads as a date and time. *)
Definition valid_timestamp (s : string) : Prop :=
  String.length s = 14%nat ∧ all_digits s = true ∧ ∃ dt, strptime s = inr dt.

(** What a directive of one or two digits reads from an input that starts
    with two digits: both, or the first. *)
Definition two_or_one (m : matcher) : Prop :=
  ∀ c1 c2 d1 d2 r v rest,
    digit c1 = Some d1 → digit c2 = Some d2 →
    (v, rest) ∈ m (String c1 (String c2 r)) →
    (v = (10 * d1 + d2)%nat ∧ rest = r) ∨ (v = d1 ∧ rest = String c2 r).

(** The characters of a fourteen-character [YYYYMMDDHHMMSS] laid out as
    [YYYY-DD-MM HH:MM:SS]. *)
Definition day_month_swapped (s : string) : string :=
  substring 0 4 s +:+ "-" +:+ substring 6 2 s +:+ "-" +:+ substring 4 2 s +:+ " "
  +:+ substring 8 2 s +:+ ":" +:+ substring 10 2 s +:+ ":" +:+ substring 12 2 s.

(** A string without its leading zeros. *)
Fixpoint lstrip_zeros (s : string) : string :=
  match s with
  | "" => ""
  | String c r => if Ascii.eqb c "0" then lstrip_zeros r else s
  end.

(** The characters of a fourteen-character [YYYYMMDDHHMMSS] laid out as
    [Y-DD-MM HH:MM:SS], where [Y] is [YYYY] without its leading zeros. *)
Definition reformatted (s : string) : string :=
  lstrip_zeros (substring 0 4 s) +:+ "-" +:+ substring 6 2 s +:+ "-"
  +:+ substring 4 2 s +:+ " "
  +:+ substring 8 2 s +:+ ":" +:+ substring 10 2 s +:+ ":" +:+ substring 12 2 s.

(** [f] is the first of [fields], in their order, that [data] lacks. *)
Definition first_missing (fields : list string) (data : Models.payload) (f : string)
    : Prop :=
  ∃ before after,
    fields = (before ++ f :: after)%list
    ∧ (∀ g, g ∈ before → Models.get data g ≠ None)
    ∧ Models.get data f = None.

(** The value of a string of decimal digits, read after the digits that
    gave [acc]. *)
Fixpoint decimal_value (acc : N) (s : string) : N :=
  match s with
  | "" => acc
  | String c r => decimal_value (10 * acc + (N_of_ascii c - 48)) r
  end.

(** The identifiers that successive calls of [_generate_id] on one client
    give; a call is the reading of the clock and the two arguments. *)
Fixpoint generate_ids (calls : list (datetime * string * nat))
    (self : SoapClient.counters) : list string :=
  match calls with
  | [] => []
  | (now, prefix, length) :: calls =>
      let r := SoapClient._generate_id now prefix length self in
      r.1 :: generate_ids calls r.2
  end.

(** A call that asks for a message identifier, and the number of those
    among the first [i] calls; the same for the other calls, which ask for
    process identifiers. *)
Definition message_call (call : datetime * string * nat) : Prop := call.1.2 = "msg".

Definition messages_before (i : nat) (calls : list (datetime * string * nat)) : nat :=
  List.length (filter message_call (take i calls)).

Definition processes_before (i : nat) (calls : list (datetime * string * nat)) : nat :=
  List.length (filter (λ call, ¬ message_call call) (take i calls)).

(** What [html.escape(s, quote=True)] writes for one character. *)
Definition escape_char (c : ascii) : string :=
  if Ascii.eqb c "&" then "&amp;"
  else if Ascii.eqb c "<" then "&lt;"
  else if Ascii.eqb c ">" then "&gt;"
  else if Ascii.eqb c dquote then "&quot;"
  else if Ascii.eqb c "'" then "&#x27;"
  else String c "".

(** What an endpoint makes of the response [soap_response] of its client:
    the result of [create_api_response], raised or returned. *)
Definition response_for {R} `{Main.SoapResponse R} (soap_response : R)
    : Main.raised + Main.APIResponse :=
  match Main.create_api_response soap_response with
  | inl e => inl (Main.Http e)
  | inr r => inr r
  end.

(** The [HTTPException] of a query whose [try] body raised. *)
Definition procesamiento : Main.raised :=
  Main.Http {| Main.status_code := 500;
               Main.detail := Some "Error inesperado en el procesamiento." |}.

(** The five message types of the callbacks. *)
Definition known_codes : list string := ["1002"; "2002"; "3002"; "4002"; "5002"].

(** A callback the webhook reads as far as its [try] statement: an accepted
    content type, and a body that decodes and parses to [root]. *)
Definition readable (fromstring : parser) (request : Webhook.Request)
    (root : element) : Prop :=
  Webhook.content_type request ∈ [Some "text/xml"; Some "application/xml"]
  ∧ utf8_decodes (Webhook.data request) = true
  ∧ fromstring (Webhook.data request) = inr root.

(** A readable callback of a known message type whose response wrapper
    holds the outcome marker. *)
Definition acknowledgeable (fromstring : parser) (request : Webhook.Request) : Prop :=
  ∃ root first rest code wrapper,
    readable fromstring request root
    ∧ xpath_descendant "TipoMsg" root = first :: rest
    ∧ text first = Some code
    ∧ Webhook.MESSAGE_MAP !! code = Some wrapper
    ∧ xpath_descendant_child wrapper "TipoRespuesta" root ≠ [].

(** The reply that acknowledges a callback. *)
Definition ack_reply : Webhook.Reply :=
  {| Webhook.body := Webhook.Serialized Webhook.soap_envelope;
     Webhook.status := 200; Webhook.mimetype := "text/xml" |}.

(** ** Sample servers, documents and requests *)

Module Samples.

Definition server (http_res : Response) : Session := λ _ _ _, inr http_res.

Definition ok (content : string) : Response :=
  {| status_code := 200; reason := "OK";
     url := "http://srtm.example/service"; content := content |}.

Definition not_found (content : string) : Response :=
  {| status_code := 404; reason := "Not Found";
     url := "http://srtm.example/service"; content := content |}.

Definition consulta_client (http_res : Response) : ConsultaClient.ConsultaDBAClient :=
  {| ConsultaClient.endpoint := "http://srtm.example/service";
     ConsultaClient.user_id := "operador";
     ConsultaClient.password := "secreto";
     ConsultaClient.session := server http_res |}.

Definition soap_client (http_res : Response) : SoapClient.SRTMAxisClient :=
  {| SoapClient.endpoint := "http://srtm.example/service";
     SoapClient.user_id := "operador";
     SoapClient.password := "secreto";
     SoapClient.session := server http_res |}.

(** A response of the negative query whose return element holds [inner],
    escaped. *)
Definition negativa_response (inner : string) : string :=
  "<Envelope><Body><consultaBDANegativaResponse><consultaBDANegativaReturn>"
  +:+ html_escape inner false
  +:+ "</consultaBDANegativaReturn></consultaBDANegativaResponse></Body></Envelope>".

Definition registro_negativa (fecha : string) : string :=
  "<RegistroBDANegativa><Imei>852055059447491</Imei><Tecnologia>01</Tecnologia>"
  +:+ "<FechaReporte>" +:+ fecha +:+ "</FechaReporte></RegistroBDANegativa>".

Definition error_99 : string :=
  "<RespuestaConsultaBDAError><CodigoError>99</CodigoError>"
  +:+ "<DescripcionError>X</DescripcionError></RespuestaConsultaBDAError>".

Definition inner_negativa : string :=
  "<RespuestaConsultaBDA><TipoRespuesta>1</TipoRespuesta>"
  +:+ registro_negativa "20241025143000" +:+ "</RespuestaConsultaBDA>".

Definition inner_negativa_bad_date : string :=
  "<RespuestaConsultaBDA><TipoRespuesta>1</TipoRespuesta>"
  +:+ registro_negativa "2024-10-25" +:+ "</RespuestaConsultaBDA>".

(** A report date of the year 999. *)
Definition inner_negativa_999 : string :=
  "<RespuestaConsultaBDA><TipoRespuesta>1</TipoRespuesta>"
  +:+ registro_negativa "09990101000000" +:+ "</RespuestaConsultaBDA>".

(** A report date of nine digits. *)
Definition inner_negativa_nine_digits : string :=
  "<RespuestaConsultaBDA><TipoRespuesta>1</TipoRespuesta>"
  +:+ registro_negativa "202411111" +:+ "</RespuestaConsultaBDA>".

(** A nested document whose root is the negative record, and one whose root
    is the error marker. *)
Definition inner_negativa_root : string := registro_negativa "20241025143000".
Definition inner_error_root : string := error_99.

(** An error marker beside a negative record whose report date is not a
    timestamp. *)
Definition inner_error_and_bad_date : string :=
  "<RespuestaConsultaBDA>" +:+ error_99
  +:+ registro_negativa "2024-10-25" +:+ "</RespuestaConsultaBDA>".

Definition inner_error_and_negativa : string :=
  "<RespuestaConsultaBDA>" +:+ error_99
  +:+ registro_negativa "20241025143000" +:+ "</RespuestaConsultaBDA>".

Definition inner_positiva : string :=
  "<RespuestaConsultaBDA><RegistroBDAPositiva><Imei>852055059447491</Imei>"
  +:+ "</RegistroBDAPositiva></RespuestaConsultaBDA>".

Definition inner_unknown : string :=
  "<RespuestaConsultaBDA><Otro>1</Otro></RespuestaConsultaBDA>".

Definition inner_not_xml : string := "sin resultados".

Definition empty_return : string :=
  "<Envelope><Body><consultaBDANegativaResponse><consultaBDANegativaReturn>"
  +:+ "</consultaBDANegativaReturn></consultaBDANegativaResponse></Body></Envelope>".

Definition no_return : string :=
  "<Envelope><Body><consultaBDANegativaResponse>"
  +:+ "</consultaBDANegativaResponse></Body></Envelope>".

(** A response of the action service whose return element holds [text]. *)
Definition receive_response (text : string) : string :=
  "<Envelope><Body><receiveMessageResponse><receiveMessageReturn>"
  +:+ text
  +:+ "</receiveMessageReturn></receiveMessageResponse></Body></Envelope>".

(** The message that a sample call of the action client sends. *)
Definition mensaje : string :=
  "<MensajeBDA><CabeceraMensaje><TipoMsg>5001</TipoMsg></CabeceraMensaje></MensajeBDA>".

(** [_send_request('5001', mensaje)] against a server that answers
    [http_res]. *)
Definition accion (http_res : Response) : SoapClient.SRTMResponse :=
  SoapClient._send_request MiniXml.fromstring (soap_client http_res)
    "0123456789abcdef0123456789abcdef" "fedcba9876543210fedcba9876543210"
    "5001" mensaje.

(** A positive query whose owner identification carries markup. *)
Definition consulta_con_marcas : Models.ConsultaPositivaRequest.t :=
  {| Models.ConsultaPositivaRequest.imei := "852055059447491";
     Models.ConsultaPositivaRequest.tipo_identificacion_propietario := "1";
     Models.ConsultaPositivaRequest.identificacion_propietario := "1<2&3" |}.

(** The query built for a request, as the endpoint passes its fields to
    [consulta_positiva]. *)
Definition consulta_positiva_query (r : Models.ConsultaPositivaRequest.t) : string :=
  ConsultaClient._build_positiva_query_xml
    (Models.ConsultaPositivaRequest.imei r)
    (Models.ConsultaPositivaRequest.tipo_identificacion_propietario r)
    (Models.ConsultaPositivaRequest.identificacion_propietario r).

(** A cancel-positive payload with the same owner identification, and
    markup in the [imei]. *)
Definition cancelacion_con_marcas : Models.payload :=
  Models.of_fields
    [ ("imei", "<b>85</b>"); ("tipo_usuario_propietario", "1");
      ("tipo_identificacion_propietario", "1");
      ("identificacion_propietario", "1<2&3"); ("observaciones", "Fin de servicio.") ].

Definition e_acute : string := String (ascii_of_nat 233) "".
Definition o_acute : string := String (ascii_of_nat 243) "".

(** A callback in ISO-8859-1 with no message type; the observation holds
    the byte 243. *)
Definition callback_sin_tipo : string :=
  MiniXml.latin1_declaration
  +:+ "<MensajeBDA><CabeceraMensaje><Observaciones>Cancelaci" +:+ o_acute
  +:+ "n</Observaciones></CabeceraMensaje></MensajeBDA>".

(** A callback in ISO-8859-1 for the message type 1002 whose result code is
    [tipo_respuesta]. *)
Definition callback_1002 (tipo_respuesta : string) : string :=
  MiniXml.latin1_declaration
  +:+ "<MensajeBDA><CabeceraMensaje><TipoMsg>1002</TipoMsg></CabeceraMensaje>"
  +:+ "<CuerpoMensaje><RespuestaRegistroPositivo><TipoRespuesta>" +:+ tipo_respuesta
  +:+ "</TipoRespuesta></RespuestaRegistroPositivo></CuerpoMensaje></MensajeBDA>".

(** A callback of an unknown message type. *)
Definition callback_9999 : string :=
  "<MensajeBDA><CabeceraMensaje><TipoMsg>9999</TipoMsg></CabeceraMensaje></MensajeBDA>".

Definition post (content_type : string) (data : string) : Webhook.Request :=
  {| Webhook.content_type := Some content_type; Webhook.data := data |}.

(** The tree of a document of the plain fragment. *)
Definition tree (doc : string) : element :=
  match MiniXml.fromstring doc with
  | inr root => root
  | inl _ => Element None "" None []
  end.

(** The first descendant of [e] with the local name [name]. *)
Definition first (name : string) (e : element) : element :=
  match find (Descendant name) e with
  | Some d => d
  | None => Element None "" None []
  end.

(** The query that a sample call sends. *)
Definition query : string :=
  ConsultaClient._build_negativa_query_xml "852055059447491".

(** [_send_request('consultaBDANegativa', query)] against a server that
    answers 200 with [inner] in the return element. *)
Definition consulta (inner : string) : ConsultaClient.ConsultaDBAResponse :=
  ConsultaClient._send_request MiniXml.fromstring
    (consulta_client (ok (negativa_response inner))) "consultaBDANegativa" query.

(** A callback of the message type 1002 whose response wrapper is empty. *)
Definition callback_sin_resultado : string :=
  "<MensajeBDA><CabeceraMensaje><TipoMsg>1002</TipoMsg></CabeceraMensaje>"
  +:+ "<CuerpoMensaje><RespuestaRegistroPositivo></RespuestaRegistroPositivo>"
  +:+ "</CuerpoMensaje></MensajeBDA>".

Definition unavailable (content : string) : Response :=
  {| status_code := 503; reason := "Service Unavailable";
     url := "http://srtm.example/service"; content := content |}.

(** The message types of a deployment. *)
Definition env : SoapClient.environment :=
  {| SoapClient.MSG_TYPE_REGISTRO_POSITIVO := "1001";
     SoapClient.MSG_TYPE_REGISTRO_NEGATIVO := "2001";
     SoapClient.MSG_TYPE_CANCELACION_NEGATIVO := "3001";
     SoapClient.MSG_TYPE_MODIFICACION_POSITIVO := "4001";
     SoapClient.MSG_TYPE_CANCELACION_POSITIVO := "5001" |}.

(** The readings of one call: the clock at noon, and the two identifiers of
    the multipart message. *)
Definition noon : datetime :=
  {| year := 2024; month := 10; day := 25; hour := 12; minute := 0; second := 0 |}.

Definition readings : SoapClient.readings :=
  {| SoapClient.t_body := noon; SoapClient.t_process := noon;
     SoapClient.t_message := noon; SoapClient.t_creation := noon;
     SoapClient.boundary_hex := "0123456789abcdef0123456789abcdef";
     SoapClient.cid_hex := "fedcba9876543210fedcba9876543210" |}.

(** The counters of a client made at the second [time]. *)
Definition fresh (time : N) : SoapClient.counters :=
  match SoapClient.__init__ (Some "http://srtm.example/service") (Some "operador")
          (Some "secreto") time time (inr (server (ok ""))) with
  | inr (_, c) => c
  | inl _ => {| SoapClient.message_counter := 0; SoapClient.proc_counter := 0 |}
  end.

(** Two messages built one after the other: each asks for a process
    identifier and then for a message identifier. *)
Definition two_messages : list (datetime * string * nat) :=
  [ (noon, "05", 5%nat); (noon, "msg", 7%nat); (noon, "05", 5%nat); (noon, "msg", 7%nat) ].

(** A modify-positive payload with every field of an authorised user. *)
Definition modificacion_con_autorizado : Models.payload :=
  Models.of_fields
    [ ("imei", "852055059447491"); ("tipo_modificacion", "1");
      ("tipo_usuario_propietario", "1"); ("tipo_identificacion_propietario", "1");
      ("identificacion_propietario", "222222222222");
      ("nombre_razon_social_propietario", "Fulano de Tal");
      ("direccion_propietario", "Calle 123 #45-67");
      ("telefono_contacto_propietario", "3580666666");
      ("tipo_usuario_autorizado", "1"); ("observaciones", "Cambio de datos.");
      ("tipo_identificacion_autorizado", "1");
      ("identificacion_autorizado", "22222222222");
      ("nombre_razon_social_autorizado", "Mengano");
      ("direccion_autorizado", "Avenida Siempre Viva 742");
      ("telefono_contacto_autorizado", "3580666667") ].

(** A database session that keeps the rows added and stores them at a
    commit, and one whose commit raises. *)
Record memory : Type := {
  pending : list Database.Transaction;
  rows : list Database.Transaction
}.

#[export] Instance memory_session : Database.DbSession memory := {|
  Database.add t db := (inr tt, {| pending := pending db ++ [t]; rows := rows db |});
  Database.commit db := (inr tt, {| pending := []; rows := rows db ++ pending db |});
  Database.refresh t db := (inr tt, db);
  Database.rollback db := (inr tt, {| pending := []; rows := rows db |})
|}.

Record locked : Type := {
  rolled_back : nat
}.

#[export] Instance locked_session : Database.DbSession locked := {|
  Database.add t db := (inr tt, db);
  Database.commit db := (inl (Database.SQLAlchemyError "database is locked"), db);
  Database.refresh t db := (inr tt, db);
  Database.rollback db := (inr tt, {| rolled_back := S (rolled_back db) |})
|}.

(** A writer of JSON for strings that need no escape. *)
Fixpoint dumps (j : Database.json) : string :=
  match j with
  | Database.JNull => "null"
  | Database.JStr s => quot +:+ s +:+ quot
  | Database.JList l => "[" +:+ join ", " (map dumps l) +:+ "]"
  | Database.JDict items =>
      "{" +:+ join ", " (map (λ '(k, v), quot +:+ k +:+ quot +:+ ": " +:+ dumps v) items)
      +:+ "}"
  end.

End Samples.

(* ================================================================== *)
(** * Properties *)

(** ** Validators *)

Section validators.
Import Models.

Lemma require_each_ok msg fields (data : payload) :
  (∀ f, f ∈ fields → get data f ≠ None) →
  require_each msg fields data = inr tt.
Proof.
  induction fields as [|f fields IH]; intros Hall; [done|].
  simpl. destruct (get data f) eqn:Hf.
  - apply IH. intros g Hg. apply Hall. by right.
  - exfalso. apply (Hall f); [by left | done].
Qed.

Lemma require_each_missing msg fields (data : payload) f :
  f ∈ fields → get data f = None →
  raises (require_each msg fields data).
Proof.
  induction fields as [|g fields IH]; intros Hin Hf.
  - by apply elem_of_nil in Hin.
  - simpl. destruct (get data g) eqn:Hg.
    + apply elem_of_cons in Hin as [-> | Hin]; [congruence | by apply IH].
    + by eexists.
Qed.

Ltac all_present :=
  let f := fresh "f" in let Hf := fresh "Hf" in
  intros f Hf;
  repeat (apply elem_of_cons in Hf as [-> | Hf]; [vm_compute; discriminate|]);
  by apply elem_of_nil in Hf.

(** C6. A register-negative payload with every always-required field: with
    [tipo_reporte = '1'] and no [empleo_violencia] the validator raises; with
    [tipo_reporte = '1'], [empleo_violencia = '1'] and [utilizacion_armas] or
    [victima_menor_edad] missing it raises (naming the first one missing);
    with the three conditional fields supplied it returns the payload. *)
Theorem registro_negativo_robo_fields (data : payload) :
  (∀ f, f ∈ RegistroNegativoRequest.always_required → get data f ≠ None) →
  (get data "tipo_reporte" = Some "1" → get data "empleo_violencia" = None →
   RegistroNegativoRequest.check_required_and_robo_fields data
   = inl (ValueError "El campo 'empleo_violencia' es obligatorio cuando 'tipo_reporte' es '1' (Robo)."))
  ∧ (get data "tipo_reporte" = Some "1" → get data "empleo_violencia" = Some "1" →
     (get data "utilizacion_armas" = None →
      RegistroNegativoRequest.check_required_and_robo_fields data
      = inl (ValueError "El campo 'utilizacion_armas' es obligatorio cuando 'empleo_violencia' es '1'."))
     ∧ (get data "utilizacion_armas" ≠ None → get data "victima_menor_edad" = None →
        RegistroNegativoRequest.check_required_and_robo_fields data
        = inl (ValueError "El campo 'victima_menor_edad' es obligatorio cuando 'empleo_violencia' es '1'.")))
  ∧ (get data "empleo_violencia" ≠ None → get data "utilizacion_armas" ≠ None →
     get data "victima_menor_edad" ≠ None →
     RegistroNegativoRequest.check_required_and_robo_fields data = inr data).
Proof.
  intros Hreq. unfold RegistroNegativoRequest.check_required_and_robo_fields.
  rewrite (require_each_ok _ _ _ Hreq). split; [|split].
  - intros Ht Hv. rewrite Ht, Hv. by rewrite bool_decide_eq_true_2.
  - intros Ht Hv. rewrite Ht, Hv. rewrite !bool_decide_eq_true_2 by done. split.
    + by intros ->.
    + intros Ha ->. by destruct (get data "utilizacion_armas").
  - intros Hv Ha Hm.
    destruct (get data "empleo_violencia"); [|done].
    destruct (get data "utilizacion_armas"); [|done].
    destruct (get data "victima_menor_edad"); [|done].
    repeat case_bool_decide; done.
Qed.

Lemma registro_negativo_robo_fields_witness :
  RegistroNegativoRequest.check_required_and_robo_fields robo_sin_violencia
  = inl (ValueError "El campo 'empleo_violencia' es obligatorio cuando 'tipo_reporte' es '1' (Robo).")
  ∧ RegistroNegativoRequest.check_required_and_robo_fields robo_sin_armas
    = inl (ValueError "El campo 'utilizacion_armas' es obligatorio cuando 'empleo_violencia' es '1'.")
  ∧ RegistroNegativoRequest.check_required_and_robo_fields robo_sin_victima
    = inl (ValueError "El campo 'victima_menor_edad' es obligatorio cuando 'empleo_violencia' es '1'.")
  ∧ RegistroNegativoRequest.check_required_and_robo_fields robo_completo
    = inr robo_completo.
Proof.
  split; [|split; [|split]].
  - apply (proj1 (registro_negativo_robo_fields robo_sin_violencia ltac:(all_present)));
      reflexivity.
  - apply (proj1 (proj1 (proj2 (registro_negativo_robo_fields robo_sin_armas
                                  ltac:(all_present)))
                    eq_refl eq_refl)); reflexivity.
  - apply (proj2 (proj1 (proj2 (registro_negativo_robo_fields robo_sin_victima
                                  ltac:(all_present)))
                    eq_refl eq_refl)); [vm_compute; discriminate | reflexivity].
  - apply (proj2 (proj2 (registro_negativo_robo_fields robo_completo ltac:(all_present))));
      vm_compute; discriminate.
Defined.

(** C10. A modify-positive payload whose [tipo_usuario_autorizado] is
    anything but the empty string must carry the five authorised-user
    fields: if one of them is missing the validator raises. The value ['0'],
    documented as "no authorised user", is no exception. *)
Theorem modificacion_autorizado_required (data : payload) (f : string) :
  f ∈ ModificacionPositivoRequest.autorizado_fields →
  get data f = None →
  (get data "tipo_usuario_autorizado" ≠ Some "" →
   raises (ModificacionPositivoRequest.check_all_fields data))
  ∧ (get data "tipo_usuario_autorizado" = Some "0" →
     raises (ModificacionPositivoRequest.check_all_fields data)).
Proof.
  intros Hin Hf.
  assert (Hgen : get data "tipo_usuario_autorizado" ≠ Some "" →
                 raises (ModificacionPositivoRequest.check_all_fields data)).
  { intros Hne. unfold ModificacionPositivoRequest.check_all_fields.
    destruct (require_each obligatorio _ data); [by eexists|].
    match goal with |- context [match ?a with inl _ => _ | inr _ => _ end] =>
      destruct a end; [by eexists|].
    rewrite bool_decide_eq_true_2 by done.
    destruct (require_each_missing
                ModificacionPositivoRequest.obligatorio_autorizado _ data f Hin Hf)
      as [e ->].
    by eexists. }
  split; [done|]. intros H0. apply Hgen. by rewrite H0.
Qed.

Lemma modificacion_autorizado_required_witness :
  raises (ModificacionPositivoRequest.check_all_fields modificacion_sin_autorizado)
  ∧ raises (ModificacionPositivoRequest.check_all_fields modificacion_sin_autorizado).
Proof.
  assert (Hin : "direccion_autorizado" ∈ ModificacionPositivoRequest.autorizado_fields)
    by (vm_compute; repeat constructor).
  split.
  - apply (proj1 (modificacion_autorizado_required modificacion_sin_autorizado
                    "direccion_autorizado" Hin eq_refl)).
    vm_compute; discriminate.
  - apply (proj2 (modificacion_autorizado_required modificacion_sin_autorizado
                    "direccion_autorizado" Hin eq_refl)).
    reflexivity.
Defined.

(** The error reported for the sample payload names the first authorised-user
    field and cites ['0'] as the exempt value, although the payload carries
    ['0']. *)
Example modificacion_sin_autorizado_error :
  get modificacion_sin_autorizado "tipo_usuario_autorizado" = Some "0"
  ∧ ModificacionPositivoRequest.check_all_fields modificacion_sin_autorizado
    = inl (ValueError "El campo 'tipo_identificacion_autorizado' es obligatorio cuando 'tipo_usuario_autorizado' no es '0'.").
Proof. split; reflexivity. Qed.

End validators.

(** ** Dates *)

Lemma digit_inv c d : digit c = Some d → (d < 10)%nat ∧ c = digit_char d.
Proof.
  unfold digit, digit_char.
  destruct (48 <=? nat_of_ascii c)%nat eqn:H1; [|done].
  destruct (nat_of_ascii c <=? 57)%nat eqn:H2; [|done].
  cbn [andb]. intros [= <-].
  apply Nat.leb_le in H1, H2. split; [lia|].
  rewrite Nat.mod_small by lia.
  replace (48 + (nat_of_ascii c - 48))%nat with (nat_of_ascii c) by lia.
  by rewrite ascii_nat_embedding.
Qed.

Lemma dec2_digits a b :
  (a < 10)%nat → (b < 10)%nat →
  dec2 (10 * a + b) = String (digit_char a) (String (digit_char b) "").
Proof.
  intros Ha Hb. unfold dec2, digit_char.
  replace ((10 * a + b) / 10)%nat with a by (apply (Nat.div_unique _ _ _ b); lia).
  replace ((10 * a + b) mod 10)%nat with (b mod 10)%nat
    by (rewrite (Nat.mod_small b) by lia; apply (Nat.mod_unique _ _ a); lia).
  done.
Qed.

Lemma dec4_digits a b c d :
  (a < 10)%nat → (b < 10)%nat → (c < 10)%nat → (d < 10)%nat →
  dec4 (1000 * a + 100 * b + 10 * c + d)
  = String (digit_char a) (String (digit_char b)
      (String (digit_char c) (String (digit_char d) ""))).
Proof.
  intros Ha Hb Hc Hd. unfold dec4, digit_char.
  set (n := (1000 * a + 100 * b + 10 * c + d)%nat).
  assert (H1 : ((n / 1000) mod 10 = a mod 10)%nat).
  { f_equal. symmetry. apply (Nat.div_unique _ _ _ (100 * b + 10 * c + d)); lia. }
  assert (H2 : ((n / 100) mod 10 = b mod 10)%nat).
  { replace (n / 100)%nat with (10 * a + b)%nat
      by (apply (Nat.div_unique _ _ _ (10 * c + d)); lia).
    rewrite (Nat.mod_small b) by lia. symmetry. apply (Nat.mod_unique _ _ a); lia. }
  assert (H3 : ((n / 10) mod 10 = c mod 10)%nat).
  { replace (n / 10)%nat with (100 * a + 10 * b + c)%nat
      by (apply (Nat.div_unique _ _ _ d); lia).
    rewrite (Nat.mod_small c) by lia. symmetry.
    apply (Nat.mod_unique _ _ (10 * a + b)); lia. }
  assert (H4 : (n mod 10 = d mod 10)%nat).
  { rewrite (Nat.mod_small d) by lia. symmetry.
    apply (Nat.mod_unique _ _ (100 * a + 10 * b + c)); lia. }
  by rewrite H1, H2, H3, H4.
Qed.

Lemma space_one_digit p c d r : digit c = Some d → space_one p (String c r) = [].
Proof.
  intros Hd. destruct c as [[] [] [] [] [] [] [] []]; try reflexivity; discriminate.
Qed.

Lemma two_or_one_two p : two_or_one (two p).
Proof.
  intros c1 c2 d1 d2 r v rest H1 H2. unfold two. rewrite H1, H2.
  destruct (p d1 d2); [|by intros ?%elem_of_nil].
  intros [-> ->]%list_elem_of_singleton%pair_equal_spec. by left.
Qed.

Lemma two_or_one_one p : two_or_one (one p).
Proof.
  intros c1 c2 d1 d2 r v rest H1 H2. unfold one. rewrite H1.
  destruct (p d1); [|by intros ?%elem_of_nil].
  intros [-> ->]%list_elem_of_singleton%pair_equal_spec. by right.
Qed.

Lemma two_or_one_space_one p : two_or_one (space_one p).
Proof.
  intros c1 c2 d1 d2 r v rest H1 H2. rewrite (space_one_digit _ _ _ _ H1).
  by intros ?%elem_of_nil.
Qed.

Lemma two_or_one_alt m1 m2 : two_or_one m1 → two_or_one m2 → two_or_one (alt m1 m2).
Proof.
  intros Hm1 Hm2 c1 c2 d1 d2 r v rest H1 H2. unfold alt.
  intros [H|H]%elem_of_app; eauto.
Qed.

Create HintDb directives.
#[local] Hint Resolve two_or_one_two two_or_one_one two_or_one_space_one
  two_or_one_alt : directives.

Lemma two_or_one_m : two_or_one re_m.
Proof. unfold re_m. auto 10 with directives. Qed.

Lemma two_or_one_d : two_or_one re_d.
Proof. unfold re_d. auto 10 with directives. Qed.

Lemma two_or_one_H : two_or_one re_H.
Proof. unfold re_H. auto 10 with directives. Qed.

Lemma two_or_one_M : two_or_one re_M.
Proof. unfold re_M. auto 10 with directives. Qed.

Lemma two_or_one_S : two_or_one re_S.
Proof. unfold re_S. auto 10 with directives. Qed.

Lemma all_digits_cons c r :
  all_digits (String c r) = true → (∃ d, digit c = Some d) ∧ all_digits r = true.
Proof.
  simpl. intros [H1 H2]%andb_true_iff. split; [|done].
  unfold is_digit in H1. destruct (digit c); [eauto | done].
Qed.

Ltac read_directive lem :=
  match goal with
  | Hin : _ ∈ _ ≫= _ |- _ =>
      let v := fresh "v" in
      let r := fresh "r" in
      let Hm := fresh "Hm" in
      apply list_elem_of_bind in Hin as ([v r] & Hin & Hm);
      match type of Hm with
      | _ ∈ _ (String ?c1 (String ?c2 _)) =>
          match goal with
          | H1 : digit c1 = Some _, H2 : digit c2 = Some _ |- _ =>
              apply (lem _ _ _ _ _ _ _ H1 H2) in Hm as [[-> ->] | [-> ->]]
          end
      end
  end.

Lemma lstrip_zeros_digit d r :
  (d < 10)%nat →
  lstrip_zeros (String (digit_char d) r)
  = if (d =? 0)%nat then lstrip_zeros r else String (digit_char d) r.
Proof. intros Hd. do 10 (destruct d as [|d]; [reflexivity|]). lia. Qed.

(** [%Y] writes the four digits of a year without the leading zeros. *)
Lemma strftime_Y_digits a b c d :
  (a < 10)%nat → (b < 10)%nat → (c < 10)%nat → (d < 10)%nat →
  (1 ≤ 1000 * a + 100 * b + 10 * c + d)%nat →
  strftime_Y (1000 * a + 100 * b + 10 * c + d)
  = lstrip_zeros (String (digit_char a) (String (digit_char b)
      (String (digit_char c) (String (digit_char d) "")))).
Proof.
  intros Ha Hb Hc Hd Hy.
  pose proof (dec4_digits a b c d Ha Hb Hc Hd) as Hdec.
  remember (1000 * a + 100 * b + 10 * c + d)%nat as y eqn:Ey.
  unfold dec4 in Hdec.
  assert (H2 : digit_char (y / 100) = digit_char b) by congruence.
  assert (H3 : digit_char (y / 10) = digit_char c) by congruence.
  assert (H4 : digit_char y = digit_char d) by congruence.
  unfold strftime_Y, dec4, dec2. rewrite H2, H3, H4.
  rewrite !lstrip_zeros_digit by done.
  destruct (Nat.eqb_spec a 0) as [-> | Ha0].
  - destruct (Nat.eqb_spec b 0) as [-> | Hb0].
    + destruct (Nat.eqb_spec c 0) as [-> | Hc0].
      * destruct (Nat.eqb_spec d 0) as [-> | Hd0]; [lia|].
        by rewrite (proj2 (Nat.ltb_lt y 10)) by lia.
      * rewrite (proj2 (Nat.ltb_ge y 10)) by lia.
        by rewrite (proj2 (Nat.ltb_lt y 100)) by lia.
    + rewrite (proj2 (Nat.ltb_ge y 10)), (proj2 (Nat.ltb_ge y 100)) by lia.
      by rewrite (proj2 (Nat.ltb_lt y 1000)) by lia.
  - rewrite (proj2 (Nat.ltb_ge y 10)), (proj2 (Nat.ltb_ge y 100)),
      (proj2 (Nat.ltb_ge y 1000)) by lia.
    congruence.
Qed.

(** A timestamp of fourteen digits that [strptime] accepts comes back from
    [strftime] with its own digits, the day pair ahead of the month pair,
    and the year without its leading zeros. *)
Lemma strptime_reformatted s dt :
  String.length s = 14%nat → all_digits s = true → strptime s = inr dt →
  strftime dt = reformatted s.
Proof.
  intros Hlen Hdig Hparse.
  do 14 (destruct s as [|? s]; [discriminate Hlen|]).
  destruct s; [|discriminate Hlen]. clear Hlen.
  repeat match goal with
  | H : all_digits (String _ _) = true |- _ =>
      apply all_digits_cons in H as [[? ?] H]
  end.
  unfold strptime in Hparse.
  destruct (re_YmdHMS _) as [|[dt' rest] l] eqn:Hre; [discriminate|].
  destruct rest; [|discriminate]. cbn [truthy] in Hparse.
  destruct (valid_datetime dt') eqn:Hvalid; [|discriminate]. injection Hparse as ->.
  assert (Hyear : (1 ≤ year dt)%nat).
  { unfold valid_datetime in Hvalid.
    repeat (apply andb_true_iff in Hvalid as [Hvalid _]). by apply Nat.leb_le. }
  clear Hvalid.
  match type of Hre with
  | re_YmdHMS ?s = _ => assert (Hin : (dt, "") ∈ re_YmdHMS s) by (rewrite Hre; left)
  end.
  clear Hre l. unfold re_YmdHMS, re_Y in Hin.
  repeat match goal with
  | H : digit ?c = Some _, Hin : context [digit ?c] |- _ => rewrite H in Hin
  end.
  apply list_elem_of_bind in Hin as ([v r] & Hin & Hy).
  apply list_elem_of_singleton, pair_equal_spec in Hy as [-> ->].
  read_directive two_or_one_m; read_directive two_or_one_d;
  read_directive two_or_one_H; read_directive two_or_one_M;
  read_directive two_or_one_S;
  apply list_elem_of_singleton, pair_equal_spec in Hin as [-> Hrest];
  try discriminate Hrest. clear Hrest.
  repeat match goal with
  | H : digit _ = Some _ |- _ => apply digit_inv in H as [? ->]
  end.
  cbn [year] in Hyear.
  unfold strftime. cbn [year month day hour minute second].
  rewrite strftime_Y_digits, !dec2_digits by done. reflexivity.
Qed.

(** From the year 1000 on, a timestamp that does not start with a zero, the
    year keeps its four digits. *)
Lemma reformatted_swapped s :
  String.get 0 s ≠ Some "0"%char → reformatted s = day_month_swapped s.
Proof.
  intros Hfirst. unfold reformatted, day_month_swapped. f_equal.
  destruct s as [|c s]; [done|]. cbn [substring lstrip_zeros].
  destruct (Ascii.eqb_spec c "0") as [-> | Hne]; [by destruct Hfirst | done].
Qed.

(** ** Running a client call *)

Section effects.
Context {S : Type}.

Lemma result_prepend {A} docs (r : run S A) : result (prepend docs r) = result r.
Proof. done. Qed.

Lemma state_prepend {A} docs (r : run S A) : state (prepend docs r) = state r.
Proof. done. Qed.

Lemma parsed_prepend {A} docs (r : run S A) :
  parsed (prepend docs r) = (docs ++ parsed r)%list.
Proof. done. Qed.

Lemma prepend_nil {A} (r : run S A) : prepend [] r = r.
Proof. by destruct r. Qed.

Lemma prepend_prepend {A} docs1 docs2 (r : run S A) :
  prepend docs1 (prepend docs2 r) = prepend (docs1 ++ docs2) r.
Proof. unfold prepend. cbn. by rewrite app_assoc. Qed.

(** The first statement of a [try] body runs; the rest of the body stays
    under the [try]. *)
Lemma try_bind {A} (m : M S A) (k : A → M S unit) h s :
  try_except (m ≫= k) h s
  = match m s with
    | Run (inl e) s' docs => prepend docs (h e s')
    | Run (inr a) s' docs => prepend docs (try_except (k a) h s')
    end.
Proof.
  unfold try_except, mbind, M_bind.
  destruct (m s) as [[e|a] s' docs]; [done|].
  destruct (k a s') as [[e'|[]] s'' docs']; cbn; [|done].
  by rewrite prepend_prepend.
Qed.

Lemma try_lift_inr {A} (a : A) (k : A → M S unit) h s :
  try_except (lift (inr a) ≫= k) h s = try_except (k a) h s.
Proof. rewrite try_bind. apply prepend_nil. Qed.

Lemma try_lift_inl {A} e (k : A → M S unit) h s :
  try_except (lift (inl e) ≫= k) h s = h e s.
Proof. rewrite try_bind. apply prepend_nil. Qed.

Lemma try_update f (k : unit → M S unit) h s :
  try_except (update f ≫= k) h s = try_except (k tt) h (f s).
Proof. rewrite try_bind. apply prepend_nil. Qed.

Lemma try_update_last f h (s : S) :
  try_except (update f) h s = Run (inr tt) (f s) [].
Proof. done. Qed.

Lemma try_parse_inr fromstring b root (k : element → M S unit) h s :
  fromstring b = inr root →
  try_except (etree_fromstring fromstring b ≫= k) h s
  = prepend [b] (try_except (k root) h s).
Proof. intros Hb. rewrite try_bind. unfold etree_fromstring. by rewrite Hb. Qed.

Lemma try_parse_inl fromstring b msg (k : element → M S unit) h s :
  fromstring b = inl msg →
  try_except (etree_fromstring fromstring b ≫= k) h s
  = prepend [b] (h (XMLSyntaxError msg) s).
Proof. intros Hb. rewrite try_bind. unfold etree_fromstring. by rewrite Hb. Qed.

Lemma bind_update f (k : unit → M S unit) s :
  (update f ≫= k) s = k tt (f s).
Proof. unfold mbind, M_bind, update. apply prepend_nil. Qed.

Lemma bind_lift_inr {A B} (a : A) (k : A → M S B) s :
  (lift (inr a) ≫= k) s = k a s.
Proof. unfold mbind, M_bind, lift. apply prepend_nil. Qed.

Lemma bind_lift_inl {A B} e (k : A → M S B) s :
  (lift (inl e) ≫= k) s = Run (inl e) s [].
Proof. done. Qed.

Lemma try_ret {A} (a : A) (k : A → M S unit) h s :
  try_except (mret a ≫= k) h s = try_except (k a) h s.
Proof. rewrite try_bind. apply prepend_nil. Qed.

End effects.

(** ** The query client *)

Section consulta.
Import ConsultaClient.
Variable fromstring : parser.

(** C5. When the post of a call returns a response that is no HTTP error
    and whose body parses, and the return element of the operation is absent or
    has no text or empty text, the call reports failure with the "no results"
    message and payload, and the only document handed to the parser is the
    body of the response. *)
Theorem consulta_no_results (self : ConsultaDBAClient) (op xml_payload : string)
    (http_res : Response) (root : element) :
  op ∈ operations →
  post self op xml_payload = inr http_res →
  raise_for_status http_res = inr tt →
  fromstring (content http_res) = inr root →
  (find (Descendant (op +:+ "Return")) root = None
   ∨ ∃ el, find (Descendant (op +:+ "Return")) root = Some el
           ∧ (text el = None ∨ text el = Some "")) →
  let r := _send_request_run fromstring self op xml_payload in
  success (state r) = false
  ∧ http_status (state r) = status_code http_res
  ∧ message (state r) = Some no_results_message
  ∧ raw_response (state r) = Some no_results_payload
  ∧ parsed r = [content http_res].
Proof.
  intros _ Hsession Hstatus Hroot Habsent r. subst r.
  unfold _send_request_run, _send_request_try.
  rewrite Hsession, try_lift_inr, try_update, Hstatus, try_lift_inr.
  rewrite (try_parse_inr _ _ _ _ _ _ Hroot).
  assert (Hnone : ∀ s : ConsultaDBAResponse,
    try_except (update (set_success false);;
                update (set_message (Some no_results_message));;
                update (set_raw_response (Some no_results_payload)))
      _send_request_except s
    = Run (inr tt)
        (set_raw_response (Some no_results_payload)
           (set_message (Some no_results_message) (set_success false s))) []).
  { intros s. by rewrite !try_update, try_update_last. }
  destruct Habsent as [-> | (el & -> & [Ht | Ht])]; cbn [mbind option_bind];
    try rewrite Ht; cbn [truthy]; rewrite Hnone; done.
Qed.

Ltac reach H :=
  let http_res := fresh "http_res" in
  let root := fresh "root" in
  let Hsession := fresh "Hsession" in
  let Hstatus := fresh "Hstatus" in
  let Hroot := fresh "Hroot" in
  let Hret := fresh "Hret" in
  let Htruthy := fresh "Htruthy" in
  let Hinner := fresh "Hinner" in
  pose proof H as (http_res & root & Hsession & Hstatus & Hroot & Hret & Htruthy & Hinner);
  unfold _send_request, _send_request_run, _send_request_try;
  rewrite Hsession, try_lift_inr, try_update, Hstatus, try_lift_inr,
    (try_parse_inr _ _ _ _ _ _ Hroot), Hret, Htruthy,
    (try_parse_inr _ _ _ _ _ _ Hinner), ?state_prepend.

Ltac finish := by rewrite !try_update, try_update_last.

(** C1, as amended. A call whose response is no HTTP error, whose body
    parses and whose return element has non-empty text hands that text to
    the parser. When the text does not parse, the call reports the fault of
    its [except] clause. When it parses, the markers are looked for below
    the root of the nested document, and the first of these that applies
    gives the outcome: (1) an error marker: failure, the message is
    "Error de la BDA: " followed by the description, the error code is the
    code; (2) else a negative-record marker: success when the report date of
    the first one is absent or empty or is read by [strptime], the fault of
    the [except] clause when [strptime] raises; (3) else a positive-record
    marker: success with the placeholder payload; (4) else failure with the
    unknown-shape message and the inner text in the payload. The root is not
    looked at: a nested document that is one element has the outcome (4),
    whatever its name. *)
Theorem consulta_marker_priority (self : ConsultaDBAClient) (op xml_payload : string)
    (result_text : string) :
  op ∈ operations →
  reaches_return_text fromstring self op xml_payload result_text →
  let r := _send_request fromstring self op xml_payload in
  (∀ msg, fromstring (encode_utf8 result_text) = inl msg → reports_fault r)
  ∧ (∀ inner, fromstring (encode_utf8 result_text) = inr inner →
     let error_node := find (Descendant "RespuestaConsultaBDAError") inner in
     let registro_neg_node := find (Descendant "RegistroBDANegativa") inner in
     let registro_pos_node := find (Descendant "RegistroBDAPositiva") inner in
     (∀ e, error_node = Some e →
        success r = false
        ∧ message r = Some ("Error de la BDA: "
                            +:+ findtext (Child "DescripcionError") "Error desconocido" e)
        ∧ error_code r = Some (findtext (Child "CodigoError") "N/A" e))
     ∧ (∀ n, error_node = None → registro_neg_node = Some n →
          truthy (findtext (Child "FechaReporte") "" n) = false
          ∨ (∃ dt, strptime (findtext (Child "FechaReporte") "" n) = inr dt) →
          success r = true
          ∧ message r = Some "Consulta negativa procesada exitosamente.")
     ∧ (∀ n exc, error_node = None → registro_neg_node = Some n →
          truthy (findtext (Child "FechaReporte") "" n) = true →
          strptime (findtext (Child "FechaReporte") "" n) = inl exc →
          reports_fault r)
     ∧ (∀ p, error_node = None → registro_neg_node = None →
          registro_pos_node = Some p →
          success r = true
          ∧ raw_response r
            = Some [[("status", "Registro Positivo Encontrado"); ("data", "...")]])
     ∧ (error_node = None → registro_neg_node = None → registro_pos_node = None →
          success r = false
          ∧ message r = Some unknown_shape_message
          ∧ raw_response r
            = Some [[("error", "Estructura de respuesta desconocida");
                     ("response_body", result_text)]])
     ∧ (children inner = [] →
          success r = false
          ∧ message r = Some unknown_shape_message
          ∧ raw_response r
            = Some [[("error", "Estructura de respuesta desconocida");
                     ("response_body", result_text)]])).
Proof.
  intros _ Htext r. subst r. split.
  - intros msg Hinner.
    destruct Htext as (http_res & root & Hsession & Hstatus & Hroot & Hret & Htruthy).
    unfold _send_request, _send_request_run, _send_request_try.
    rewrite Hsession, try_lift_inr, try_update, Hstatus, try_lift_inr,
      (try_parse_inr _ _ _ _ _ _ Hroot), Hret, Htruthy,
      (try_parse_inl _ _ _ _ _ _ Hinner), !state_prepend.
    by repeat split.
  - intros inner Hinner error_node registro_neg_node registro_pos_node.
    subst error_node registro_neg_node registro_pos_node.
    assert (Hreach : reaches_markers fromstring self op xml_payload result_text inner).
    { destruct Htext as (http_res & root & Hsession & Hstatus & Hroot & Hret & Htruthy).
      by exists http_res, root. }
    split; [|split; [|split; [|split; [|split]]]].
    + intros e He. reach Hreach. rewrite He. finish.
    + intros n He Hn Hfecha. reach Hreach. rewrite He, Hn.
      destruct Hfecha as [Hf | [dt Hf]].
      * rewrite Hf, try_ret. finish.
      * destruct (truthy (findtext (Child "FechaReporte") "" n)).
        -- rewrite try_bind, Hf, bind_lift_inr. cbn [mret M_ret].
           rewrite prepend_nil. finish.
        -- rewrite try_ret. finish.
    + intros n exc He Hn Hf Hexc. reach Hreach. rewrite He, Hn, Hf.
      rewrite try_bind, Hexc, bind_lift_inl. by repeat split.
    + intros p He Hn Hp. reach Hreach. rewrite He, Hn, Hp. finish.
    + intros He Hn Hp. reach Hreach. rewrite He, Hn, Hp. finish.
    + intros Hchildren.
      assert (Hnone : ∀ name, find (Descendant name) inner = None).
      { intros name. destruct inner as [? ? ? cs]. cbn [children] in Hchildren.
        by subst cs. }
      reach Hreach. rewrite !Hnone. finish.
Qed.

(** C3, as amended. When a call reaches the markers of the nested document,
    there is no error marker below its root, and the report date of the
    first negative-record marker below the root is a fourteen-digit
    timestamp that [strptime] reads, the call succeeds and the payload
    carries the digits of that date as [Y-DD-MM HH:MM:SS], the day pair
    ahead of the month pair, where [Y] is the year without its leading
    zeros; for a timestamp that does not start with a zero, a year from 1000
    on, that is [YYYY-DD-MM HH:MM:SS] with the digits of the timestamp. *)
Theorem consulta_negativa_fecha (self : ConsultaDBAClient) (op xml_payload : string)
    (result_text : string) (inner n : element) (fecha : string) :
  op ∈ operations →
  reaches_markers fromstring self op xml_payload result_text inner →
  find (Descendant "RespuestaConsultaBDAError") inner = None →
  find (Descendant "RegistroBDANegativa") inner = Some n →
  findtext (Child "FechaReporte") "" n = fecha →
  valid_timestamp fecha →
  let r := _send_request fromstring self op xml_payload in
  let payload (date : string) :=
    Some [[("TipoRespuesta", findtext (Descendant "TipoRespuesta") "N/A" inner);
           ("RespuestaConsultaBDANegativa", "Registro Encontrado");
           ("Imei", findtext (Child "Imei") "N/A" n);
           ("Tecnologia", findtext (Child "Tecnologia") "N/A" n);
           ("FechaReporte", date)]] in
  success r = true
  ∧ raw_response r = payload (reformatted fecha)
  ∧ (String.get 0 fecha ≠ Some "0"%char →
     raw_response r = payload (day_month_swapped fecha)).
Proof.
  intros _ Hreach He Hn Hfecha (Hlen & Hdigits & dt & Hdt) r payload. subst r payload.
  assert (Htruthy : truthy fecha = true) by (by destruct fecha).
  assert (Hrun : success (_send_request fromstring self op xml_payload) = true
    ∧ raw_response (_send_request fromstring self op xml_payload)
      = Some [[("TipoRespuesta", findtext (Descendant "TipoRespuesta") "N/A" inner);
               ("RespuestaConsultaBDANegativa", "Registro Encontrado");
               ("Imei", findtext (Child "Imei") "N/A" n);
               ("Tecnologia", findtext (Child "Tecnologia") "N/A" n);
               ("FechaReporte", reformatted fecha)]]).
  { reach Hreach. rewrite He, Hn, Hfecha, Htruthy.
    rewrite try_bind, Hdt, bind_lift_inr. cbn [mret M_ret]. rewrite prepend_nil.
    rewrite !try_update, try_update_last.
    by rewrite (strptime_reformatted _ _ Hlen Hdigits Hdt). }
  destruct Hrun as [Hsuccess Hraw]. split; [done|]. split; [done|].
  intros Hfirst. by rewrite Hraw, (reformatted_swapped _ Hfirst).
Qed.

End consulta.

Lemma sample_reaches_markers (inner : string) :
  MiniXml.fromstring (Samples.negativa_response inner)
    = inr (Samples.tree (Samples.negativa_response inner)) →
  find (Descendant "consultaBDANegativaReturn")
    (Samples.tree (Samples.negativa_response inner)) ≫= text = Some inner →
  truthy inner = true →
  MiniXml.fromstring (encode_utf8 inner) = inr (Samples.tree inner) →
  reaches_markers MiniXml.fromstring
    (Samples.consulta_client (Samples.ok (Samples.negativa_response inner)))
    "consultaBDANegativa" Samples.query inner (Samples.tree inner).
Proof.
  intros Hroot Hret Htruthy Hinner.
  exists (Samples.ok (Samples.negativa_response inner)),
         (Samples.tree (Samples.negativa_response inner)).
  repeat split; done.
Defined.

Ltac sample_reaches :=
  apply sample_reaches_markers; vm_compute; reflexivity.

Lemma consultaBDANegativa_operation : "consultaBDANegativa" ∈ ConsultaClient.operations.
Proof. right. left. Defined.

Lemma sample_reaches_return_text (inner : string) :
  MiniXml.fromstring (Samples.negativa_response inner)
    = inr (Samples.tree (Samples.negativa_response inner)) →
  find (Descendant "consultaBDANegativaReturn")
    (Samples.tree (Samples.negativa_response inner)) ≫= text = Some inner →
  truthy inner = true →
  reaches_return_text MiniXml.fromstring
    (Samples.consulta_client (Samples.ok (Samples.negativa_response inner)))
    "consultaBDANegativa" Samples.query inner.
Proof.
  intros Hroot Hret Htruthy.
  exists (Samples.ok (Samples.negativa_response inner)),
         (Samples.tree (Samples.negativa_response inner)).
  repeat split; done.
Defined.

Ltac sample_text :=
  apply sample_reaches_return_text; vm_compute; reflexivity.

(** The outcomes of [consulta_marker_priority] for the nested document
    [inner] of a sample response, which parses. *)
Ltac sample_outcomes inner W :=
  pose proof (proj2 (consulta_marker_priority MiniXml.fromstring _ _ Samples.query
      inner consultaBDANegativa_operation ltac:(sample_text))
    (Samples.tree inner) ltac:(vm_compute; reflexivity)) as W;
  cbv zeta in W.

Lemma consulta_marker_priority_witness :
  reports_fault (Samples.consulta Samples.inner_not_xml)
  ∧ (ConsultaClient.success (Samples.consulta Samples.inner_error_and_negativa) = false
     ∧ ConsultaClient.message (Samples.consulta Samples.inner_error_and_negativa)
       = Some "Error de la BDA: X"
     ∧ ConsultaClient.error_code (Samples.consulta Samples.inner_error_and_negativa)
       = Some "99")
  ∧ (ConsultaClient.success (Samples.consulta Samples.inner_error_and_bad_date) = false
     ∧ ConsultaClient.message (Samples.consulta Samples.inner_error_and_bad_date)
       = Some "Error de la BDA: X"
     ∧ ConsultaClient.error_code (Samples.consulta Samples.inner_error_and_bad_date)
       = Some "99")
  ∧ (ConsultaClient.success (Samples.consulta Samples.inner_negativa) = true
     ∧ ConsultaClient.message (Samples.consulta Samples.inner_negativa)
       = Some "Consulta negativa procesada exitosamente.")
  ∧ (ConsultaClient.success (Samples.consulta Samples.inner_negativa_nine_digits) = true
     ∧ ConsultaClient.message (Samples.consulta Samples.inner_negativa_nine_digits)
       = Some "Consulta negativa procesada exitosamente.")
  ∧ reports_fault (Samples.consulta Samples.inner_negativa_bad_date)
  ∧ (ConsultaClient.success (Samples.consulta Samples.inner_positiva) = true
     ∧ ConsultaClient.raw_response (Samples.consulta Samples.inner_positiva)
       = Some [[("status", "Registro Positivo Encontrado"); ("data", "...")]])
  ∧ (ConsultaClient.success (Samples.consulta Samples.inner_unknown) = false
     ∧ ConsultaClient.message (Samples.consulta Samples.inner_unknown)
       = Some ConsultaClient.unknown_shape_message
     ∧ ConsultaClient.raw_response (Samples.consulta Samples.inner_unknown)
       = Some [[("error", "Estructura de respuesta desconocida");
                ("response_body", Samples.inner_unknown)]])
  ∧ (ConsultaClient.success (Samples.consulta "<RegistroBDANegativa/>") = false
     ∧ ConsultaClient.message (Samples.consulta "<RegistroBDANegativa/>")
       = Some ConsultaClient.unknown_shape_message
     ∧ ConsultaClient.raw_response (Samples.consulta "<RegistroBDANegativa/>")
       = Some [[("error", "Estructura de respuesta desconocida");
                ("response_body", "<RegistroBDANegativa/>")]]).
Proof.
  split; [|split; [|split; [|split; [|split; [|split; [|split; [|split]]]]]]].
  - exact (proj1 (consulta_marker_priority MiniXml.fromstring _ _ Samples.query
        Samples.inner_not_xml consultaBDANegativa_operation ltac:(sample_text))
      "not a well-formed document of the plain fragment"
      ltac:(vm_compute; reflexivity)).
  - sample_outcomes Samples.inner_error_and_negativa W.
    exact (proj1 W
      (Samples.first "RespuestaConsultaBDAError"
         (Samples.tree Samples.inner_error_and_negativa))
      ltac:(vm_compute; reflexivity)).
  - sample_outcomes Samples.inner_error_and_bad_date W.
    exact (proj1 W
      (Samples.first "RespuestaConsultaBDAError"
         (Samples.tree Samples.inner_error_and_bad_date))
      ltac:(vm_compute; reflexivity)).
  - sample_outcomes Samples.inner_negativa W.
    exact (proj1 (proj2 W)
      (Samples.first "RegistroBDANegativa" (Samples.tree Samples.inner_negativa))
      ltac:(vm_compute; reflexivity) ltac:(vm_compute; reflexivity)
      ltac:(right; eexists; vm_compute; reflexivity)).
  - sample_outcomes Samples.inner_negativa_nine_digits W.
    exact (proj1 (proj2 W)
      (Samples.first "RegistroBDANegativa"
         (Samples.tree Samples.inner_negativa_nine_digits))
      ltac:(vm_compute; reflexivity) ltac:(vm_compute; reflexivity)
      ltac:(right; eexists; vm_compute; reflexivity)).
  - sample_outcomes Samples.inner_negativa_bad_date W.
    exact (proj1 (proj2 (proj2 W))
      (Samples.first "RegistroBDANegativa"
         (Samples.tree Samples.inner_negativa_bad_date))
      (ValueError "time data does not match format '%Y%m%d%H%M%S'")
      ltac:(vm_compute; reflexivity) ltac:(vm_compute; reflexivity)
      ltac:(vm_compute; reflexivity) ltac:(vm_compute; reflexivity)).
  - sample_outcomes Samples.inner_positiva W.
    exact (proj1 (proj2 (proj2 (proj2 W)))
      (Samples.first "RegistroBDAPositiva" (Samples.tree Samples.inner_positiva))
      ltac:(vm_compute; reflexivity) ltac:(vm_compute; reflexivity)
      ltac:(vm_compute; reflexivity)).
  - sample_outcomes Samples.inner_unknown W.
    exact (proj1 (proj2 (proj2 (proj2 (proj2 W))))
      ltac:(vm_compute; reflexivity) ltac:(vm_compute; reflexivity)
      ltac:(vm_compute; reflexivity)).
  - sample_outcomes "<RegistroBDANegativa/>" W.
    exact (proj2 (proj2 (proj2 (proj2 (proj2 W)))) ltac:(vm_compute; reflexivity)).
Defined.

(** C1 fails as stated. (a) A nested document with a negative-record marker
    and no error marker whose report date is not a timestamp: the call
    reaches the markers and fails. (b) A return text that is no XML document:
    the failure carries neither the unknown-shape message nor the inner
    text. (c) The message of an error outcome is not the description
    alone. (d) A nested document whose root is the error marker: the outcome
    is the unknown shape, with no error code. *)
Lemma consulta_marker_priority_counterexample :
  (reaches_markers MiniXml.fromstring
     (Samples.consulta_client
        (Samples.ok (Samples.negativa_response Samples.inner_negativa_bad_date)))
     "consultaBDANegativa" Samples.query Samples.inner_negativa_bad_date
     (Samples.tree Samples.inner_negativa_bad_date)
   ∧ find (Descendant "RespuestaConsultaBDAError")
       (Samples.tree Samples.inner_negativa_bad_date) = None
   ∧ is_Some (find (Descendant "RegistroBDANegativa")
                (Samples.tree Samples.inner_negativa_bad_date))
   ∧ ConsultaClient.success (Samples.consulta Samples.inner_negativa_bad_date) = false
   ∧ ConsultaClient.message (Samples.consulta Samples.inner_negativa_bad_date)
     = Some "Error inesperado en el procesamiento.")
  ∧ (find (Descendant "consultaBDANegativaReturn")
       (Samples.tree (Samples.negativa_response Samples.inner_not_xml)) ≫= text
     = Some Samples.inner_not_xml
     ∧ ConsultaClient.message (Samples.consulta Samples.inner_not_xml)
       = Some "Error inesperado en el procesamiento."
     ∧ ConsultaClient.raw_response (Samples.consulta Samples.inner_not_xml) = None)
  ∧ (findtext (Child "DescripcionError") "Error desconocido"
       (Samples.first "RespuestaConsultaBDAError"
          (Samples.tree Samples.inner_error_and_negativa)) = "X"
     ∧ ConsultaClient.message (Samples.consulta Samples.inner_error_and_negativa)
       = Some "Error de la BDA: X")
  ∧ (reaches_markers MiniXml.fromstring
       (Samples.consulta_client
          (Samples.ok (Samples.negativa_response Samples.inner_error_root)))
       "consultaBDANegativa" Samples.query Samples.inner_error_root
       (Samples.tree Samples.inner_error_root)
     ∧ localname (Samples.tree Samples.inner_error_root) = "RespuestaConsultaBDAError"
     ∧ ConsultaClient.message (Samples.consulta Samples.inner_error_root)
       = Some ConsultaClient.unknown_shape_message
     ∧ ConsultaClient.error_code (Samples.consulta Samples.inner_error_root) = None).
Proof.
  split; [|split; [|split]].
  - split; [sample_reaches|]. repeat split; try (vm_compute; reflexivity).
    vm_compute. eauto.
  - repeat split; vm_compute; reflexivity.
  - split; vm_compute; reflexivity.
  - split; [sample_reaches|]. repeat split; vm_compute; reflexivity.
Qed.

Lemma sample_valid_timestamp : valid_timestamp "20241025143000".
Proof. split; [|split; [|eexists]]; vm_compute; reflexivity. Defined.

Lemma sample_valid_timestamp_999 : valid_timestamp "09990101000000".
Proof. split; [|split; [|eexists]]; vm_compute; reflexivity. Defined.

Lemma consulta_negativa_fecha_witness :
  (ConsultaClient.success (Samples.consulta Samples.inner_negativa) = true
   ∧ ConsultaClient.raw_response (Samples.consulta Samples.inner_negativa)
     = Some [[("TipoRespuesta", "1");
              ("RespuestaConsultaBDANegativa", "Registro Encontrado");
              ("Imei", "852055059447491");
              ("Tecnologia", "01");
              ("FechaReporte", "2024-25-10 14:30:00")]])
  ∧ (ConsultaClient.success (Samples.consulta Samples.inner_negativa_999) = true
     ∧ ConsultaClient.raw_response (Samples.consulta Samples.inner_negativa_999)
       = Some [[("TipoRespuesta", "1");
                ("RespuestaConsultaBDANegativa", "Registro Encontrado");
                ("Imei", "852055059447491");
                ("Tecnologia", "01");
                ("FechaReporte", "999-01-01 00:00:00")]]).
Proof.
  split.
  - pose proof (consulta_negativa_fecha MiniXml.fromstring _ _ Samples.query
        Samples.inner_negativa _
        (Samples.first "RegistroBDANegativa" (Samples.tree Samples.inner_negativa))
        "20241025143000" consultaBDANegativa_operation
        ltac:(sample_reaches) ltac:(vm_compute; reflexivity)
        ltac:(vm_compute; reflexivity) ltac:(vm_compute; reflexivity)
        sample_valid_timestamp) as (Wsuccess & _ & Wraw).
    split; [exact Wsuccess | exact (Wraw ltac:(discriminate))].
  - pose proof (consulta_negativa_fecha MiniXml.fromstring _ _ Samples.query
        Samples.inner_negativa_999 _
        (Samples.first "RegistroBDANegativa" (Samples.tree Samples.inner_negativa_999))
        "09990101000000" consultaBDANegativa_operation
        ltac:(sample_reaches) ltac:(vm_compute; reflexivity)
        ltac:(vm_compute; reflexivity) ltac:(vm_compute; reflexivity)
        sample_valid_timestamp_999) as (Wsuccess & Wraw & _).
    split; [exact Wsuccess | exact Wraw].
Defined.

(** C3 fails as stated. (a) A response whose nested document holds a
    negative-record marker with a valid report date, and an error marker as
    well, is reported as a failure. (b) A valid report date of the year 999
    comes back with a year of three digits, which is not the layout
    [YYYY-DD-MM HH:MM:SS] of its digits. (c) A nested document whose root is
    the negative record, with a valid report date, is reported as a failure
    of unknown shape. *)
Lemma consulta_negativa_fecha_counterexample :
  (reaches_markers MiniXml.fromstring
     (Samples.consulta_client
        (Samples.ok (Samples.negativa_response Samples.inner_error_and_negativa)))
     "consultaBDANegativa" Samples.query Samples.inner_error_and_negativa
     (Samples.tree Samples.inner_error_and_negativa)
   ∧ findtext (Child "FechaReporte") ""
       (Samples.first "RegistroBDANegativa"
          (Samples.tree Samples.inner_error_and_negativa)) = "20241025143000"
   ∧ is_Some (find (Descendant "RegistroBDANegativa")
                (Samples.tree Samples.inner_error_and_negativa))
   ∧ valid_timestamp "20241025143000"
   ∧ ConsultaClient.success (Samples.consulta Samples.inner_error_and_negativa) = false)
  ∧ (reaches_markers MiniXml.fromstring
       (Samples.consulta_client
          (Samples.ok (Samples.negativa_response Samples.inner_negativa_999)))
       "consultaBDANegativa" Samples.query Samples.inner_negativa_999
       (Samples.tree Samples.inner_negativa_999)
     ∧ find (Descendant "RespuestaConsultaBDAError")
         (Samples.tree Samples.inner_negativa_999) = None
     ∧ findtext (Child "FechaReporte") ""
         (Samples.first "RegistroBDANegativa"
            (Samples.tree Samples.inner_negativa_999)) = "09990101000000"
     ∧ valid_timestamp "09990101000000"
     ∧ day_month_swapped "09990101000000" = "0999-01-01 00:00:00"
     ∧ ConsultaClient.raw_response (Samples.consulta Samples.inner_negativa_999)
       = Some [[("TipoRespuesta", "1");
                ("RespuestaConsultaBDANegativa", "Registro Encontrado");
                ("Imei", "852055059447491");
                ("Tecnologia", "01");
                ("FechaReporte", "999-01-01 00:00:00")]])
  ∧ (reaches_markers MiniXml.fromstring
       (Samples.consulta_client
          (Samples.ok (Samples.negativa_response Samples.inner_negativa_root)))
       "consultaBDANegativa" Samples.query Samples.inner_negativa_root
       (Samples.tree Samples.inner_negativa_root)
     ∧ localname (Samples.tree Samples.inner_negativa_root) = "RegistroBDANegativa"
     ∧ findtext (Child "FechaReporte") "" (Samples.tree Samples.inner_negativa_root)
       = "20241025143000"
     ∧ ConsultaClient.success (Samples.consulta Samples.inner_negativa_root) = false
     ∧ ConsultaClient.message (Samples.consulta Samples.inner_negativa_root)
       = Some ConsultaClient.unknown_shape_message).
Proof.
  split; [|split].
  - split; [sample_reaches|]. split; [vm_compute; reflexivity|].
    split; [vm_compute; eauto|]. split; [apply sample_valid_timestamp|].
    vm_compute; reflexivity.
  - split; [sample_reaches|]. split; [vm_compute; reflexivity|].
    split; [vm_compute; reflexivity|]. split; [apply sample_valid_timestamp_999|].
    split; vm_compute; reflexivity.
  - split; [sample_reaches|]. repeat split; vm_compute; reflexivity.
Qed.

Lemma consulta_no_results_witness :
  (let r := ConsultaClient._send_request_run MiniXml.fromstring
              (Samples.consulta_client (Samples.ok Samples.no_return))
              "consultaBDANegativa" Samples.query in
   ConsultaClient.success (state r) = false
   ∧ ConsultaClient.http_status (state r) = 200%Z
   ∧ ConsultaClient.message (state r) = Some ConsultaClient.no_results_message
   ∧ ConsultaClient.raw_response (state r) = Some ConsultaClient.no_results_payload
   ∧ parsed r = [Samples.no_return])
  ∧ (let r := ConsultaClient._send_request_run MiniXml.fromstring
                (Samples.consulta_client (Samples.ok Samples.empty_return))
                "consultaBDANegativa" Samples.query in
     ConsultaClient.success (state r) = false
     ∧ ConsultaClient.http_status (state r) = 200%Z
     ∧ ConsultaClient.message (state r) = Some ConsultaClient.no_results_message
     ∧ ConsultaClient.raw_response (state r) = Some ConsultaClient.no_results_payload
     ∧ parsed r = [Samples.empty_return]).
Proof.
  split.
  - apply (consulta_no_results MiniXml.fromstring _ _ Samples.query
             (Samples.ok Samples.no_return) (Samples.tree Samples.no_return)
             consultaBDANegativa_operation);
      [ reflexivity | reflexivity | vm_compute; reflexivity
      | left; vm_compute; reflexivity ].
  - apply (consulta_no_results MiniXml.fromstring _ _ Samples.query
             (Samples.ok Samples.empty_return) (Samples.tree Samples.empty_return)
             consultaBDANegativa_operation);
      [ reflexivity | reflexivity | vm_compute; reflexivity
      | right; eexists; split; [vm_compute; reflexivity | left; reflexivity] ].
Defined.

(** ** The action client *)

Lemma raise_for_status_2xx (http_res : Response) :
  (200 ≤ status_code http_res < 300)%Z → raise_for_status http_res = inr tt.
Proof.
  intros H. unfold raise_for_status.
  by rewrite !bool_decide_eq_false_2 by lia.
Qed.

Section soap.
Import SoapClient.
Variable fromstring : parser.

(** C2, as amended. For a response of the action service with a 2xx status
    whose body parses, the outcome follows the text of the return element
    with the white space around it stripped (the empty text when there is no
    such element): success with no error code when it is "ack", failure with
    it as error code otherwise. *)
Theorem soap_ack_or_code (self : SRTMAxisClient)
    (boundary_hex cid_hex msg_type xml_payload : string)
    (http_res : Response) (res_env : element) :
  post self boundary_hex cid_hex msg_type xml_payload = inr http_res →
  (200 ≤ status_code http_res < 300)%Z →
  fromstring (content http_res) = inr res_env →
  let result_text :=
    strip (findtext (Descendant "receiveMessageReturn") "" res_env) in
  let r := _send_request fromstring self boundary_hex cid_hex msg_type xml_payload in
  http_status r = status_code http_res
  ∧ (result_text = "ack" → success r = true ∧ error_code r = None)
  ∧ (result_text ≠ "ack" → success r = false ∧ error_code r = Some result_text).
Proof.
  intros Hsession Hstatus Hroot result_text r. subst result_text r.
  unfold _send_request, _send_request_run, _send_request_try.
  rewrite Hsession, try_lift_inr, try_update, (raise_for_status_2xx _ Hstatus),
    try_lift_inr, (try_parse_inr _ _ _ _ _ _ Hroot), state_prepend, try_update.
  destruct (String.eqb_spec
              (strip (findtext (Descendant "receiveMessageReturn") "" res_env)) "ack")
    as [Heq | Hne].
  - rewrite !try_update, try_update_last. by repeat split.
  - rewrite !try_update, try_update_last. by repeat split.
Qed.

End soap.

Lemma soap_ack_or_code_witness :
  (SoapClient.http_status (Samples.accion (Samples.ok (Samples.receive_response "ack")))
   = 200%Z
   ∧ SoapClient.success (Samples.accion (Samples.ok (Samples.receive_response "ack")))
     = true
   ∧ SoapClient.error_code (Samples.accion (Samples.ok (Samples.receive_response "ack")))
     = None)
  ∧ (SoapClient.success (Samples.accion (Samples.ok (Samples.receive_response "E042")))
     = false
     ∧ SoapClient.error_code
         (Samples.accion (Samples.ok (Samples.receive_response "E042")))
       = Some "E042").
Proof.
  split.
  - pose proof (soap_ack_or_code MiniXml.fromstring
        (Samples.soap_client (Samples.ok (Samples.receive_response "ack")))
        "0123456789abcdef0123456789abcdef" "fedcba9876543210fedcba9876543210"
        "5001" Samples.mensaje (Samples.ok (Samples.receive_response "ack"))
        (Samples.tree (Samples.receive_response "ack"))
        ltac:(reflexivity) ltac:(cbn; lia)
        ltac:(vm_compute; reflexivity)) as (W1 & W2 & _).
    exact (conj W1 (W2 ltac:(vm_compute; reflexivity))).
  - pose proof (soap_ack_or_code MiniXml.fromstring
        (Samples.soap_client (Samples.ok (Samples.receive_response "E042")))
        "0123456789abcdef0123456789abcdef" "fedcba9876543210fedcba9876543210"
        "5001" Samples.mensaje (Samples.ok (Samples.receive_response "E042"))
        (Samples.tree (Samples.receive_response "E042"))
        ltac:(reflexivity) ltac:(cbn; lia)
        ltac:(vm_compute; reflexivity)) as (_ & _ & W3).
    exact (W3 ltac:(vm_compute; discriminate)).
Defined.

(** C2 fails as stated: a return text that is not exactly "ack" gives
    success, and the error code of a failure is not the return text. *)
Lemma soap_ack_or_code_counterexample :
  (findtext (Descendant "receiveMessageReturn") ""
     (Samples.tree (Samples.receive_response (" ack" +:+ nl))) = " ack" +:+ nl
   ∧ " ack" +:+ nl ≠ "ack"
   ∧ SoapClient.success
       (Samples.accion (Samples.ok (Samples.receive_response (" ack" +:+ nl)))) = true)
  ∧ (findtext (Descendant "receiveMessageReturn") ""
       (Samples.tree (Samples.receive_response " E042 ")) = " E042 "
     ∧ SoapClient.success
         (Samples.accion (Samples.ok (Samples.receive_response " E042 "))) = false
     ∧ SoapClient.error_code
         (Samples.accion (Samples.ok (Samples.receive_response " E042 ")))
       = Some "E042").
Proof.
  split; repeat split; try (vm_compute; reflexivity). vm_compute. discriminate.
Qed.

(** ** Transport errors *)

Section outcome.
Context {S : Type}.

(** A [try] whose handler does not raise leaves no exception. *)
Lemma try_except_returns (body : M S unit) h s :
  (∀ e s', result (h e s') = inr tt) →
  result (try_except body h s) = inr tt.
Proof.
  intros Hh. unfold try_except.
  destruct (body s) as [[e|[]] s' docs]; [|done].
  by rewrite result_prepend.
Qed.

End outcome.

(** No exception leaves [_send_request], in either client: the run ends
    with the response object. *)
Theorem send_request_returns (fromstring : parser) :
  (∀ self op xml_payload,
     result (ConsultaClient._send_request_run fromstring self op xml_payload) = inr tt)
  ∧ (∀ self boundary_hex cid_hex msg_type xml_payload,
       result (SoapClient._send_request_run fromstring self boundary_hex cid_hex
                 msg_type xml_payload) = inr tt).
Proof.
  split; intros; apply try_except_returns; intros e s'; [done|].
  by destruct e.
Qed.

(** The action client keeps the status it received: on an HTTP error the
    outcome is a failure with that status, and when the transport raises it
    is a failure with status 500. *)
Theorem soap_transport_error_status (fromstring : parser)
    (self : SoapClient.SRTMAxisClient)
    (boundary_hex cid_hex msg_type xml_payload : string) :
  let r := SoapClient._send_request fromstring self boundary_hex cid_hex
             msg_type xml_payload in
  (∀ http_res,
     SoapClient.post self boundary_hex cid_hex msg_type xml_payload = inr http_res →
     (400 ≤ status_code http_res < 600)%Z →
     SoapClient.success r = false
     ∧ SoapClient.http_status r = status_code http_res)
  ∧ (∀ e, SoapClient.post self boundary_hex cid_hex msg_type xml_payload = inl e →
       SoapClient.success r = false ∧ SoapClient.http_status r = 500%Z).
Proof.
  intros r. subst r. split.
  - intros http_res Hsession Hstatus.
    unfold SoapClient._send_request, SoapClient._send_request_run,
      SoapClient._send_request_try.
    rewrite Hsession, try_lift_inr, try_update.
    assert (∃ e, raise_for_status http_res = inl e ∧ is_Fault e = false)
      as (e & -> & He).
    { unfold raise_for_status. repeat case_bool_decide; eauto. lia. }
    rewrite try_lift_inl. by destruct e.
  - intros e Hsession.
    unfold SoapClient._send_request, SoapClient._send_request_run,
      SoapClient._send_request_try.
    rewrite Hsession, try_lift_inl. by destruct e.
Qed.

Lemma soap_transport_error_status_witness :
  (SoapClient.success (Samples.accion (Samples.not_found "<html>Not Found</html>"))
   = false
   ∧ SoapClient.http_status (Samples.accion (Samples.not_found "<html>Not Found</html>"))
     = 404%Z).
Proof.
  apply (proj1 (soap_transport_error_status MiniXml.fromstring
           (Samples.soap_client (Samples.not_found "<html>Not Found</html>"))
           "0123456789abcdef0123456789abcdef" "fedcba9876543210fedcba9876543210"
           "5001" Samples.mensaje)
         (Samples.not_found "<html>Not Found</html>"));
    [ reflexivity | cbn; lia ].
Defined.

(** The query client reports status 500 whenever the [try] body raises,
    whatever status it received. *)
Theorem consulta_transport_error_status (fromstring : parser)
    (self : ConsultaClient.ConsultaDBAClient) (op xml_payload : string)
    (http_res : Response) :
  ConsultaClient.post self op xml_payload = inr http_res →
  (400 ≤ status_code http_res < 600)%Z →
  let r := ConsultaClient._send_request fromstring self op xml_payload in
  ConsultaClient.success r = false
  ∧ ConsultaClient.http_status r = 500%Z
  ∧ ConsultaClient.message r = Some "Error inesperado en el procesamiento.".
Proof.
  intros Hsession Hstatus r. subst r.
  unfold ConsultaClient._send_request, ConsultaClient._send_request_run,
    ConsultaClient._send_request_try.
  rewrite Hsession, try_lift_inr, try_update.
  assert (∃ e, raise_for_status http_res = inl e) as (e & ->).
  { unfold raise_for_status. repeat case_bool_decide; eauto. lia. }
  by rewrite try_lift_inl.
Qed.

Lemma consulta_transport_error_status_witness :
  ConsultaClient.success
    (ConsultaClient._send_request MiniXml.fromstring
       (Samples.consulta_client (Samples.not_found "<html>Not Found</html>"))
       "consultaBDANegativa" Samples.query) = false
  ∧ ConsultaClient.http_status
      (ConsultaClient._send_request MiniXml.fromstring
         (Samples.consulta_client (Samples.not_found "<html>Not Found</html>"))
         "consultaBDANegativa" Samples.query) = 500%Z
  ∧ ConsultaClient.message
      (ConsultaClient._send_request MiniXml.fromstring
         (Samples.consulta_client (Samples.not_found "<html>Not Found</html>"))
         "consultaBDANegativa" Samples.query)
    = Some "Error inesperado en el procesamiento.".
Proof.
  apply (consulta_transport_error_status MiniXml.fromstring
           (Samples.consulta_client (Samples.not_found "<html>Not Found</html>"))
           "consultaBDANegativa" Samples.query
           (Samples.not_found "<html>Not Found</html>"));
    [ reflexivity | cbn; lia ].
Defined.

(** C4. The server answers 404 to a call of the query client: the outcome
    carries 500. The action client, given the same answer, carries 404. *)
Theorem consulta_not_found_reported_as_500 :
  status_code (Samples.not_found "<html>Not Found</html>") = 404%Z
  ∧ ConsultaClient.http_status
      (ConsultaClient._send_request MiniXml.fromstring
         (Samples.consulta_client (Samples.not_found "<html>Not Found</html>"))
         "consultaBDANegativa" Samples.query) = 500%Z
  ∧ SoapClient.http_status (Samples.accion (Samples.not_found "<html>Not Found</html>"))
    = 404%Z.
Proof. repeat split; vm_compute; reflexivity. Qed.

(** ** Escaping *)

Lemma occurs_app c s1 s2 : occurs c (s1 +:+ s2) = occurs c s1 || occurs c s2.
Proof.
  induction s1 as [|a s1 IH]; [done|]. simpl. rewrite IH. by rewrite orb_assoc.
Qed.

Lemma occurs_replace_same c new s :
  occurs c new = false → occurs c (replace_char c new s) = false.
Proof.
  intros Hnew. induction s as [|a s IH]; [done|]. cbn [replace_char].
  destruct (Ascii.eqb a c) eqn:Ha.
  - by rewrite occurs_app, Hnew, IH.
  - cbn [occurs]. by rewrite Ha, IH.
Qed.

Lemma occurs_replace_other c old new s :
  occurs c new = false → occurs c s = false →
  occurs c (replace_char old new s) = false.
Proof.
  intros Hnew. induction s as [|a s IH]; [done|]. cbn [replace_char occurs].
  intros [Ha Hs]%orb_false_iff. destruct (Ascii.eqb a old).
  - by rewrite occurs_app, Hnew, IH.
  - cbn [occurs]. by rewrite Ha, IH.
Qed.

(** What [_escape_xml] returns holds none of the characters [<], [>], the
    double quote and the single quote. *)
Theorem _escape_xml_no_markup (text : option string) (c : ascii) :
  c ∈ ["<"; ">"; dquote; "'"]%char →
  occurs c (SoapClient._escape_xml text) = false.
Proof.
  intros Hc. unfold SoapClient._escape_xml.
  destruct text as [t|]; [|done]. destruct (truthy t); [|done].
  unfold html_escape.
  repeat (apply elem_of_cons in Hc as [-> | Hc]); [..|by apply elem_of_nil in Hc].
  - do 2 (apply occurs_replace_other; [done|]).
    apply occurs_replace_other; [done|]. by apply occurs_replace_same.
  - do 2 (apply occurs_replace_other; [done|]). by apply occurs_replace_same.
  - apply occurs_replace_other; [done|]. by apply occurs_replace_same.
  - by apply occurs_replace_same.
Qed.

Lemma _escape_xml_no_markup_witness :
  occurs "<" (SoapClient._escape_xml (Some "1<2&3")) = false.
Proof.
  apply (_escape_xml_no_markup (Some "1<2&3") "<"). left.
Defined.

(** C7. The positive query is built with the owner identification as
    given, markup characters included; the cancel-positive body escapes the
    same value, and inserts the [imei] as given. *)
Theorem positiva_query_inserts_text_unescaped :
  Models.ConsultaPositivaRequest.accepts Samples.consulta_con_marcas = true
  ∧ contains "<IdentificacionPropietario>1<2&3</IdentificacionPropietario>"
      (Samples.consulta_positiva_query Samples.consulta_con_marcas) = true
  ∧ contains "1&lt;2&amp;3"
      (Samples.consulta_positiva_query Samples.consulta_con_marcas) = false
  ∧ (∃ req, Models.CancelacionPositivoRequest.model_validate
              Samples.cancelacion_con_marcas = inr req
            ∧ contains
                "<IdentificacionPropietario>1&lt;2&amp;3</IdentificacionPropietario>"
                (SoapClient.cancelar_positivo_body req) = true
            ∧ contains "<Imei><b>85</b></Imei>"
                (SoapClient.cancelar_positivo_body req) = true).
Proof.
  split; [|split; [|split]]; try (vm_compute; reflexivity).
  eexists. repeat split; vm_compute; reflexivity.
Qed.

(** ** The webhook *)

Lemma MESSAGE_MAP_unknown (code : string) :
  code ∉ known_codes → Webhook.MESSAGE_MAP !! code = None.
Proof. intros H. by apply not_elem_of_list_to_map_1. Qed.

Section webhook.
Import Webhook.
Variable fromstring : parser.

(** A content type other than the two accepted strings: an empty 404,
    whatever the body. *)
Theorem webhook_content_type_not_found (request : Request) :
  content_type request ≠ Some "text/xml" →
  content_type request ≠ Some "application/xml" →
  handle_srtm_response fromstring request = Returns (empty_reply 404).
Proof.
  intros H1 H2. unfold handle_srtm_response.
  rewrite bool_decide_eq_true_2; [done|].
  intros [?|[?|[]%elem_of_nil]%elem_of_cons]%elem_of_cons; congruence.
Qed.

Lemma readable_try (request : Request) (root : element) :
  readable fromstring request root →
  handle_srtm_response fromstring request
  = match handle_srtm_response_try fromstring (data request) with
    | inr reply => Returns reply
    | inl (XMLSyntaxError _) => Returns (empty_reply 404)
    | inl _ => Returns (empty_reply 500)
    end.
Proof.
  intros (Htype & Hdecodes & _). unfold handle_srtm_response, decode_utf8.
  rewrite bool_decide_eq_false_2 by (intros H; by apply H).
  by rewrite Hdecodes.
Qed.

(** A readable callback with no message type, or whose first message type
    has no text or is none of the five codes: an empty 200. *)
Theorem webhook_unsupported_type (request : Request) (root : element) :
  readable fromstring request root →
  (xpath_descendant "TipoMsg" root = []
   ∨ ∃ first rest, xpath_descendant "TipoMsg" root = first :: rest
                   ∧ ∀ code, text first = Some code → code ∉ known_codes) →
  handle_srtm_response fromstring request = Returns (empty_reply 200).
Proof.
  intros Hread Htype. rewrite (readable_try _ _ Hread).
  destruct Hread as (_ & _ & Hroot). unfold handle_srtm_response_try.
  rewrite Hroot. destruct Htype as [-> | (first & rest & -> & Hcode)]; [done|].
  destruct (text first) as [code|]; [|done]. cbn [mbind option_bind].
  by rewrite (MESSAGE_MAP_unknown code (Hcode code eq_refl)).
Qed.

Lemma acknowledgeable_reply (request : Request) :
  acknowledgeable fromstring request →
  handle_srtm_response fromstring request = Returns ack_reply.
Proof.
  intros (root & first & rest & code & wrapper & Hread & Htipo & Hcode & Hmap & Hresp).
  rewrite (readable_try _ _ Hread).
  destruct Hread as (_ & _ & Hroot). unfold handle_srtm_response_try.
  rewrite Hroot, Htipo, Hcode. cbn [mbind option_bind]. rewrite Hmap.
  by destruct (xpath_descendant_child wrapper "TipoRespuesta" root).
Qed.

(** An acknowledgeable callback gets the envelope whose return element
    holds "ack", as [text/xml]. *)
Theorem webhook_ack (request : Request) :
  acknowledgeable fromstring request →
  handle_srtm_response fromstring request = Returns ack_reply.
Proof. apply acknowledgeable_reply. Qed.

(** Two acknowledgeable callbacks get the same reply, whatever their result
    codes. *)
Theorem webhook_reply_independent (request1 request2 : Request) :
  acknowledgeable fromstring request1 →
  acknowledgeable fromstring request2 →
  handle_srtm_response fromstring request1 = handle_srtm_response fromstring request2.
Proof.
  intros H1 H2. by rewrite (acknowledgeable_reply _ H1), (acknowledgeable_reply _ H2).
Qed.

End webhook.

(** The envelope of the acknowledgement has one element with text, the
    return element, and its text is "ack". *)
Example soap_envelope_payload :
  filter (λ e, is_Some (text e))
    (Webhook.soap_envelope :: descendants Webhook.soap_envelope)
  = [Element (Some Webhook.service) "receiveMessageReturn" (Some "ack") []].
Proof. reflexivity. Qed.

Lemma webhook_content_type_not_found_witness :
  Webhook.handle_srtm_response MiniXml.fromstring
    (Samples.post "application/json" Samples.callback_9999)
  = Webhook.Returns (Webhook.empty_reply 404).
Proof.
  apply (webhook_content_type_not_found MiniXml.fromstring
           (Samples.post "application/json" Samples.callback_9999)); discriminate.
Defined.

Lemma sample_readable (content_type data : string) :
  Some content_type ∈ [Some "text/xml"; Some "application/xml"] →
  utf8_decodes data = true →
  MiniXml.fromstring data = inr (Samples.tree data) →
  readable MiniXml.fromstring (Samples.post content_type data) (Samples.tree data).
Proof. by repeat split. Defined.

Lemma webhook_unsupported_type_witness :
  Webhook.handle_srtm_response MiniXml.fromstring
    (Samples.post "application/xml" Samples.callback_9999)
  = Webhook.Returns (Webhook.empty_reply 200).
Proof.
  apply (webhook_unsupported_type MiniXml.fromstring
           (Samples.post "application/xml" Samples.callback_9999)
           (Samples.tree Samples.callback_9999)).
  - apply sample_readable; [right; left | vm_compute; reflexivity ..].
  - right. exists (Element None "TipoMsg" (Some "9999") []), [].
    split; [vm_compute; reflexivity|].
    intros code [= <-]. vm_compute.
    intros H. repeat (apply elem_of_cons in H as [H | H]; [discriminate|]).
    by apply elem_of_nil in H.
Defined.

Lemma sample_acknowledgeable (tipo_respuesta : string) :
  utf8_decodes (Samples.callback_1002 tipo_respuesta) = true →
  MiniXml.fromstring (Samples.callback_1002 tipo_respuesta)
    = inr (Samples.tree (Samples.callback_1002 tipo_respuesta)) →
  xpath_descendant "TipoMsg" (Samples.tree (Samples.callback_1002 tipo_respuesta))
    = [Element None "TipoMsg" (Some "1002") []] →
  xpath_descendant_child "RespuestaRegistroPositivo" "TipoRespuesta"
      (Samples.tree (Samples.callback_1002 tipo_respuesta)) ≠ [] →
  acknowledgeable MiniXml.fromstring
    (Samples.post "text/xml" (Samples.callback_1002 tipo_respuesta)).
Proof.
  intros Hdecodes Hroot Htipo Hresp.
  exists (Samples.tree (Samples.callback_1002 tipo_respuesta)),
         (Element None "TipoMsg" (Some "1002") []), [], "1002",
         "RespuestaRegistroPositivo".
  split; [apply sample_readable; [left | done ..]|]. by repeat split.
Defined.

Lemma webhook_ack_witness :
  Webhook.handle_srtm_response MiniXml.fromstring
    (Samples.post "text/xml" (Samples.callback_1002 "1"))
  = Webhook.Returns ack_reply.
Proof.
  apply (webhook_ack MiniXml.fromstring
           (Samples.post "text/xml" (Samples.callback_1002 "1"))).
  apply sample_acknowledgeable; vm_compute; (reflexivity || discriminate).
Defined.

Lemma webhook_reply_independent_witness :
  Webhook.handle_srtm_response MiniXml.fromstring
    (Samples.post "text/xml" (Samples.callback_1002 "1"))
  = Webhook.handle_srtm_response MiniXml.fromstring
      (Samples.post "text/xml" (Samples.callback_1002 "2")).
Proof.
  apply (webhook_reply_independent MiniXml.fromstring
           (Samples.post "text/xml" (Samples.callback_1002 "1"))
           (Samples.post "text/xml" (Samples.callback_1002 "2")));
    apply sample_acknowledgeable; vm_compute; (reflexivity || discriminate).
Defined.

(** C8. A callback in ISO-8859-1 that parses and has no message type: the
    body does not decode as UTF-8, and the exception raised for the log
    record leaves the view. *)
Theorem webhook_undecodable_callback_propagates :
  MiniXml.fromstring Samples.callback_sin_tipo
    = inr (Samples.tree Samples.callback_sin_tipo)
  ∧ xpath_descendant "TipoMsg" (Samples.tree Samples.callback_sin_tipo) = []
  ∧ Webhook.handle_srtm_response MiniXml.fromstring
      (Samples.post "text/xml" Samples.callback_sin_tipo)
    = Webhook.Propagates UnicodeDecodeError.
Proof. repeat split; vm_compute; reflexivity. Qed.

(** C9. Two callbacks of the message type 1002 that differ in the text of
    the result code alone, both with the outcome marker in the response
    wrapper: one is acknowledged, the other ends in an exception that leaves
    the view. *)
Theorem webhook_result_code_changes_reply :
  (MiniXml.fromstring (Samples.callback_1002 Samples.e_acute)
     = inr (Samples.tree (Samples.callback_1002 Samples.e_acute))
   ∧ xpath_descendant "TipoMsg" (Samples.tree (Samples.callback_1002 Samples.e_acute))
     = [Element None "TipoMsg" (Some "1002") []]
   ∧ xpath_descendant_child "RespuestaRegistroPositivo" "TipoRespuesta"
       (Samples.tree (Samples.callback_1002 Samples.e_acute))
     = [Element None "TipoRespuesta" (Some Samples.e_acute) []])
  ∧ Webhook.handle_srtm_response MiniXml.fromstring
      (Samples.post "text/xml" (Samples.callback_1002 "1"))
    = Webhook.Returns ack_reply
  ∧ Webhook.handle_srtm_response MiniXml.fromstring
      (Samples.post "text/xml" (Samples.callback_1002 Samples.e_acute))
    = Webhook.Propagates UnicodeDecodeError.
Proof. repeat split; vm_compute; reflexivity. Qed.


(* ================================================================== *)
(** * The requests, the identifiers and the API *)

(** ** Strings *)

Lemma append_cons c s1 s2 : String c s1 +:+ s2 = String c (s1 +:+ s2).
Proof. reflexivity. Qed.

Lemma append_empty_r s : s +:+ "" = s.
Proof. induction s as [|c s IH]; [done|]. by rewrite append_cons, IH. Qed.

Lemma append_assoc s1 s2 s3 : (s1 +:+ s2) +:+ s3 = s1 +:+ (s2 +:+ s3).
Proof. induction s1 as [|c s1 IH]; [done|]. by rewrite !append_cons, IH. Qed.

Lemma length_append s1 s2 :
  String.length (s1 +:+ s2) = (String.length s1 + String.length s2)%nat.
Proof.
  induction s1 as [|c s1 IH]; [done|]. rewrite append_cons. simpl. by rewrite IH.
Qed.

(** Two strings that start with parts of one length are equal part by
    part. *)
Lemma append_eq_length s1 s2 t1 t2 :
  String.length s1 = String.length s2 → s1 +:+ t1 = s2 +:+ t2 → s1 = s2 ∧ t1 = t2.
Proof.
  revert s2. induction s1 as [|c s1 IH]; intros [|c' s2] Hlen Heq; try done.
  rewrite !append_cons in Heq. injection Heq as -> Heq. simpl in Hlen.
  destruct (IH s2 ltac:(lia) Heq) as [-> ->]. done.
Qed.

Lemma all_digits_append s1 s2 :
  all_digits (s1 +:+ s2) = all_digits s1 && all_digits s2.
Proof.
  induction s1 as [|c s1 IH]; [done|]. rewrite append_cons. simpl.
  by rewrite IH, andb_assoc.
Qed.

(** ** Required fields *)

Section required.
Import Models.

Lemma require_each_inr msg fields (data : payload) :
  require_each msg fields data = inr tt ↔ ∀ f, f ∈ fields → get data f ≠ None.
Proof.
  split; [|apply require_each_ok].
  induction fields as [|g fields IH]; intros Hreq f Hin.
  - by apply elem_of_nil in Hin.
  - simpl in Hreq. destruct (get data g) eqn:Hg; [|done].
    apply elem_of_cons in Hin as [-> | Hin]; [congruence | by apply IH].
Qed.

Lemma require_each_first_missing msg fields (data : payload) f :
  first_missing fields data f →
  require_each msg fields data = inl (ValueError (msg f)).
Proof.
  intros (before & after & -> & Hbefore & Hf).
  induction before as [|g before IH]; simpl.
  - by rewrite Hf.
  - destruct (get data g) eqn:Hg.
    + apply IH. intros h Hh. apply Hbefore. by right.
    + exfalso. apply (Hbefore g); [by left | done].
Qed.

Lemma require_each_inl msg fields (data : payload) e :
  require_each msg fields data = inl e →
  ∃ f, first_missing fields data f ∧ e = ValueError (msg f).
Proof.
  induction fields as [|g fields IH]; [done|]. simpl.
  destruct (get data g) eqn:Hg.
  - intros (f & (before & after & -> & Hbefore & Hf) & ->)%IH.
    exists f. split; [|done]. exists (g :: before), after. split; [done|].
    split; [|done]. intros h [-> | Hh]%elem_of_cons; [congruence | by apply Hbefore].
  - intros [= <-]. exists g. split; [|done]. exists [], fields. split; [done|].
    split; [|done]. by intros h ?%elem_of_nil.
Qed.

Ltac each_field :=
  let f := fresh "f" in let Hf := fresh "Hf" in
  intros f Hf;
  repeat (apply elem_of_cons in Hf as [-> | Hf]; [vm_compute; discriminate|]);
  by apply elem_of_nil in Hf.

(** The validators of the register-positive and cancel-positive requests
    return the payload, unchanged, exactly when it has every required field;
    otherwise the error names the first required field, in the order of the
    list, that is missing or [None]. No other field is looked at. *)
Theorem required_fields_first_missing (data : payload) :
  (RegistroPositivoRequest.check_required_fields data = inr data
   ↔ ∀ f, f ∈ RegistroPositivoRequest.required_fields → get data f ≠ None)
  ∧ (∀ e, RegistroPositivoRequest.check_required_fields data = inl e
          ↔ ∃ f, first_missing RegistroPositivoRequest.required_fields data f
                 ∧ e = ValueError (obligatorio f))
  ∧ (CancelacionPositivoRequest.check_required_fields data = inr data
     ↔ ∀ f, f ∈ CancelacionPositivoRequest.required_fields → get data f ≠ None)
  ∧ (∀ e, CancelacionPositivoRequest.check_required_fields data = inl e
          ↔ ∃ f, first_missing CancelacionPositivoRequest.required_fields data f
                 ∧ e = ValueError (obligatorio f)).
Proof.
  unfold RegistroPositivoRequest.check_required_fields,
    CancelacionPositivoRequest.check_required_fields.
  assert (Hshape : ∀ fields,
    ((match require_each obligatorio fields data with
      | inl e => inl e
      | inr _ => inr data
      end = inr data)
     ↔ ∀ f, f ∈ fields → get data f ≠ None)
    ∧ (∀ e, match require_each obligatorio fields data with
            | inl e => inl e
            | inr _ => inr data
            end = inl e
            ↔ ∃ f, first_missing fields data f ∧ e = ValueError (obligatorio f))).
  { intros fields. split; [split|intros e; split].
    - destruct (require_each _ _ data) as [e|[]] eqn:Hreq; [done|].
      intros _. exact (proj1 (require_each_inr _ _ _) Hreq).
    - intros Hall. by rewrite (require_each_ok _ _ _ Hall).
    - destruct (require_each _ _ data) as [e'|[]] eqn:Hreq; [|done].
      intros [= <-]. by apply require_each_inl.
    - intros (f & Hf & ->). by rewrite (require_each_first_missing _ _ _ _ Hf). }
  split; [apply Hshape|]. split; [apply Hshape|]. split; apply Hshape.
Qed.

(** The register-negative validator returns the payload, unchanged, exactly
    when the eleven always-required fields are there and, for a theft
    ([tipo_reporte = '1']), [empleo_violencia] is there and, when that is
    ['1'], so are [utilizacion_armas] and [victima_menor_edad]. For any other
    [tipo_reporte] the three conditional fields are not looked at. *)
Theorem registro_negativo_accepts_iff (data : payload) :
  (RegistroNegativoRequest.check_required_and_robo_fields data = inr data
   ↔ (∀ f, f ∈ RegistroNegativoRequest.always_required → get data f ≠ None)
     ∧ (get data "tipo_reporte" = Some "1" →
        get data "empleo_violencia" ≠ None
        ∧ (get data "empleo_violencia" = Some "1" →
           get data "utilizacion_armas" ≠ None
           ∧ get data "victima_menor_edad" ≠ None)))
  ∧ (∀ d, RegistroNegativoRequest.check_required_and_robo_fields data = inr d → d = data).
Proof.
  unfold RegistroNegativoRequest.check_required_and_robo_fields. split; [split|].
  - destruct (require_each _ _ data) as [e|[]] eqn:Hreq; [done|]. intros Hok.
    split; [exact (proj1 (require_each_inr _ _ _) Hreq)|].
    intros Htr. rewrite bool_decide_eq_true_2 in Hok by done.
    destruct (get data "empleo_violencia") as [ev|]; [|done]. split; [done|].
    intros Hev. rewrite bool_decide_eq_true_2 in Hok by done.
    destruct (get data "utilizacion_armas"); [|done].
    by destruct (get data "victima_menor_edad").
  - intros [Hall Hrobo]. rewrite (require_each_ok _ _ _ Hall).
    case_bool_decide as Htr; [|done]. destruct (Hrobo Htr) as [Hev Harmas].
    destruct (get data "empleo_violencia") as [ev|]; [|done].
    case_bool_decide as Hev1; [|done]. destruct (Harmas Hev1) as [Hua Hvm].
    destruct (get data "utilizacion_armas"); [|done].
    by destruct (get data "victima_menor_edad").
  - intros d. destruct (require_each _ _ data); [done|].
    repeat (case_bool_decide || case_match); congruence.
Qed.

(** The modify-positive validator returns the payload, unchanged, exactly
    when the nine always-required fields are there, the two fields of the
    previous owner are there if [tipo_modificacion] is ['2'] or ['3'], and
    the five authorised-user fields are there unless
    [tipo_usuario_autorizado] is the empty string. *)
Theorem modificacion_accepts_iff (data : payload) :
  (ModificacionPositivoRequest.check_all_fields data = inr data
   ↔ (∀ f, f ∈ ModificacionPositivoRequest.always_required → get data f ≠ None)
     ∧ (get data "tipo_modificacion" = Some "2" ∨ get data "tipo_modificacion" = Some "3" →
        get data "tipo_identificacion_propietario_anterior" ≠ None
        ∧ get data "identificacion_propietario_anterior" ≠ None)
     ∧ (get data "tipo_usuario_autorizado" ≠ Some "" →
        ∀ f, f ∈ ModificacionPositivoRequest.autorizado_fields → get data f ≠ None))
  ∧ (∀ d, ModificacionPositivoRequest.check_all_fields data = inr d → d = data).
Proof.
  unfold ModificacionPositivoRequest.check_all_fields.
  assert (Hmod : get data "tipo_modificacion" ∈ [Some "2"; Some "3"]
                 ↔ get data "tipo_modificacion" = Some "2"
                   ∨ get data "tipo_modificacion" = Some "3").
  { rewrite !elem_of_cons, elem_of_nil. tauto. }
  split; [split|].
  - destruct (require_each obligatorio _ data) as [e|[]] eqn:Hreq; [done|]. intros Hok.
    split; [exact (proj1 (require_each_inr _ _ _) Hreq)|]. split.
    + intros Htm%Hmod. rewrite bool_decide_eq_true_2 in Hok by done.
      destruct (get data "tipo_identificacion_propietario_anterior"); [|done].
      by destruct (get data "identificacion_propietario_anterior").
    + intros Hua.
      match type of Hok with context [match ?a with inl _ => _ | inr _ => _ end] =>
        destruct a end; [done|].
      rewrite bool_decide_eq_true_2 in Hok by done.
      destruct (require_each ModificacionPositivoRequest.obligatorio_autorizado _ data)
        as [e|[]] eqn:Haut; [done|].
      exact (proj1 (require_each_inr _ _ _) Haut).
  - intros (Hall & Hant & Haut). rewrite (require_each_ok _ _ _ Hall).
    assert (Htail :
      (if bool_decide (get data "tipo_usuario_autorizado" ≠ Some "") then
         match require_each ModificacionPositivoRequest.obligatorio_autorizado
                 ModificacionPositivoRequest.autorizado_fields data with
         | inl e => inl e
         | inr _ => inr data
         end
       else inr data) = inr data).
    { case_bool_decide as Hua; [|done]. by rewrite (require_each_ok _ _ _ (Haut Hua)). }
    destruct (decide (get data "tipo_modificacion" ∈ [Some "2"; Some "3"])) as [Htm|Htm].
    + rewrite (bool_decide_eq_true_2 _ Htm). destruct (Hant (proj1 Hmod Htm)) as [H1 H2].
      destruct (get data "tipo_identificacion_propietario_anterior"); [|done].
      destruct (get data "identificacion_propietario_anterior"); [exact Htail | done].
    + rewrite (bool_decide_eq_false_2 _ Htm). exact Htail.
  - intros d. destruct (require_each obligatorio _ data); [done|].
    repeat (case_bool_decide || case_match); congruence.
Qed.

(** A modify-positive payload with the nine always-required fields and
    [tipo_modificacion] ['2'] or ['3']: without the type of the previous
    owner's identification the validator raises the error that names it;
    with it and without the previous owner's identification, the error that
    names that one. Both come before any check of the authorised-user
    fields. *)
Theorem modificacion_anterior_required (data : payload) :
  (∀ f, f ∈ ModificacionPositivoRequest.always_required → get data f ≠ None) →
  get data "tipo_modificacion" = Some "2" ∨ get data "tipo_modificacion" = Some "3" →
  (get data "tipo_identificacion_propietario_anterior" = None →
   ModificacionPositivoRequest.check_all_fields data
   = inl (ValueError "El campo 'tipo_identificacion_propietario_anterior' es obligatorio cuando 'tipo_modificacion' es '2' o '3'."))
  ∧ (get data "tipo_identificacion_propietario_anterior" ≠ None →
     get data "identificacion_propietario_anterior" = None →
     ModificacionPositivoRequest.check_all_fields data
     = inl (ValueError "El campo 'identificacion_propietario_anterior' es obligatorio cuando 'tipo_modificacion' es '2' o '3'.")).
Proof.
  intros Hall Htm. unfold ModificacionPositivoRequest.check_all_fields.
  rewrite (require_each_ok _ _ _ Hall).
  rewrite bool_decide_eq_true_2
    by (rewrite !elem_of_cons; destruct Htm as [-> | ->]; auto).
  split.
  - by intros ->.
  - intros Htipo ->. by destruct (get data "tipo_identificacion_propietario_anterior").
Qed.

Lemma modificacion_anterior_required_witness :
  ModificacionPositivoRequest.check_all_fields titularidad_sin_anterior
  = inl (ValueError "El campo 'tipo_identificacion_propietario_anterior' es obligatorio cuando 'tipo_modificacion' es '2' o '3'.")
  ∧ ModificacionPositivoRequest.check_all_fields titularidad_sin_identificacion_anterior
    = inl (ValueError "El campo 'identificacion_propietario_anterior' es obligatorio cuando 'tipo_modificacion' es '2' o '3'.").
Proof.
  split.
  - apply (proj1 (modificacion_anterior_required titularidad_sin_anterior
                    ltac:(each_field) ltac:(left; reflexivity))).
    reflexivity.
  - apply (proj2 (modificacion_anterior_required titularidad_sin_identificacion_anterior
                    ltac:(each_field) ltac:(left; reflexivity)));
      [vm_compute; discriminate | reflexivity].
Defined.

End required.

(** ** Report dates *)

Section fecha.
Import Models.

Lemma match_digits_Some n s rest :
  CancelacionNegativoRequest.match_digits n s = Some rest
  ↔ ∃ g, s = g +:+ rest ∧ String.length g = n ∧ all_digits g = true.
Proof.
  revert s. induction n as [|n IH]; intros s; simpl.
  - split.
    + intros [= ->]. by exists "".
    + intros (g & -> & Hlen & _). by destruct g.
  - destruct s as [|c s].
    + split; [done|]. intros (g & Hg & Hlen & _). by destruct g.
    + destruct (digit c) as [d|] eqn:Hc.
      * rewrite IH. split.
        -- intros (g & -> & Hlen & Hdig). exists (String c g). simpl.
           unfold is_digit. rewrite Hc. by rewrite Hlen.
        -- intros (g & Hg & Hlen & Hdig). destruct g as [|c' g]; [done|].
           simpl in Hg, Hlen, Hdig. injection Hg as -> ->.
           apply andb_true_iff in Hdig as [_ Hdig]. exists g. split; [done|]. by split; [lia|].
      * split; [done|]. intros (g & Hg & Hlen & Hdig). destruct g as [|c' g]; [done|].
        simpl in Hg, Hdig. injection Hg as -> ->. unfold is_digit in Hdig.
        by rewrite Hc in Hdig.
Qed.

Lemma re_match_14_digits_true s :
  CancelacionNegativoRequest.re_match_14_digits s = true
  ↔ (String.length s = 14%nat ∧ all_digits s = true)
    ∨ ∃ g, s = g +:+ nl ∧ String.length g = 14%nat ∧ all_digits g = true.
Proof.
  unfold CancelacionNegativoRequest.re_match_14_digits. split.
  - destruct (CancelacionNegativoRequest.match_digits 14 s) as [rest|] eqn:Hm; [|done].
    apply match_digits_Some in Hm as (g & -> & Hlen & Hdig).
    intros [-> | ->]%bool_decide_eq_true; [left | right; eauto].
    by rewrite append_empty_r.
  - intros [[Hlen Hdig] | (g & -> & Hlen & Hdig)].
    + rewrite (proj2 (match_digits_Some 14 s "")); [done|].
      exists s. by rewrite append_empty_r.
    + rewrite (proj2 (match_digits_Some 14 (g +:+ nl) nl)); [|by exists g].
      apply bool_decide_eq_true. by right.
Qed.

(** A line feed after the fourteen digits is left over by every way of
    reading the format. *)
Lemma strptime_digits_nl g :
  String.length g = 14%nat → all_digits g = true →
  ∃ msg, strptime (g +:+ nl) = inl (ValueError msg).
Proof.
  intros Hlen Hdig.
  assert (Hrest : ∀ dt rest, (dt, rest) ∈ re_YmdHMS (g +:+ nl) → rest ≠ "").
  { do 14 (destruct g as [|? g]; [discriminate Hlen|]).
    destruct g; [|discriminate Hlen]. clear Hlen.
    repeat match goal with
    | H : all_digits (String _ _) = true |- _ =>
        apply all_digits_cons in H as [[? ?] H]
    end.
    rewrite !append_cons. change ("" +:+ nl) with nl.
    intros dt rest Hin. unfold re_YmdHMS, re_Y in Hin.
    repeat match goal with
    | H : digit ?c = Some _, Hin : context [digit ?c] |- _ => rewrite H in Hin
    end.
    apply list_elem_of_bind in Hin as ([v r] & Hin & Hy).
    apply list_elem_of_singleton, pair_equal_spec in Hy as [-> ->].
    read_directive two_or_one_m; read_directive two_or_one_d;
    read_directive two_or_one_H; read_directive two_or_one_M;
    read_directive two_or_one_S;
    apply list_elem_of_singleton, pair_equal_spec in Hin as [_ ->]; discriminate. }
  unfold strptime. destruct (re_YmdHMS (g +:+ nl)) as [|[dt rest] l] eqn:Hre; [by eexists|].
  specialize (Hrest dt rest ltac:(left)). destruct rest; [done|]. by eexists.
Qed.

Lemma strptime_ValueError s e : strptime s = inl e → ∃ msg, e = ValueError msg.
Proof. unfold strptime. repeat case_match; intros [= <-]; by eexists. Qed.

(** A timestamp is valid when it passes the two checks of the validator. *)
Lemma valid_timestamp_checked s :
  valid_timestamp s
  ↔ CancelacionNegativoRequest.re_match_14_digits s = true ∧ ∃ dt, strptime s = inr dt.
Proof.
  split.
  - intros (Hlen & Hdig & Hdt). split; [|done]. apply re_match_14_digits_true. by left.
  - intros [[[Hlen Hdig] | (g & -> & Hlen & Hdig)]%re_match_14_digits_true [dt Hdt]].
    + split; [done|]. split; [done|]. by exists dt.
    + destruct (strptime_digits_nl g Hlen Hdig) as [msg Hmsg]. congruence.
Qed.

Lemma valid_fecha_accepted (data : payload) (fecha : string) :
  get data "imei" ≠ None → get data "observaciones" ≠ None →
  get data "fecha_reporte" = Some fecha → valid_timestamp fecha →
  CancelacionNegativoRequest.check_required_fields data = inr data.
Proof.
  intros Himei Hobs Hfecha [Hre [dt Hdt]]%valid_timestamp_checked.
  unfold CancelacionNegativoRequest.check_required_fields. rewrite Hfecha.
  destruct (get data "imei"); [|done]. destruct (get data "observaciones"); [|done].
  rewrite Hre, Hdt. by destruct fecha.
Qed.

(** The cancel-negative validator returns the payload, unchanged, exactly
    when [imei] and [observaciones] are there and [fecha_reporte] is the
    empty string or a [YYYYMMDDHHMMSS] timestamp of a date and time that
    exist. The empty string passes: the format is checked for a non-empty
    value only. *)
Theorem cancelacion_negativo_accepts_iff (data : payload) :
  (CancelacionNegativoRequest.check_required_fields data = inr data
   ↔ get data "imei" ≠ None ∧ get data "observaciones" ≠ None
     ∧ ∃ fecha, get data "fecha_reporte" = Some fecha
                ∧ (fecha = "" ∨ valid_timestamp fecha))
  ∧ (∀ d, CancelacionNegativoRequest.check_required_fields data = inr d → d = data).
Proof.
  unfold CancelacionNegativoRequest.check_required_fields. split.
  - destruct (get data "imei") as [imei|]; [|by split; [|intros [? _]]].
    destruct (get data "fecha_reporte") as [fecha|];
      [|by split; [|intros (_ & _ & ? & ? & _)]].
    destruct (get data "observaciones") as [obs|]; [|by split; [|intros (_ & ? & _)]].
    destruct fecha as [|c fecha]; [by split; [intros _; repeat split; eauto|]|].
    cbn [truthy]. set (f := String c fecha).
    destruct (CancelacionNegativoRequest.re_match_14_digits f) eqn:Hre; cbn [negb].
    + destruct (strptime f) as [e|dt] eqn:Hdt.
      * split; [by destruct e|]. intros (_ & _ & f' & [= <-] & [? | Hv]); [done|].
        apply valid_timestamp_checked in Hv as [_ [dt Hdt']]. congruence.
      * split; [|done]. intros _. repeat split; [done..|]. exists f. split; [done|].
        right. apply valid_timestamp_checked. eauto.
    + split; [done|]. intros (_ & _ & f' & [= <-] & [? | Hv]); [done|].
      apply valid_timestamp_checked in Hv as [Hre' _]. congruence.
  - intros d. repeat case_match; congruence.
Qed.

(** The error for a [fecha_reporte] that is there, in a payload with
    [imei] and [observaciones]: fourteen digits that are no date and time
    give the "invalid date" message, and so do fourteen digits followed by a
    line feed (the pattern lets the line feed through, [strptime] does not);
    digits of another number and fourteen characters that are not all digits
    give the "format" message. *)
Theorem cancelacion_negativo_fecha_errors (data : payload) (fecha : string) :
  get data "imei" ≠ None → get data "observaciones" ≠ None →
  get data "fecha_reporte" = Some fecha →
  (String.length fecha = 14%nat → all_digits fecha = true → ¬ valid_timestamp fecha →
   CancelacionNegativoRequest.check_required_fields data
   = inl (ValueError CancelacionNegativoRequest.invalida_msg))
  ∧ (∀ g, fecha = g +:+ nl → String.length g = 14%nat → all_digits g = true →
     CancelacionNegativoRequest.check_required_fields data
     = inl (ValueError CancelacionNegativoRequest.invalida_msg))
  ∧ (fecha ≠ "" → all_digits fecha = true → String.length fecha ≠ 14%nat →
     CancelacionNegativoRequest.check_required_fields data
     = inl (ValueError CancelacionNegativoRequest.formato_msg))
  ∧ (String.length fecha = 14%nat → all_digits fecha = false →
     CancelacionNegativoRequest.check_required_fields data
     = inl (ValueError CancelacionNegativoRequest.formato_msg)).
Proof.
  intros Himei Hobs Hfecha. unfold CancelacionNegativoRequest.check_required_fields.
  rewrite Hfecha. destruct (get data "imei"); [|done].
  destruct (get data "observaciones"); [|done].
  assert (Hformato : fecha ≠ "" →
            CancelacionNegativoRequest.re_match_14_digits fecha = false →
            (if truthy fecha then
               if negb (CancelacionNegativoRequest.re_match_14_digits fecha) then
                 inl (ValueError CancelacionNegativoRequest.formato_msg)
               else
                 match strptime fecha with
                 | inl (ValueError _) => inl (ValueError CancelacionNegativoRequest.invalida_msg)
                 | inl e => inl e
                 | inr _ => inr data
                 end
             else inr data)
            = inl (ValueError CancelacionNegativoRequest.formato_msg)).
  { intros Hne ->. by destruct fecha. }
  assert (Hinvalida : ∀ msg, fecha ≠ "" →
            CancelacionNegativoRequest.re_match_14_digits fecha = true →
            strptime fecha = inl (ValueError msg) →
            (if truthy fecha then
               if negb (CancelacionNegativoRequest.re_match_14_digits fecha) then
                 inl (ValueError CancelacionNegativoRequest.formato_msg)
               else
                 match strptime fecha with
                 | inl (ValueError _) => inl (ValueError CancelacionNegativoRequest.invalida_msg)
                 | inl e => inl e
                 | inr _ => inr data
                 end
             else inr data)
            = inl (ValueError CancelacionNegativoRequest.invalida_msg)).
  { intros msg Hne -> ->. by destruct fecha. }
  split; [|split; [|split]].
  - intros Hlen Hdig Hinvalid.
    destruct (strptime fecha) as [e|dt] eqn:Hdt;
      [|by destruct Hinvalid; repeat split; eauto].
    destruct (strptime_ValueError _ _ Hdt) as [msg ->].
    apply (Hinvalida msg); [by destruct fecha | | done].
    apply re_match_14_digits_true. by left.
  - intros g -> Hlen Hdig. destruct (strptime_digits_nl g Hlen Hdig) as [msg Hmsg].
    apply (Hinvalida msg); [by destruct g | | done].
    apply re_match_14_digits_true. right. by exists g.
  - intros Hne Hdig Hlen. apply Hformato; [done|].
    apply not_true_is_false. intros [[? _] | (g & -> & _ & _)]%re_match_14_digits_true;
      [done|].
    rewrite all_digits_append in Hdig. apply andb_true_iff in Hdig as [_ Hnl]. done.
  - intros Hlen Hdig. apply Hformato; [by destruct fecha|].
    apply not_true_is_false. intros [[_ ?] | (g & -> & Hg & _)]%re_match_14_digits_true;
      [congruence|].
    rewrite length_append in Hlen. simpl in Hlen. lia.
Qed.

Lemma cancelacion_negativo_fecha_errors_witness :
  CancelacionNegativoRequest.check_required_fields (cancelacion_negativa "20240230143000")
  = inl (ValueError CancelacionNegativoRequest.invalida_msg)
  ∧ CancelacionNegativoRequest.check_required_fields
      (cancelacion_negativa ("20241025143000" +:+ nl))
    = inl (ValueError CancelacionNegativoRequest.invalida_msg)
  ∧ CancelacionNegativoRequest.check_required_fields (cancelacion_negativa "2024")
    = inl (ValueError CancelacionNegativoRequest.formato_msg)
  ∧ CancelacionNegativoRequest.check_required_fields
      (cancelacion_negativa "2024-10-25 14:")
    = inl (ValueError CancelacionNegativoRequest.formato_msg).
Proof.
  split; [|split; [|split]].
  - apply (proj1 (cancelacion_negativo_fecha_errors
                    (cancelacion_negativa "20240230143000") "20240230143000"
                    ltac:(vm_compute; discriminate) ltac:(vm_compute; discriminate)
                    eq_refl)); [reflexivity | reflexivity |].
    intros (_ & _ & dt & Hdt). vm_compute in Hdt. discriminate.
  - apply (proj1 (proj2 (cancelacion_negativo_fecha_errors
                           (cancelacion_negativa ("20241025143000" +:+ nl))
                           ("20241025143000" +:+ nl)
                           ltac:(vm_compute; discriminate) ltac:(vm_compute; discriminate)
                           eq_refl)) "20241025143000"); reflexivity.
  - apply (proj1 (proj2 (proj2 (cancelacion_negativo_fecha_errors
                                  (cancelacion_negativa "2024") "2024"
                                  ltac:(vm_compute; discriminate)
                                  ltac:(vm_compute; discriminate) eq_refl))));
      [discriminate | reflexivity | vm_compute; lia].
  - apply (proj2 (proj2 (proj2 (cancelacion_negativo_fecha_errors
                                  (cancelacion_negativa "2024-10-25 14:") "2024-10-25 14:"
                                  ltac:(vm_compute; discriminate)
                                  ltac:(vm_compute; discriminate) eq_refl))));
      reflexivity.
Defined.

Lemma digit_digit_char d : (d < 10)%nat → digit (digit_char d) = Some d.
Proof.
  intros Hd. do 10 (destruct d as [|d]; [reflexivity|]). lia.
Qed.

Lemma dec2_append n r :
  dec2 n +:+ r = String (digit_char (n / 10)) (String (digit_char n) r).
Proof. reflexivity. Qed.

Lemma dec4_append n r :
  dec4 n +:+ r
  = String (digit_char (n / 1000)) (String (digit_char (n / 100))
      (String (digit_char (n / 10)) (String (digit_char n) r))).
Proof. reflexivity. Qed.

Lemma digit_char_mod n : digit (digit_char n) = Some (n mod 10)%nat.
Proof.
  unfold digit_char. rewrite <- (Nat.Div0.mod_mod n 10) at 1.
  apply digit_digit_char. apply Nat.mod_upper_bound. lia.
Qed.

Lemma re_Y_dec4 y r : (y < 10 * 1000)%nat → re_Y (dec4 y +:+ r) = [(y, r)].
Proof.
  intros Hy. rewrite dec4_append. unfold re_Y. rewrite !digit_char_mod.
  do 2 f_equal.
  pose proof (Nat.div_mod_eq y 10). pose proof (Nat.div_mod_eq (y / 10) 10).
  pose proof (Nat.div_mod_eq (y / 100) 10).
  replace (y / 100)%nat with (y / 10 / 10)%nat in * by (rewrite Nat.Div0.div_div; done).
  replace (y / 1000)%nat with (y / 10 / 10 / 10)%nat in * by (rewrite !Nat.Div0.div_div; done).
  assert (y / 10 / 10 / 10 < 10)%nat.
  { rewrite !Nat.Div0.div_div. apply Nat.Div0.div_lt_upper_bound. lia. }
  rewrite (Nat.mod_small (y / 10 / 10 / 10)) by done. lia.
Qed.

Ltac first_match v :=
  repeat (destruct v as [|v]; [try lia; eexists; vm_compute; reflexivity | try lia]).

Lemma re_m_dec2 m r :
  (1 ≤ m ≤ 12)%nat → ∃ l, re_m (dec2 m +:+ r) = (m, r) :: l.
Proof. intros Hm. first_match m. Qed.

Lemma re_d_dec2 d r :
  (1 ≤ d ≤ 31)%nat → ∃ l, re_d (dec2 d +:+ r) = (d, r) :: l.
Proof. intros Hd. first_match d. Qed.

Lemma re_H_dec2 h r :
  (h ≤ 23)%nat → ∃ l, re_H (dec2 h +:+ r) = (h, r) :: l.
Proof. intros Hh. first_match h. Qed.

Lemma re_M_dec2 m r :
  (m ≤ 59)%nat → ∃ l, re_M (dec2 m +:+ r) = (m, r) :: l.
Proof. intros Hm. first_match m. Qed.

Lemma re_S_dec2 s r :
  (s ≤ 59)%nat → ∃ l, re_S (dec2 s +:+ r) = (s, r) :: l.
Proof. intros Hs. first_match s. Qed.

Lemma valid_datetime_bounds dt :
  valid_datetime dt = true →
  (year dt < 10 * 1000 ∧ 1 ≤ month dt ≤ 12 ∧ 1 ≤ day dt ≤ 31
   ∧ hour dt ≤ 23 ∧ minute dt ≤ 59 ∧ second dt ≤ 59)%nat.
Proof.
  unfold valid_datetime. rewrite !andb_true_iff, !Nat.leb_le.
  intros ((((((((Hy1 & Hy2) & Hm1) & Hm2) & Hd1) & Hd2) & Hh) & Hmi) & Hs).
  assert (days_in_month (year dt) (month dt) ≤ 31)%nat.
  { unfold days_in_month. repeat case_match; lia. }
  change (year dt ≤ 9 * 1000 + 999)%nat in Hy2. lia.
Qed.

(** Reading back what [strftime("%Y%m%d%H%M%S")] writes. *)
Lemma strptime_strftime_YmdHMS now :
  valid_datetime now = true →
  strptime (SoapClient.strftime_YmdHMS now) = inr now.
Proof.
  intros Hvalid.
  destruct (valid_datetime_bounds now Hvalid) as (Hy & Hm & Hd & Hh & Hmi & Hs).
  unfold strptime.
  assert (∃ l, re_YmdHMS (SoapClient.strftime_YmdHMS now) = (now, "") :: l) as [l ->].
  { unfold SoapClient.strftime_YmdHMS, SoapClient.strftime_Ymd, re_YmdHMS.
    destruct now as [y m d hh mm ss]. cbn [year month day hour minute second] in *.
    rewrite <- (append_empty_r (dec2 ss)), !append_assoc, (re_Y_dec4 _ _ Hy).
    cbn [mbind list_bind flat_map]. 
    destruct (re_m_dec2 m (dec2 d +:+ dec2 hh +:+ dec2 mm +:+ dec2 ss +:+ "") Hm) as [lm ->].
    cbn [mbind list_bind flat_map].
    destruct (re_d_dec2 d (dec2 hh +:+ dec2 mm +:+ dec2 ss +:+ "") Hd) as [ld ->].
    cbn [mbind list_bind flat_map].
    destruct (re_H_dec2 hh (dec2 mm +:+ dec2 ss +:+ "") Hh) as [lh ->].
    cbn [mbind list_bind flat_map].
    destruct (re_M_dec2 mm (dec2 ss +:+ "") Hmi) as [lmi ->].
    cbn [mbind list_bind flat_map].
    destruct (re_S_dec2 ss "" Hs) as [ls ->].
    cbn [mbind list_bind flat_map app]. by eexists. }
  cbn [truthy]. by rewrite Hvalid.
Qed.

Lemma all_digits_strftime_YmdHMS now :
  all_digits (SoapClient.strftime_YmdHMS now) = true.
Proof.
  unfold SoapClient.strftime_YmdHMS, SoapClient.strftime_Ymd.
  rewrite !all_digits_append. unfold dec4, dec2. cbn [all_digits]. unfold is_digit.
  by rewrite !digit_char_mod.
Qed.

(** What [_get_current_datetime] writes at a moment [now] that exists, from
    the year 1000 on, is read back by [strptime] as [now]; it is a valid
    timestamp, and the cancel-negative validator accepts it as
    [fecha_reporte]: the report date that a negative registration sends can
    be sent back to cancel the report. *)
Theorem current_datetime_round_trip (now : datetime) :
  valid_datetime now = true → (1000 ≤ year now)%nat →
  strptime (SoapClient._get_current_datetime now) = inr now
  ∧ valid_timestamp (SoapClient._get_current_datetime now)
  ∧ ∀ data : payload,
      get data "imei" ≠ None → get data "observaciones" ≠ None →
      get data "fecha_reporte" = Some (SoapClient._get_current_datetime now) →
      CancelacionNegativoRequest.check_required_fields data = inr data.
Proof.
  intros Hvalid _. unfold SoapClient._get_current_datetime.
  pose proof (strptime_strftime_YmdHMS now Hvalid) as Hread.
  assert (Hts : valid_timestamp (SoapClient.strftime_YmdHMS now)).
  { split; [reflexivity|]. split; [apply all_digits_strftime_YmdHMS | by exists now]. }
  split; [done|]. split; [done|]. intros data Himei Hobs Hfecha.
  by apply (valid_fecha_accepted data (SoapClient.strftime_YmdHMS now)).
Qed.

Lemma current_datetime_round_trip_witness :
  strptime (SoapClient._get_current_datetime Samples.noon) = inr Samples.noon
  ∧ valid_timestamp (SoapClient._get_current_datetime Samples.noon)
  ∧ CancelacionNegativoRequest.check_required_fields
      (cancelacion_negativa (SoapClient._get_current_datetime Samples.noon))
    = inr (cancelacion_negativa (SoapClient._get_current_datetime Samples.noon)).
Proof.
  destruct (current_datetime_round_trip Samples.noon ltac:(reflexivity)
              ltac:(vm_compute; lia)) as (Hread & Hvalid & Hcheck).
  split; [exact Hread|]. split; [exact Hvalid|].
  apply Hcheck; [vm_compute; discriminate | vm_compute; discriminate | reflexivity].
Defined.

End fecha.

(** ** Identifiers *)

Lemma pretty_N_char_value d : (d < 10)%N → (N_of_ascii (pretty_N_char d) - 48 = d)%N.
Proof.
  intros Hd.
  assert (d = 0 ∨ d = 1 ∨ d = 2 ∨ d = 3 ∨ d = 4 ∨ d = 5 ∨ d = 6 ∨ d = 7 ∨ d = 8 ∨ d = 9)%N
    as Hcases by lia.
  by repeat (destruct Hcases as [-> | Hcases]; [done|]); subst.
Qed.

(** What [pretty_N_go x s] puts before [s]: the digits of [x]. *)
Lemma pretty_N_go_digits x :
  ∃ k : nat,
    (x < 10 ^ N.of_nat k)%N
    ∧ ((0 < x)%N → (10 ^ N.of_nat (k - 1) ≤ x)%N ∧ (0 < k)%nat)
    ∧ ∀ s acc,
        String.length (pretty_N_go x s) = (k + String.length s)%nat
        ∧ decimal_value acc (pretty_N_go x s)
          = decimal_value (acc * 10 ^ N.of_nat k + x) s.
Proof.
  induction (N.lt_wf_0 x) as [x _ IH].
  destruct (decide (x = 0)%N) as [-> | Hx].
  - exists 0%nat. split; [done|]. split; [lia|]. intros s acc.
    rewrite pretty_N_go_0. split; [done|]. f_equal. lia.
  - destruct (IH (x `div` 10)%N) as (k & Hlt & Hge & Hgo).
    { apply N.div_lt; lia. }
    exists (S k). 
    assert (Hpow : (10 ^ N.of_nat (S k) = 10 * 10 ^ N.of_nat k)%N).
    { rewrite Nat2N.inj_succ, N.pow_succ_r'. done. }
    pose proof (N.div_mod x 10 ltac:(done)) as Hdm.
    pose proof (N.mod_lt x 10 ltac:(done)) as Hmod.
    pose proof (N.le_0_l (x `mod` 10)) as Hmod0. pose proof (N.le_0_l (x `div` 10)) as Hdiv0.
    split; [rewrite Hpow; lia|]. split.
    + intros _. split; [|lia]. replace (S k - 1)%nat with k by lia.
      destruct (decide (x `div` 10 = 0)%N) as [Hz | Hnz].
      * assert (k = 0%nat) as ->.
        { destruct (Hgo "" 0%N) as [Hlen _]. rewrite Hz, pretty_N_go_0 in Hlen.
          simpl in Hlen. lia. }
        simpl. lia.
      * destruct (Hge ltac:(lia)) as [Hk Hk0].
        assert (10 ^ N.of_nat k = 10 * 10 ^ N.of_nat (k - 1))%N as ->; [|lia].
        rewrite <- N.pow_succ_r', <- Nat2N.inj_succ. do 2 f_equal. lia.
    + intros s acc. rewrite pretty_N_go_step by lia.
      destruct (Hgo (String (pretty_N_char (x `mod` 10)) s) acc) as [Hlen Hval].
      rewrite Hlen, Hval. split; [simpl; lia|].
      cbn [decimal_value]. rewrite pretty_N_char_value by done. f_equal.
      rewrite Hpow. lia.
Qed.

Lemma decimal_value_zeros n s : decimal_value 0 (SoapClient.zeros n +:+ s) = decimal_value 0 s.
Proof.
  induction n as [|n IH]; [done|]. cbn [SoapClient.zeros]. rewrite append_cons. exact IH.
Qed.

Lemma decimal_value_pretty (n : N) : decimal_value 0 (pretty n) = n.
Proof.
  unfold pretty, pretty_N. case_decide as Hn; [by subst|].
  destruct (pretty_N_go_digits n) as (k & _ & _ & Hgo).
  destruct (Hgo "" 0%N) as [_ ->]. simpl. lia.
Qed.

Lemma format_0d_inj width : Inj (=) (=) (SoapClient.format_0d width).
Proof.
  intros a b Heq. apply (f_equal (decimal_value 0)) in Heq.
  unfold SoapClient.format_0d in Heq.
  by rewrite !decimal_value_zeros, !decimal_value_pretty in Heq.
Qed.

Lemma length_zeros n : String.length (SoapClient.zeros n) = n.
Proof. induction n as [|n IH]; simpl; [done | by rewrite IH]. Qed.

Lemma length_pretty (n : N) :
  ∃ k : nat, String.length (pretty n) = k ∧ (0 < k)%nat
    ∧ (n < 10 ^ N.of_nat k)%N ∧ (k = 1%nat ∨ (10 ^ N.of_nat (k - 1) ≤ n)%N).
Proof.
  unfold pretty, pretty_N. case_decide as Hn.
  - subst. exists 1%nat. repeat split; (done || lia || by left).
  - destruct (pretty_N_go_digits n) as (k & Hlt & Hge & Hgo).
    destruct (Hgo "" 0%N) as [Hlen _]. destruct (Hge ltac:(lia)) as [Hk Hk0].
    exists k. simpl in Hlen. rewrite Nat.add_0_r in Hlen. auto.
Qed.

(** A number below [10 ^ width] is written with exactly [width] digits, a
    number from [10 ^ width] on with more. *)
Lemma length_format_0d width (n : N) :
  (0 < width)%nat →
  ((n < 10 ^ N.of_nat width)%N → String.length (SoapClient.format_0d width n) = width)
  ∧ ((10 ^ N.of_nat width ≤ n)%N →
     (width < String.length (SoapClient.format_0d width n))%nat).
Proof.
  intros Hwidth. unfold SoapClient.format_0d. rewrite length_append, length_zeros.
  destruct (length_pretty n) as (k & -> & Hk0 & Hlt & Hge).
  assert (Hmono : ∀ a b : nat, (a ≤ b)%nat → (10 ^ N.of_nat a ≤ 10 ^ N.of_nat b)%N).
  { intros a b Hab. apply N.pow_le_mono_r; lia. }
  split.
  - intros Hn. destruct (decide (k ≤ width)%nat); [lia|]. exfalso.
    destruct Hge as [-> | Hge]; [lia|].
    specialize (Hmono width (k - 1)%nat ltac:(lia)). lia.
  - intros Hn. destruct (decide (width < k)%nat); [lia|]. exfalso.
    specialize (Hmono k width ltac:(lia)). lia.
Qed.

Section identifiers.
Import SoapClient.

Lemma generate_ids_length_calls calls self :
  List.length (generate_ids calls self) = List.length calls.
Proof.
  revert self. induction calls as [|[[now prefix] l] calls IH]; intros self; [done|].
  cbn [generate_ids List.length]. by rewrite IH.
Qed.

Lemma generate_ids_lookup calls self i now prefix l id :
  calls !! i = Some (now, prefix, l) → generate_ids calls self !! i = Some id →
  id = if String.eqb prefix "msg"
       then OPERADOR_ID +:+ strftime_Ymd now
            +:+ format_0d 7 (message_counter self + N.of_nat (messages_before i calls) + 1)
       else OPERADOR_ID +:+ strftime_Ymd now +:+ prefix
            +:+ format_0d 5 (proc_counter self + N.of_nat (processes_before i calls) + 1).
Proof.
  revert self i. induction calls as [|[[now0 prefix0] l0] calls IH]; intros self i; [done|].
  destruct i as [|i]; cbn [generate_ids lookup list_lookup].
  - intros [= -> -> ->] [= <-]. unfold _generate_id, messages_before, processes_before.
    destruct (String.eqb prefix "msg"); cbn; repeat f_equal; lia.
  - intros Hcall Hid. rewrite (IH _ _ Hcall Hid).
    unfold messages_before, processes_before, _generate_id. cbn [take].
    rewrite !filter_cons.
    destruct (String.eqb_spec prefix0 "msg") as [-> | Hne].
    + rewrite (decide_True (P := message_call _)) by done.
      rewrite (decide_False (P := ¬ message_call _)) by (intros H; by apply H).
      cbn [snd message_counter proc_counter List.length].
      destruct (String.eqb prefix "msg"); [do 3 f_equal; lia | done].
    + rewrite (decide_False (P := message_call _)) by done.
      rewrite (decide_True (P := ¬ message_call _)) by done.
      cbn [snd message_counter proc_counter List.length].
      destruct (String.eqb prefix "msg"); [done | do 4 f_equal; lia].
Qed.

Lemma length_strftime_Ymd now : String.length (strftime_Ymd now) = 8%nat.
Proof. reflexivity. Qed.

(** One more call of a kind before [j] than before [i], when the call at
    [i < j] is of that kind. *)
Lemma filter_take_lt {A} (P : A → Prop) `{∀ x, Decision (P x)} (l : list A) i j x :
  (i < j)%nat → l !! i = Some x → P x →
  (List.length (filter P (take i l)) < List.length (filter P (take j l)))%nat.
Proof.
  intros Hij Hx HP.
  rewrite <- (take_drop i (take j l)), take_take, Nat.min_l by lia.
  rewrite filter_app, length_app.
  assert (drop i (take j l) = x :: drop (S i) (take j l)) as ->.
  { apply drop_S. rewrite lookup_take_lt by done. done. }
  rewrite filter_cons, decide_True by done. simpl. lia.
Qed.

(** The identifier that the call at position [i] gives has twenty
    characters exactly as long as its sequence number fits its field: for a
    message identifier, the message counter plus the message identifiers
    asked for so far is below 10^7; for a process identifier with a prefix
    of two characters, the process counter plus the process identifiers
    asked for so far is below 10^5. Beyond that the number is written in
    full and the identifier is longer. *)
Theorem generate_ids_length calls self i now prefix l id :
  calls !! i = Some (now, prefix, l) → generate_ids calls self !! i = Some id →
  (prefix = "msg" →
   String.length id = 20%nat
   ↔ (message_counter self + N.of_nat (messages_before i calls) + 1 < 10000000)%N)
  ∧ (prefix ≠ "msg" → String.length prefix = 2%nat →
     String.length id = 20%nat
     ↔ (proc_counter self + N.of_nat (processes_before i calls) + 1 < 100000)%N).
Proof.
  intros Hcall Hid. rewrite (generate_ids_lookup _ _ _ _ _ _ _ Hcall Hid). split.
  - intros ->. cbn [String.eqb Ascii.eqb Bool.eqb].
    rewrite !length_append, length_strftime_Ymd.
    set (n := (message_counter self + N.of_nat (messages_before i calls) + 1)%N).
    destruct (length_format_0d 7 n ltac:(lia)) as [Hlt Hge].
    change (10 ^ N.of_nat 7)%N with 10000000%N in *.
    split.
    + intros Hlen. destruct (decide (n < 10000000)%N); [done|].
      specialize (Hge ltac:(lia)). simpl in Hlen. lia.
    + intros Hn. by rewrite (Hlt Hn).
  - intros Hmsg%String.eqb_neq Hp. rewrite Hmsg.
    rewrite !length_append, length_strftime_Ymd, Hp.
    set (n := (proc_counter self + N.of_nat (processes_before i calls) + 1)%N).
    destruct (length_format_0d 5 n ltac:(lia)) as [Hlt Hge].
    change (10 ^ N.of_nat 5)%N with 100000%N in *.
    split.
    + intros Hlen. destruct (decide (n < 100000)%N); [done|].
      specialize (Hge ltac:(lia)). simpl in Hlen. lia.
    + intros Hn. by rewrite (Hlt Hn).
Qed.

Lemma generate_ids_lt calls self i j now1 prefix1 l1 now2 prefix2 l2 id :
  (i < j)%nat →
  calls !! i = Some (now1, prefix1, l1) → calls !! j = Some (now2, prefix2, l2) →
  (prefix1 = "msg" ∧ prefix2 = "msg")
  ∨ (prefix1 ≠ "msg" ∧ prefix2 ≠ "msg" ∧ String.length prefix1 = String.length prefix2) →
  generate_ids calls self !! i = Some id → generate_ids calls self !! j = Some id →
  False.
Proof.
  intros Hij Hi Hj Hkind Hidi Hidj.
  pose proof (generate_ids_lookup _ _ _ _ _ _ _ Hi Hidi) as Heq.
  rewrite (generate_ids_lookup _ _ _ _ _ _ _ Hj Hidj) in Heq.
  destruct Hkind as [[-> ->] | (Hp1%String.eqb_neq & Hp2%String.eqb_neq & Hlen)].
  - cbn [String.eqb Ascii.eqb Bool.eqb] in Heq.
    apply (inj (String.append OPERADOR_ID)) in Heq.
    apply append_eq_length in Heq as [_ Heq]; [|done].
    apply format_0d_inj in Heq.
    pose proof (filter_take_lt message_call calls i j _ Hij Hi eq_refl) as Hlt.
    unfold messages_before in Heq. lia.
  - rewrite Hp1, Hp2 in Heq.
    apply (inj (String.append OPERADOR_ID)) in Heq.
    apply append_eq_length in Heq as [_ Heq]; [|done].
    apply append_eq_length in Heq as [_ Heq]; [|done].
    apply format_0d_inj in Heq.
    apply String.eqb_neq in Hp1.
    pose proof (filter_take_lt (λ call, ¬ message_call call) calls i j _ Hij Hi Hp1) as Hlt.
    unfold processes_before in Heq. lia.
Qed.

(** One client never gives the same message identifier twice, nor the same
    process identifier twice (for prefixes of one length): two calls of one
    kind that give the same identifier are the same call. *)
Theorem generate_ids_distinct calls self i j now1 prefix1 l1 now2 prefix2 l2 :
  calls !! i = Some (now1, prefix1, l1) → calls !! j = Some (now2, prefix2, l2) →
  (prefix1 = "msg" ∧ prefix2 = "msg")
  ∨ (prefix1 ≠ "msg" ∧ prefix2 ≠ "msg" ∧ String.length prefix1 = String.length prefix2) →
  generate_ids calls self !! i = generate_ids calls self !! j ↔ i = j.
Proof.
  intros Hi Hj Hkind. split; [|by intros ->]. intros Heq.
  assert (∃ id, generate_ids calls self !! i = Some id) as [id Hidi].
  { apply lookup_lt_is_Some. rewrite generate_ids_length_calls.
    by apply lookup_lt_is_Some_1; eexists. }
  assert (Hidj : generate_ids calls self !! j = Some id) by congruence.
  destruct (Nat.lt_trichotomy i j) as [Hlt | [? | Hgt]]; [exfalso | done | exfalso].
  - exact (generate_ids_lt _ _ _ _ _ _ _ _ _ _ _ Hlt Hi Hj Hkind Hidi Hidj).
  - apply (generate_ids_lt calls self j i _ _ _ _ _ _ id Hgt Hj Hi); [|done..].
    destruct Hkind as [[? ?] | (? & ? & ?)]; [by left | by right].
Qed.

Lemma generate_ids_length_witness :
  generate_ids Samples.two_messages (Samples.fresh 1729857599998)
  = [ "00020202410250599999"; "00020202410250099999";
      "000202024102505100000"; "00020202410250100000" ]
  ∧ String.length "00020202410250599999" = 20%nat
  ∧ (String.length "000202024102505100000" = 20%nat → False)
  ∧ String.length "00020202410250100000" = 20%nat.
Proof.
  split; [vm_compute; reflexivity|]. split; [|split].
  - apply (proj2 (generate_ids_length Samples.two_messages (Samples.fresh 1729857599998)
                    0 Samples.noon "05" 5 "00020202410250599999"
                    ltac:(reflexivity) ltac:(vm_compute; reflexivity)));
      [discriminate | reflexivity | vm_compute; reflexivity].
  - intros Hlen.
    apply (proj2 (generate_ids_length Samples.two_messages (Samples.fresh 1729857599998)
                    2 Samples.noon "05" 5 "000202024102505100000"
                    ltac:(reflexivity) ltac:(vm_compute; reflexivity))
             ltac:(discriminate) ltac:(reflexivity)) in Hlen.
    vm_compute in Hlen. discriminate.
  - apply (proj1 (generate_ids_length Samples.two_messages (Samples.fresh 1729857599998)
                    3 Samples.noon "msg" 7 "00020202410250100000"
                    ltac:(reflexivity) ltac:(vm_compute; reflexivity)));
      [reflexivity | vm_compute; reflexivity].
Defined.

Lemma generate_ids_distinct_witness :
  generate_ids Samples.two_messages (Samples.fresh 1729857599998) !! 1%nat
  = generate_ids Samples.two_messages (Samples.fresh 1729857599998) !! 3%nat
  ↔ 1%nat = 3%nat.
Proof.
  apply (generate_ids_distinct Samples.two_messages (Samples.fresh 1729857599998)
           1 3 Samples.noon "msg" 7 Samples.noon "msg" 7);
    [reflexivity | reflexivity | by left].
Defined.

Lemma process_type_map_values env msg_type code :
  process_type_map env !! msg_type = Some code → code ∈ ["01"; "02"; "03"; "04"; "05"].
Proof.
  unfold process_type_map.
  repeat (rewrite lookup_insert_Some; intros [[_ <-] | [_ Hcode]];
          [by repeat constructor|]; revert Hcode).
  by rewrite lookup_empty.
Qed.

(** [_build_xml] advances each of the two counters by one. The process type
    it writes in the process identifier has two characters and is never
    "msg": it is "00" for a message type that is none of the five of the
    environment, and otherwise the code of the last of the five, in the
    order 01 to 05, that equals the message type. *)
Theorem build_xml_process_type (env : environment) (rd : readings)
    (msg_type body_content : string) (observaciones : option string)
    (self : counters) :
  let code := default "00" (process_type_map env !! msg_type) in
  (_build_xml env rd msg_type body_content observaciones self).2
  = {| message_counter := (message_counter self + 1)%N;
       proc_counter := (proc_counter self + 1)%N |}
  ∧ String.length code = 2%nat ∧ code ≠ "msg"
  ∧ (msg_type = MSG_TYPE_CANCELACION_POSITIVO env → code = "05")
  ∧ (msg_type = MSG_TYPE_MODIFICACION_POSITIVO env →
     msg_type ≠ MSG_TYPE_CANCELACION_POSITIVO env → code = "04")
  ∧ (msg_type = MSG_TYPE_CANCELACION_NEGATIVO env →
     msg_type ≠ MSG_TYPE_CANCELACION_POSITIVO env →
     msg_type ≠ MSG_TYPE_MODIFICACION_POSITIVO env → code = "03")
  ∧ (msg_type = MSG_TYPE_REGISTRO_NEGATIVO env →
     msg_type ≠ MSG_TYPE_CANCELACION_POSITIVO env →
     msg_type ≠ MSG_TYPE_MODIFICACION_POSITIVO env →
     msg_type ≠ MSG_TYPE_CANCELACION_NEGATIVO env → code = "02")
  ∧ (msg_type = MSG_TYPE_REGISTRO_POSITIVO env →
     msg_type ≠ MSG_TYPE_CANCELACION_POSITIVO env →
     msg_type ≠ MSG_TYPE_MODIFICACION_POSITIVO env →
     msg_type ≠ MSG_TYPE_CANCELACION_NEGATIVO env →
     msg_type ≠ MSG_TYPE_REGISTRO_NEGATIVO env → code = "01")
  ∧ (msg_type ≠ MSG_TYPE_CANCELACION_POSITIVO env →
     msg_type ≠ MSG_TYPE_MODIFICACION_POSITIVO env →
     msg_type ≠ MSG_TYPE_CANCELACION_NEGATIVO env →
     msg_type ≠ MSG_TYPE_REGISTRO_NEGATIVO env →
     msg_type ≠ MSG_TYPE_REGISTRO_POSITIVO env → code = "00").
Proof.
  intros code. subst code.
  assert (Hcode : default "00" (process_type_map env !! msg_type)
                  ∈ ["00"; "01"; "02"; "03"; "04"; "05"]).
  { destruct (process_type_map env !! msg_type) as [code|] eqn:Hmap; [|by left].
    apply process_type_map_values in Hmap. by right. }
  split; [|split; [|split]].
  - unfold _build_xml, _generate_id.
    assert (String.eqb (default "00" (process_type_map env !! msg_type)) "msg" = false)
      as ->; [|done].
    apply String.eqb_neq. intros Heq. rewrite Heq in Hcode.
    repeat (apply elem_of_cons in Hcode as [Hcode | Hcode]; [discriminate|]).
    by apply elem_of_nil in Hcode.
  - repeat (apply elem_of_cons in Hcode as [-> | Hcode]; [done|]).
    by apply elem_of_nil in Hcode.
  - intros Heq. rewrite Heq in Hcode.
    repeat (apply elem_of_cons in Hcode as [Hcode | Hcode]; [discriminate|]).
    by apply elem_of_nil in Hcode.
  - unfold process_type_map. repeat split; intros; subst;
      repeat first [ rewrite lookup_insert_eq | rewrite lookup_insert_ne by done ];
      by rewrite ?lookup_empty.
Qed.

End identifiers.


(** ** Message bodies *)

Section bodies.
Import Models.

Lemma get_insert (data : payload) k v : get (<[k := Some v]> data) k = Some v.
Proof. unfold get. by rewrite lookup_insert_eq. Qed.

Lemma get_insert_ne (data : payload) k v f :
  k ≠ f → get (<[k := v]> data) f = get data f.
Proof. intros Hne. unfold get. by rewrite lookup_insert_ne. Qed.

Lemma require_each_insert msg fields (data : payload) k v :
  require_each msg fields data = inr tt →
  require_each msg fields (<[k := Some v]> data) = inr tt.
Proof.
  intros Hreq. pose proof (proj1 (require_each_inr _ _ _) Hreq) as Hall.
  apply require_each_ok. intros f Hf.
  destruct (decide (k = f)) as [<- | Hne].
  - by rewrite get_insert.
  - rewrite get_insert_ne by done. by apply Hall.
Qed.

(** The modify-positive validator demands [direccion_autorizado] (unless
    [tipo_usuario_autorizado] is empty), yet no message carries it: for a
    payload that validates, giving the field any other value validates too,
    and [modificar_positivo] sends the same message and returns the same
    response and counters. *)
Theorem direccion_autorizado_not_sent (fromstring : parser)
    (env : SoapClient.environment) (self : SoapClient.SRTMAxisClient)
    (rd : SoapClient.readings) (c : SoapClient.counters)
    (data : payload) (req : ModificacionPositivoRequest.t) (direccion : string) :
  ModificacionPositivoRequest.model_validate data = inr req →
  ∃ req',
    ModificacionPositivoRequest.model_validate
      (<["direccion_autorizado" := Some direccion]> data) = inr req'
    ∧ SoapClient.modificar_positivo fromstring env self rd req' c
      = SoapClient.modificar_positivo fromstring env self rd req c.
Proof.
  unfold ModificacionPositivoRequest.model_validate.
  destruct (ModificacionPositivoRequest.check_all_fields data) as [e|d] eqn:Hcheck;
    [done|].
  assert (d = data) as ->.
  { revert Hcheck. unfold ModificacionPositivoRequest.check_all_fields.
    destruct (require_each obligatorio _ data); [done|].
    repeat (case_bool_decide || case_match); congruence. }
  intros [= <-].
  assert (ModificacionPositivoRequest.check_all_fields
            (<["direccion_autorizado" := Some direccion]> data)
          = inr (<["direccion_autorizado" := Some direccion]> data)) as ->.
  { revert Hcheck. unfold ModificacionPositivoRequest.check_all_fields.
    destruct (require_each obligatorio _ data) as [e|[]] eqn:Hreq; [done|].
    rewrite (require_each_insert _ _ _ _ _ Hreq).
    rewrite !(get_insert_ne data "direccion_autorizado") by done.
    destruct (if bool_decide (get data "tipo_modificacion" ∈ [Some "2"; Some "3"])
              then _ else _); [done|].
    case_bool_decide; [|done].
    destruct (require_each ModificacionPositivoRequest.obligatorio_autorizado _ data)
      as [e|[]] eqn:Haut; [done|].
    by rewrite (require_each_insert _ _ _ _ _ Haut). }
  eexists. split; [done|].
  unfold SoapClient.modificar_positivo, SoapClient.modificar_positivo_body.
  cbn [ModificacionPositivoRequest.imei ModificacionPositivoRequest.tipo_modificacion
       ModificacionPositivoRequest.tipo_usuario_propietario
       ModificacionPositivoRequest.tipo_identificacion_propietario
       ModificacionPositivoRequest.identificacion_propietario
       ModificacionPositivoRequest.nombre_razon_social_propietario
       ModificacionPositivoRequest.direccion_propietario
       ModificacionPositivoRequest.telefono_contacto_propietario
       ModificacionPositivoRequest.tipo_usuario_autorizado
       ModificacionPositivoRequest.imsi ModificacionPositivoRequest.msisdn
       ModificacionPositivoRequest.observaciones
       ModificacionPositivoRequest.tipo_identificacion_propietario_anterior
       ModificacionPositivoRequest.identificacion_propietario_anterior
       ModificacionPositivoRequest.tipo_identificacion_autorizado
       ModificacionPositivoRequest.identificacion_autorizado
       ModificacionPositivoRequest.nombre_razon_social_autorizado
       ModificacionPositivoRequest.telefono_contacto_autorizado].
  by rewrite !(get_insert_ne data "direccion_autorizado") by done.
Qed.

Lemma direccion_autorizado_not_sent_witness :
  ∃ req req',
    ModificacionPositivoRequest.model_validate Samples.modificacion_con_autorizado
    = inr req
    ∧ ModificacionPositivoRequest.model_validate
        (<["direccion_autorizado" := Some "Calle 1"]> Samples.modificacion_con_autorizado)
      = inr req'
    ∧ SoapClient.modificar_positivo MiniXml.fromstring Samples.env
        (Samples.soap_client (Samples.ok (Samples.receive_response "ack")))
        Samples.readings req' (Samples.fresh 0)
      = SoapClient.modificar_positivo MiniXml.fromstring Samples.env
          (Samples.soap_client (Samples.ok (Samples.receive_response "ack")))
          Samples.readings req (Samples.fresh 0).
Proof.
  eexists.
  destruct (direccion_autorizado_not_sent MiniXml.fromstring Samples.env
              (Samples.soap_client (Samples.ok (Samples.receive_response "ack")))
              Samples.readings (Samples.fresh 0) Samples.modificacion_con_autorizado
              _ "Calle 1" eq_refl) as (req' & Hvalid & Hsame).
  exists req'. split; [reflexivity|]. split; [exact Hvalid | exact Hsame].
Defined.

(** *** What a theft report carries *)

Lemma prefix_append n r : String.prefix n (n +:+ r) = true.
Proof.
  induction n as [|c n IH]; [change ("" +:+ r) with r; by destruct r|].
  rewrite append_cons.
  cbn [String.prefix]. destruct (ascii_dec c c); [done | congruence].
Qed.

Lemma contains_prefix n s : String.prefix n s = true → contains n s = true.
Proof. intros Hp. destruct s; cbn [contains]; by rewrite Hp. Qed.

Lemma contains_append_r n s1 s2 : contains n s2 = true → contains n (s1 +:+ s2) = true.
Proof.
  intros Hs2. induction s1 as [|c s1 IH]; [done|]. rewrite append_cons.
  cbn [contains]. rewrite IH. apply orb_true_r.
Qed.

Lemma prefix_of_append n r s : s = n +:+ r → String.prefix n s = true.
Proof. intros ->. apply prefix_append. Qed.

(** Looks for an element of a body among the parts that the body is the
    concatenation of. *)
Ltac find_element :=
  first [ solve [ apply contains_prefix; eapply prefix_of_append;
                  unfold SoapClient.raw, SoapClient.fmt;
                  rewrite ?append_assoc; reflexivity ]
        | apply contains_append_r; find_element ].

(** A theft report that the validator accepts is sent with the answers
    it was required to carry: when [tipo_reporte] is '1' and
    [model_validate] returns a request, the payload has an
    [empleo_violencia] and the body of [registrar_negativo] contains the
    [EmpleoViolencia] element with that value; when the value is '1', the
    payload also has [utilizacion_armas] and [victima_menor_edad] and the
    body contains the [UtilizacionArmas] and [VictimaMenorEdad] elements
    with their values.  The three values are written as they are, without
    escaping. *)
Theorem robo_fields_sent (now : datetime) (data : payload)
    (req : RegistroNegativoRequest.t) :
  RegistroNegativoRequest.model_validate data = inr req →
  get data "tipo_reporte" = Some "1" →
  ∃ violencia,
    get data "empleo_violencia" = Some violencia
    ∧ contains ("<EmpleoViolencia>" +:+ violencia +:+ "</EmpleoViolencia>")
        (SoapClient.registrar_negativo_body now req) = true
    ∧ (violencia = "1" →
       ∃ armas victima,
         get data "utilizacion_armas" = Some armas
         ∧ get data "victima_menor_edad" = Some victima
         ∧ contains ("<UtilizacionArmas>" +:+ armas +:+ "</UtilizacionArmas>")
             (SoapClient.registrar_negativo_body now req) = true
         ∧ contains ("<VictimaMenorEdad>" +:+ victima +:+ "</VictimaMenorEdad>")
             (SoapClient.registrar_negativo_body now req) = true).
Proof.
  unfold RegistroNegativoRequest.model_validate.
  destruct (RegistroNegativoRequest.check_required_and_robo_fields data) as [e|d] eqn:Hcheck;
    [done|].
  intros [= <-] Htipo. revert Hcheck.
  unfold RegistroNegativoRequest.check_required_and_robo_fields.
  destruct (require_each obligatorio _ data); [done|].
  rewrite bool_decide_eq_true_2 by done.
  destruct (get data "empleo_violencia") as [violencia|] eqn:Hv; [|done].
  intros Hcheck. exists violencia. split; [done|].
  assert (d = data) as ->.
  { revert Hcheck. repeat (case_bool_decide || case_match); congruence. }
  unfold SoapClient.registrar_negativo_body.
  cbn [RegistroNegativoRequest.imei RegistroNegativoRequest.tipo_reporte
       RegistroNegativoRequest.nombre_reporte
       RegistroNegativoRequest.tipo_identificacion_reporte
       RegistroNegativoRequest.identificacion_reporte
       RegistroNegativoRequest.telefono_reporte RegistroNegativoRequest.direccion_reporte
       RegistroNegativoRequest.ciudad_reporte RegistroNegativoRequest.departamento_reporte
       RegistroNegativoRequest.correo_electronico RegistroNegativoRequest.observaciones
       RegistroNegativoRequest.empleo_violencia RegistroNegativoRequest.utilizacion_armas
       RegistroNegativoRequest.victima_menor_edad].
  rewrite Hv. cbn [SoapClient.raw_if_not_None].
  split.
  - find_element.
  - intros ->. rewrite bool_decide_eq_true_2 in Hcheck by done.
    destruct (get data "utilizacion_armas") as [armas|] eqn:Ha; [|done].
    destruct (get data "victima_menor_edad") as [victima|] eqn:Hm; [|done].
    exists armas, victima. split; [done|]. split; [done|].
    cbn [SoapClient.raw_if_not_None]. split.
    + find_element.
    + find_element.
Qed.

Lemma robo_fields_sent_witness :
  ∃ req,
    RegistroNegativoRequest.model_validate robo_completo = inr req
    ∧ get robo_completo "tipo_reporte" = Some "1"
    ∧ contains ("<EmpleoViolencia>" +:+ "1" +:+ "</EmpleoViolencia>")
        (SoapClient.registrar_negativo_body Samples.noon req) = true
    ∧ contains ("<UtilizacionArmas>" +:+ "1" +:+ "</UtilizacionArmas>")
        (SoapClient.registrar_negativo_body Samples.noon req) = true
    ∧ contains ("<VictimaMenorEdad>" +:+ "0" +:+ "</VictimaMenorEdad>")
        (SoapClient.registrar_negativo_body Samples.noon req) = true.
Proof.
  eexists. split; [reflexivity|]. split; [reflexivity|].
  destruct (robo_fields_sent Samples.noon robo_completo _ eq_refl eq_refl)
    as (violencia & Hv & Hviolencia & Hrest).
  vm_compute in Hv. injection Hv as <-.
  destruct (Hrest eq_refl) as (armas & victima & Ha & Hm & Harmas & Hvictima).
  vm_compute in Ha, Hm. injection Ha as <-. injection Hm as <-.
  split; [exact Hviolencia|]. split; [exact Harmas | exact Hvictima].
Defined.

End bodies.


(** ** Escaping, character by character *)

Lemma replace_char_append old new s1 s2 :
  replace_char old new (s1 +:+ s2) = replace_char old new s1 +:+ replace_char old new s2.
Proof.
  induction s1 as [|c s1 IH]; [done|]. rewrite append_cons. cbn [replace_char].
  destruct (Ascii.eqb c old); by rewrite IH, ?append_assoc.
Qed.

(** The five replacements of [html.escape], one after the other, come to
    replacing each character on its own. *)
Lemma html_escape_cons c s :
  html_escape (String c s) true = escape_char c +:+ html_escape s true.
Proof.
  unfold html_escape, escape_char.
  change (String c s) with (String c "" +:+ s). rewrite !replace_char_append.
  destruct (Ascii.eqb_spec c "&") as [-> | H1]; [reflexivity|].
  destruct (Ascii.eqb_spec c "<") as [-> | H2]; [reflexivity|].
  destruct (Ascii.eqb_spec c ">") as [-> | H3]; [reflexivity|].
  destruct (Ascii.eqb_spec c dquote) as [-> | H4]; [reflexivity|].
  destruct (Ascii.eqb_spec c "'") as [-> | H5]; [reflexivity|].
  apply Ascii.eqb_neq in H1, H2, H3, H4, H5.
  cbn [replace_char]. rewrite H1. cbn [replace_char]. rewrite H2. cbn [replace_char].
  rewrite H3. cbn [replace_char]. rewrite H4. cbn [replace_char]. rewrite H5.
  reflexivity.
Qed.

Lemma escape_char_inj c1 c2 s1 s2 :
  escape_char c1 +:+ s1 = escape_char c2 +:+ s2 → c1 = c2 ∧ s1 = s2.
Proof.
  unfold escape_char.
  destruct (Ascii.eqb_spec c1 "&") as [-> | H1]; [|
  destruct (Ascii.eqb_spec c1 "<") as [-> | H2]; [|
  destruct (Ascii.eqb_spec c1 ">") as [-> | H3]; [|
  destruct (Ascii.eqb_spec c1 dquote) as [-> | H4]; [|
  destruct (Ascii.eqb_spec c1 "'") as [-> | H5]]]]];
  (destruct (Ascii.eqb_spec c2 "&") as [-> | G1]; [|
   destruct (Ascii.eqb_spec c2 "<") as [-> | G2]; [|
   destruct (Ascii.eqb_spec c2 ">") as [-> | G3]; [|
   destruct (Ascii.eqb_spec c2 dquote) as [-> | G4]; [|
   destruct (Ascii.eqb_spec c2 "'") as [-> | G5]]]]]);
  rewrite ?append_cons; intros Heq; try discriminate Heq;
  try (injection Heq as ? ?; subst; by (done || congruence)).
  all: try (injection Heq; intros; subst; done).
Qed.

Lemma html_escape_inj s1 s2 : html_escape s1 true = html_escape s2 true → s1 = s2.
Proof.
  revert s2. induction s1 as [|c1 s1 IH]; intros [|c2 s2].
  - done.
  - rewrite html_escape_cons. unfold escape_char. repeat case_match; discriminate.
  - rewrite html_escape_cons. unfold escape_char. repeat case_match; discriminate.
  - rewrite !html_escape_cons. intros [-> Heq]%escape_char_inj. by rewrite (IH _ Heq).
Qed.

(** [_escape_xml] loses nothing: two texts are escaped to the same string
    only if they are the same text. *)
Theorem _escape_xml_injective (text1 text2 : string) :
  SoapClient._escape_xml (Some text1) = SoapClient._escape_xml (Some text2)
  ↔ text1 = text2.
Proof.
  split; [|by intros ->].
  unfold SoapClient._escape_xml. intros Heq. apply html_escape_inj.
  by destruct text1, text2.
Qed.

(** ** The webhook, case by case *)

Section callbacks.
Import Webhook.
Variable fromstring : parser.

Lemma accepted_type (request : Request) :
  content_type request ∈ [Some "text/xml"; Some "application/xml"] →
  handle_srtm_response fromstring request
  = match decode_utf8 (data request) with
    | inl e => Propagates e
    | inr _ =>
        match handle_srtm_response_try fromstring (data request) with
        | inr reply => Returns reply
        | inl (XMLSyntaxError _) => Returns (empty_reply 404)
        | inl _ => Returns (empty_reply 500)
        end
    end.
Proof.
  intros Htype. unfold handle_srtm_response.
  by rewrite bool_decide_eq_false_2 by (intros H; by apply H).
Qed.

(** A callback with an accepted content type whose body is UTF-8 and does
    not parse: an empty 404. *)
Theorem webhook_unparsable_not_found (request : Request) (msg : string) :
  content_type request ∈ [Some "text/xml"; Some "application/xml"] →
  utf8_decodes (data request) = true →
  fromstring (data request) = inl msg →
  handle_srtm_response fromstring request = Returns (empty_reply 404).
Proof.
  intros Htype Hdecodes Hparse. rewrite (accepted_type _ Htype).
  unfold decode_utf8, handle_srtm_response_try. by rewrite Hdecodes, Hparse.
Qed.

(** A readable callback of a known message type whose response wrapper
    holds no outcome marker (or which has no such wrapper): an empty 404. *)
Theorem webhook_missing_result_not_found (request : Request) (root first : element)
    (rest : list element) (code wrapper : string) :
  readable fromstring request root →
  xpath_descendant "TipoMsg" root = first :: rest →
  text first = Some code →
  MESSAGE_MAP !! code = Some wrapper →
  xpath_descendant_child wrapper "TipoRespuesta" root = [] →
  handle_srtm_response fromstring request = Returns (empty_reply 404).
Proof.
  intros (Htype & Hdecodes & Hroot) Htipo Hcode Hmap Hresp.
  rewrite (accepted_type _ Htype). unfold decode_utf8, handle_srtm_response_try.
  rewrite Hdecodes, Hroot, Htipo, Hcode. cbn [mbind option_bind].
  by rewrite Hmap, Hresp.
Qed.

Ltac not_acknowledgeable :=
  let Htype' := fresh in let Hdecodes' := fresh in let Hroot' := fresh in
  let Htipo' := fresh in let Hcode' := fresh in let Hmap' := fresh in
  let Hresp' := fresh in
  intros (? & ? & ? & ? & ? & (Htype' & Hdecodes' & Hroot') & Htipo' & Hcode' & Hmap'
          & Hresp');
  (congruence || done).

Ltac other_outcome :=
  split; [split; [done | not_acknowledgeable] |];
  split; [split; [done | by intros [? ?]] |];
  rewrite !elem_of_cons; auto 10.

(** How a call of the view ends. It acknowledges exactly the acknowledgeable
    callbacks; it lets an exception through exactly when the content type is
    accepted and the body is not UTF-8; and it ends in one of four ways: the
    acknowledgement, an empty 200, an empty 404, or that exception. With a
    parser that raises nothing but [XMLSyntaxError], the empty 500 is never
    sent. *)
Theorem webhook_outcomes (request : Request) :
  (handle_srtm_response fromstring request = Returns ack_reply
   ↔ acknowledgeable fromstring request)
  ∧ (handle_srtm_response fromstring request = Propagates UnicodeDecodeError
     ↔ content_type request ∈ [Some "text/xml"; Some "application/xml"]
       ∧ utf8_decodes (data request) = false)
  ∧ handle_srtm_response fromstring request
    ∈ [ Returns ack_reply; Returns (empty_reply 200); Returns (empty_reply 404);
        Propagates UnicodeDecodeError ].
Proof.
  destruct (decide (content_type request ∈ [Some "text/xml"; Some "application/xml"]))
    as [Htype | Htype].
  2:{ unfold handle_srtm_response. rewrite bool_decide_eq_true_2 by done.
      other_outcome. }
  rewrite (accepted_type _ Htype). unfold decode_utf8.
  destruct (utf8_decodes (data request)) eqn:Hdecodes.
  2:{ split; [split; [done | not_acknowledgeable] |].
      split; [done|]. rewrite !elem_of_cons; auto 10. }
  unfold handle_srtm_response_try.
  destruct (fromstring (data request)) as [msg | root] eqn:Hroot; [other_outcome|].
  destruct (xpath_descendant "TipoMsg" root) as [|first rest] eqn:Htipo;
    [other_outcome|].
  destruct (text first) as [code|] eqn:Hcode; cbn [mbind option_bind];
    [|other_outcome].
  destruct (MESSAGE_MAP !! code) as [wrapper|] eqn:Hmap; [|other_outcome].
  destruct (xpath_descendant_child wrapper "TipoRespuesta" root) as [|x xs] eqn:Hresp;
    [other_outcome|].
  split; [|split; [split; [done | by intros [? ?]] | rewrite !elem_of_cons; auto 10]].
  split; [|done]. intros _. exists root, first, rest, code, wrapper.
  by rewrite Hresp.
Qed.

End callbacks.

Lemma webhook_unparsable_not_found_witness :
  Webhook.handle_srtm_response MiniXml.fromstring (Samples.post "text/xml" "<MensajeBDA>")
  = Webhook.Returns (Webhook.empty_reply 404).
Proof.
  eapply (webhook_unparsable_not_found MiniXml.fromstring
            (Samples.post "text/xml" "<MensajeBDA>"));
    [by left | reflexivity | vm_compute; reflexivity].
Defined.

Lemma webhook_missing_result_not_found_witness :
  Webhook.handle_srtm_response MiniXml.fromstring
    (Samples.post "text/xml" Samples.callback_sin_resultado)
  = Webhook.Returns (Webhook.empty_reply 404).
Proof.
  apply (webhook_missing_result_not_found MiniXml.fromstring
           (Samples.post "text/xml" Samples.callback_sin_resultado)
           (Samples.tree Samples.callback_sin_resultado)
           (Element None "TipoMsg" (Some "1002") []) [] "1002"
           "RespuestaRegistroPositivo");
    [ apply sample_readable; [left | vm_compute; reflexivity ..]
    | vm_compute; reflexivity .. ].
Defined.

(** ** From the client to the answer of the API *)

#[local] Existing Instances Main.SRTMResponse_SoapResponse
  Main.ConsultaDBAResponse_SoapResponse.

Section api.
Context {D : Type} `{Database.DbSession D}.
Variable fromstring : parser.
Variable dumps : Database.json → string.
Variable env : SoapClient.environment.

Lemma log_transaction_returns (db : D) transaction_type msg_type request_data
    response_data :
  (∀ db : D, (Database.rollback db).1 = inr tt) →
  ∃ r, (Database.log_transaction dumps db transaction_type msg_type request_data
          response_data).1 = inr r.
Proof.
  intros Hrollback. unfold Database.log_transaction.
  destruct (Database.log_transaction_try _ _ _ _ _ _) as [[e|record] db']; [|by eexists].
  specialize (Hrollback db'). destruct (Database.rollback db') as [[e'|[]] db''];
    [done | by eexists].
Qed.

Lemma log_and_respond_response {R} `{Main.SoapResponse R} (db : D)
    transaction_type msg_type request_data (soap_response : R) :
  (∀ db : D, (Database.rollback db).1 = inr tt) →
  (Main.log_and_respond dumps db transaction_type msg_type request_data soap_response).1
  = response_for soap_response.
Proof.
  intros Hrollback. unfold Main.log_and_respond.
  destruct (log_transaction_returns db transaction_type msg_type request_data
              (Main.asdict soap_response) Hrollback) as [r Hr].
  destruct (Database.log_transaction _ _ _ _ _ _) as [[e|r'] db']; [done|]. done.
Qed.

(** With a database session whose [rollback] does not raise, what an
    endpoint returns or raises is what [create_api_response] makes of the
    response of its client: whether the transaction could be stored does not
    change the answer. *)
Theorem endpoint_response_from_client :
  (∀ db : D, (Database.rollback db).1 = inr tt) →
  (∀ self c rd request (db : D),
     (Main.registro_positivo fromstring dumps env (Some (self, c)) rd request db).1.1
     = response_for (SoapClient.registrar_positivo fromstring env self rd request c).1)
  ∧ (∀ self c rd request (db : D),
       (Main.registro_negativo fromstring dumps env (Some (self, c)) rd request db).1.1
       = response_for (SoapClient.registrar_negativo fromstring env self rd request c).1)
  ∧ (∀ self c rd request (db : D),
       (Main.cancelacion_negativo fromstring dumps env (Some (self, c)) rd request db).1.1
       = response_for (SoapClient.cancelar_negativo fromstring env self rd request c).1)
  ∧ (∀ self c rd request (db : D),
       (Main.modificacion_positivo fromstring dumps env (Some (self, c)) rd request db).1.1
       = response_for (SoapClient.modificar_positivo fromstring env self rd request c).1)
  ∧ (∀ self c rd request (db : D),
       (Main.cancelacion_positivo fromstring dumps env (Some (self, c)) rd request db).1.1
       = response_for (SoapClient.cancelar_positivo fromstring env self rd request c).1)
  ∧ (∀ self request (db : D),
       (Main.consulta_positiva fromstring dumps (Some self) request db).1
       = response_for
           (ConsultaClient.consulta_positiva fromstring self
              (Models.ConsultaPositivaRequest.imei request)
              (Models.ConsultaPositivaRequest.tipo_identificacion_propietario request)
              (Models.ConsultaPositivaRequest.identificacion_propietario request)))
  ∧ (∀ self imei (db : D),
       (Main.consulta_negativa fromstring dumps (Some self) imei db).1
       = response_for (ConsultaClient.consulta_negativa fromstring self imei))
  ∧ (∀ self imei (db : D),
       (Main.consulta_negativa_tipo_reporte fromstring dumps (Some self) imei db).1
       = response_for (ConsultaClient.consulta_negativa_tipo_reporte fromstring self imei)).
Proof.
  intros Hrollback.
  repeat split; intros; try by apply log_and_respond_response.
  all: unfold Main.registro_positivo, Main.registro_negativo, Main.cancelacion_negativo,
         Main.modificacion_positivo, Main.cancelacion_positivo;
       match goal with
       | |- context [let '(_, _) := ?call in _] => destruct call as [soap_response c']
       end;
       match goal with
       | |- context [Main.log_and_respond ?d ?db ?kind ?msg_type ?request_data ?r] =>
           pose proof (log_and_respond_response db kind msg_type request_data r
                         Hrollback) as Hr;
           by destruct (Main.log_and_respond d db kind msg_type request_data r)
       end.
Qed.

(** From the outcome of the action client to the answer of the API. A 4xx
    status of the service: a response returned with [success = false] and
    that status. A 5xx status: an [HTTPException] with that status. A
    transport that raises: an [HTTPException] with status 500. A 2xx status
    with a body that does not parse, or with a return text other than
    "ack": a response returned with [success = false] and the 2xx status,
    in the second case with the text as error code. *)
Theorem action_outcome_to_api (self : SoapClient.SRTMAxisClient)
    (boundary_hex cid_hex msg_type xml_payload : string) :
  let r := SoapClient._send_request fromstring self boundary_hex cid_hex
             msg_type xml_payload in
  (∀ http_res,
     SoapClient.post self boundary_hex cid_hex msg_type xml_payload = inr http_res →
     (400 ≤ status_code http_res < 500)%Z →
     ∃ api, response_for r = inr api
            ∧ Main.api_success api = false
            ∧ Main.api_http_status api = status_code http_res
            ∧ Main.api_error_code api = None)
  ∧ (∀ http_res,
       SoapClient.post self boundary_hex cid_hex msg_type xml_payload = inr http_res →
       (500 ≤ status_code http_res < 600)%Z →
       ∃ detail, response_for r
                 = inl (Main.Http {| Main.status_code := status_code http_res;
                                     Main.detail := Some detail |}))
  ∧ (∀ e, SoapClient.post self boundary_hex cid_hex msg_type xml_payload = inl e →
       ∃ detail, response_for r
                 = inl (Main.Http {| Main.status_code := 500;
                                     Main.detail := Some detail |}))
  ∧ (∀ http_res msg,
       SoapClient.post self boundary_hex cid_hex msg_type xml_payload = inr http_res →
       (200 ≤ status_code http_res < 300)%Z →
       fromstring (content http_res) = inl msg →
       ∃ api, response_for r = inr api
              ∧ Main.api_success api = false
              ∧ Main.api_http_status api = status_code http_res)
  ∧ (∀ http_res res_env,
       SoapClient.post self boundary_hex cid_hex msg_type xml_payload = inr http_res →
       (200 ≤ status_code http_res < 300)%Z →
       fromstring (content http_res) = inr res_env →
       strip (findtext (Descendant "receiveMessageReturn") "" res_env) ≠ "ack" →
       ∃ api, response_for r = inr api
              ∧ Main.api_success api = false
              ∧ Main.api_http_status api = status_code http_res
              ∧ Main.api_error_code api
                = Some (strip (findtext (Descendant "receiveMessageReturn") "" res_env))).
Proof.
  intros r. subst r.
  unfold response_for, Main.create_api_response,
    SoapClient._send_request, SoapClient._send_request_run, SoapClient._send_request_try.
  split; [|split; [|split; [|split]]].
  - intros http_res Hpost Hstatus. rewrite Hpost, try_lift_inr, try_update.
    unfold raise_for_status. rewrite bool_decide_eq_true_2 by done.
    rewrite try_lift_inl. cbn. rewrite bool_decide_eq_false_2 by lia. by eexists.
  - intros http_res Hpost Hstatus. rewrite Hpost, try_lift_inr, try_update.
    unfold raise_for_status. rewrite bool_decide_eq_false_2 by lia.
    rewrite bool_decide_eq_true_2 by done.
    rewrite try_lift_inl. cbn. rewrite bool_decide_eq_true_2 by lia. by eexists.
  - intros e Hpost. rewrite Hpost, try_lift_inl. destruct e; cbn; by eexists.
  - intros http_res msg Hpost Hstatus Hparse.
    rewrite Hpost, try_lift_inr, try_update, (raise_for_status_2xx _ Hstatus),
      try_lift_inr, (try_parse_inl _ _ _ _ _ _ Hparse), state_prepend.
    cbn. rewrite bool_decide_eq_false_2 by lia. by eexists.
  - intros http_res res_env Hpost Hstatus Hparse Hne.
    rewrite Hpost, try_lift_inr, try_update, (raise_for_status_2xx _ Hstatus),
      try_lift_inr, (try_parse_inr _ _ _ _ _ _ Hparse), state_prepend, try_update.
    apply String.eqb_neq in Hne. rewrite Hne.
    rewrite !try_update, try_update_last. cbn.
    rewrite bool_decide_eq_false_2 by lia. by eexists.
Qed.

(** From the outcome of the query client to the answer of the API: when
    the transport raises, when the service answers a 4xx or 5xx status, and
    when the body or the nested document does not parse, the endpoint raises
    the same [HTTPException]: status 500 with the generic detail. *)
Theorem query_outcome_to_api (self : ConsultaClient.ConsultaDBAClient)
    (op xml_payload : string) :
  let r := ConsultaClient._send_request fromstring self op xml_payload in
  (∀ e, ConsultaClient.post self op xml_payload = inl e → response_for r = inl procesamiento)
  ∧ (∀ http_res,
       ConsultaClient.post self op xml_payload = inr http_res →
       (400 ≤ status_code http_res < 600)%Z →
       response_for r = inl procesamiento)
  ∧ (∀ http_res msg,
       ConsultaClient.post self op xml_payload = inr http_res →
       raise_for_status http_res = inr tt →
       fromstring (content http_res) = inl msg →
       response_for r = inl procesamiento)
  ∧ (∀ http_res root result_text msg,
       ConsultaClient.post self op xml_payload = inr http_res →
       raise_for_status http_res = inr tt →
       fromstring (content http_res) = inr root →
       find (Descendant (op +:+ "Return")) root ≫= text = Some result_text →
       truthy result_text = true →
       fromstring (encode_utf8 result_text) = inl msg →
       response_for r = inl procesamiento).
Proof.
  intros r. subst r.
  unfold response_for, Main.create_api_response,
    ConsultaClient._send_request, ConsultaClient._send_request_run,
    ConsultaClient._send_request_try.
  split; [|split; [|split]].
  - intros e Hpost. by rewrite Hpost, try_lift_inl.
  - intros http_res Hpost Hstatus. rewrite Hpost, try_lift_inr, try_update.
    assert (∃ e, raise_for_status http_res = inl e) as (e & ->).
    { unfold raise_for_status. repeat case_bool_decide; eauto. lia. }
    by rewrite try_lift_inl.
  - intros http_res msg Hpost Hstatus Hparse.
    by rewrite Hpost, try_lift_inr, try_update, Hstatus, try_lift_inr,
      (try_parse_inl _ _ _ _ _ _ Hparse), state_prepend.
  - intros http_res root result_text msg Hpost Hstatus Hroot Hret Htruthy Hinner.
    by rewrite Hpost, try_lift_inr, try_update, Hstatus, try_lift_inr,
      (try_parse_inr _ _ _ _ _ _ Hroot), Hret, Htruthy,
      (try_parse_inl _ _ _ _ _ _ Hinner), !state_prepend.
Qed.

End api.

Lemma endpoint_response_from_client_witness :
  (Main.consulta_negativa (H := Samples.locked_session) MiniXml.fromstring Samples.dumps
     (Some (Samples.consulta_client (Samples.ok Samples.empty_return)))
     "852055059447491" {| Samples.rolled_back := 0 |}).1
  = response_for
      (ConsultaClient.consulta_negativa MiniXml.fromstring
         (Samples.consulta_client (Samples.ok Samples.empty_return)) "852055059447491").
Proof.
  apply (proj1 (proj2 (proj2 (proj2 (proj2 (proj2 (proj2
           (endpoint_response_from_client (H := Samples.locked_session)
              MiniXml.fromstring Samples.dumps Samples.env
              (λ db, eq_refl))))))))).
Defined.

Lemma action_outcome_to_api_witness :
  (∃ api, response_for (Samples.accion (Samples.not_found "<html>Not Found</html>"))
          = inr api
          ∧ Main.api_success api = false
          ∧ Main.api_http_status api = 404%Z
          ∧ Main.api_error_code api = None)
  ∧ (∃ detail, response_for (Samples.accion (Samples.unavailable "<html>Busy</html>"))
               = inl (Main.Http {| Main.status_code := 503;
                                   Main.detail := Some detail |})).
Proof.
  split.
  - apply (proj1 (action_outcome_to_api MiniXml.fromstring
                    (Samples.soap_client (Samples.not_found "<html>Not Found</html>"))
                    "0123456789abcdef0123456789abcdef" "fedcba9876543210fedcba9876543210"
                    "5001" Samples.mensaje)
             (Samples.not_found "<html>Not Found</html>"));
      [reflexivity | cbn; lia].
  - apply (proj1 (proj2 (action_outcome_to_api MiniXml.fromstring
                    (Samples.soap_client (Samples.unavailable "<html>Busy</html>"))
                    "0123456789abcdef0123456789abcdef" "fedcba9876543210fedcba9876543210"
                    "5001" Samples.mensaje))
             (Samples.unavailable "<html>Busy</html>"));
      [reflexivity | cbn; lia].
Defined.

Lemma query_outcome_to_api_witness :
  response_for
    (ConsultaClient._send_request MiniXml.fromstring
       (Samples.consulta_client (Samples.not_found "<html>Not Found</html>"))
       "consultaBDANegativa" Samples.query)
  = inl procesamiento
  ∧ response_for (Samples.consulta Samples.inner_not_xml) = inl procesamiento.
Proof.
  split.
  - apply (proj1 (proj2 (query_outcome_to_api MiniXml.fromstring
                    (Samples.consulta_client (Samples.not_found "<html>Not Found</html>"))
                    "consultaBDANegativa" Samples.query))
             (Samples.not_found "<html>Not Found</html>"));
      [reflexivity | cbn; lia].
  - apply (proj2 (proj2 (proj2 (query_outcome_to_api MiniXml.fromstring
                    (Samples.consulta_client
                       (Samples.ok (Samples.negativa_response Samples.inner_not_xml)))
                    "consultaBDANegativa" Samples.query)))
             (Samples.ok (Samples.negativa_response Samples.inner_not_xml))
             (Samples.tree (Samples.negativa_response Samples.inner_not_xml))
             Samples.inner_not_xml "not a well-formed document of the plain fragment");
      [reflexivity | reflexivity | vm_compute; reflexivity ..].
Defined.

